(** * pattern-generator: a shallow embedding of [src/main.py]

    The development follows the program top-down as it is written:
    Python values and exceptions, the arithmetic [round(a / b)], the random
    source behind [random.choice], the configuration loader
    ([_load_config], [_check_valid_file]), the class [Main] with
    [__gen_pattern], [__config] and [__draw_pattern], and the turtle the
    renderer drives.  Theorems come after all definitions. *)

From Stdlib Require Import ZArith QArith Qround Lia Lqa Ascii String List.
From stdpp Require Import gmap strings list pretty.
Import ListNotations.

Close Scope Q_scope.
Local Open Scope string_scope.
Local Open Scope list_scope.
Local Open Scope Z_scope.

(** ** Python exceptions and results *)

(** The exceptions the modelled code can raise.  [TurtleGraphicsError] is
    the turtle's answer to a colour string the screen does not know,
    [SystemExit] is what [sys.exit()] raises at the end of
    [__draw_pattern].  [Unsupported] is
    not a Python exception: the turtle model below has exact coordinates
    only along headings that are multiples of 90 degrees and stops with it
    on any other heading (the renderer never reaches one, see
    [draw_pattern_total]). *)
Inductive exn : Type :=
  | ZeroDivisionError
  | IndexError
  | TypeError
  | KeyError
  | OSError
  | JSONDecodeError
  | TurtleGraphicsError
  | SystemExit
  | Unsupported.

Inductive result (A : Type) : Type :=
  | Ok (a : A)
  | Raise (e : exn).
Arguments Ok {A} a.
Arguments Raise {A} e.

Global Instance result_ret : MRet result := fun _ a => Ok a.
Global Instance result_bind : MBind result := fun _ _ k r =>
  match r with
  | Ok a => k a
  | Raise e => Raise e
  end.

(** ** Python values

    The configuration is annotated [dict[str, int | list[str]]]: a value
    is an [int] or a list of strings.  Operations on the wrong kind of
    value raise [TypeError], as they do in Python.  The other values a
    JSON file can hold (floats, strings, booleans, [null], nested objects)
    are outside the annotation and outside this type: a theorem that
    speaks of the kind of an attribute takes it as a hypothesis. *)
Inductive value : Type :=
  | VInt (n : Z)
  | VList (l : list string).

(** A Python [float] is modelled by the exact rational it stands for, kept
    in lowest terms.  For a dividend below [2^50] in magnitude (the
    configuration uses 0..1000) binary64 division followed by [round]
    gives the same integer as the exact computation: [int_truediv] below
    is the binary64 quotient, and [int_truediv_agrees] proves that it
    rounds as the exact quotient does for every dividend below [2^52].
    Beyond that range the program rounds differently ([round((2^60 + 1) /
    2^61)] is 0) or raises [OverflowError] ([int_truediv_beyond]); the
    theorems on the rounded quotients therefore bound the dividends by
    [2^50]. *)
Abbreviation float := Q (only parsing).

(** [a / b] on Python values: true division. *)
Definition truediv (a b : value) : result float :=
  match a, b with
  | VInt x, VInt y =>
      if y =? 0 then Raise ZeroDivisionError
      else Ok (Qred (inject_Z x / inject_Z y))
  | _, _ => Raise TypeError
  end.

(** [-a] on a Python value. *)
Definition neg (a : value) : result value :=
  match a with
  | VInt x => Ok (VInt (- x))
  | VList _ => Raise TypeError
  end.

(** [round(x)] with one argument: the nearest integer, ties to the even
    neighbour. *)
Definition round (x : float) : Z :=
  let f := Qfloor x in
  match Qcompare (x - inject_Z f) (1 # 2) with
  | Lt => f
  | Gt => f + 1
  | Eq => if Z.even f then f else f + 1
  end.

(** [floor(log2(|a| / |b|))] for non-zero [a] and [b]: the binary
    exponent of the quotient. *)
Definition quotient_exponent (a b : Z) : Z :=
  let e0 := Z.log2 (Z.abs a) - Z.log2 (Z.abs b) in
  if Z.abs a * 2 ^ Z.max 0 (- e0) <? Z.abs b * 2 ^ Z.max 0 e0 then e0 - 1
  else e0.

(** [a / b] on Python integers as the interpreter computes it ([b] not 0):
    the quotient rounded to the nearest binary64 number, ties to the even
    significand.  The result is a multiple [m * 2^k] of the unit in the
    last place, [k] being the exponent of the quotient less 52 and at
    least -1074 (the subnormal numbers); [None] stands for the
    [OverflowError] of a result of magnitude [2^1024] or more.  The value
    of the float is given as a rational. *)
Definition int_truediv (a b : Z) : option float :=
  if a =? 0 then Some 0%Q
  else
    let k := Z.max (quotient_exponent a b - 52) (-1074) in
    let up := 2 ^ Z.max 0 k in
    let down := 2 ^ Z.max 0 (- k) in
    let m := round (Qred (inject_Z (a * down) / inject_Z (b * up))) in
    if 2 ^ 1024 * down <=? Z.abs m * up then None
    else Some (Qred (inject_Z (m * up) / inject_Z down)).

(** ** The random source

    [random.choice] draws an index below [len(seq)] from the generator.  The
    generator is a tape of raw draws read left to right; quantifying over
    all tapes covers every outcome of the unseeded source. *)
Record rng : Type := mkRng { tape : nat -> nat; pos : nat }.

Definition randbelow (n : nat) (g : rng) : nat * rng :=
  (Nat.modulo (tape g (pos g)) n, mkRng (tape g) (S (pos g))).

(** [choice(seq)]: [IndexError] on an empty sequence, [TypeError] on a
    value without [len]. *)
Definition choice (seq : value) (g : rng) : result (string * rng) :=
  match seq with
  | VInt _ => Raise TypeError
  | VList [] => Raise IndexError
  | VList (c :: cs) =>
      let (i, g') := randbelow (length (c :: cs)) g in
      Ok (nth i (c :: cs) c, g')
  end.

(** ** [Main.__gen_pattern]

    [[choice(colours) for _ in range(width)]]: one row. *)
Fixpoint gen_row (n : nat) (colours : value) (g : rng)
  : result (list string * rng) :=
  match n with
  | O => Ok ([], g)
  | S n' =>
      '(c, g1) ← choice colours g;
      '(cs, g2) ← gen_row n' colours g1;
      Ok (c :: cs, g2)
  end.

(** [[row for _ in range(height)]]. *)
Fixpoint gen_rows (n : nat) (width : nat) (colours : value) (g : rng)
  : result (list (list string) * rng) :=
  match n with
  | O => Ok ([], g)
  | S n' =>
      '(r, g1) ← gen_row width colours g;
      '(rs, g2) ← gen_rows n' width colours g1;
      Ok (r :: rs, g2)
  end.

(** [range(n)] has [max(n, 0)] elements, which is [Z.to_nat n]. *)
Definition gen_pattern (width height : Z) (colours : value) (g : rng)
  : result (list (list string) * rng) :=
  gen_rows (Z.to_nat height) (Z.to_nat width) colours g.

(** ** Constants of the module *)

Definition _DEFAULT_CONFIG_FILE : string := "./config.json".
Definition _ALT_CONFIGS_FOLDER : string := "./alt-configs/".
Definition _NECESSARY_KEYS : list string :=
  ["speed"; "height"; "width"; "side_length"; "colours"].

(** ** The environment of the loader

    What the program reads but does not define: the regular files on disk
    with their contents, [json.loads], [pathlib.Path(file).suffix], and the
    dictionary [_DEFAULT_CONFIG] that the module loads once at import.
    [loads] answers a dictionary, as [_load_config] is annotated, or
    raises; a file whose text is JSON but not an object (on which the
    program fails at [.keys()]) is outside the annotation and is not
    modelled. *)
Record env : Type := mkEnv {
  disk : string -> option string;
  loads : string -> result (gmap string value);
  suffix : string -> string;
  _DEFAULT_CONFIG : gmap string value
}.

(** [Path(file).is_file()] *)
Definition is_file (E : env) (file : string) : bool :=
  match disk E file with Some _ => true | None => false end.

(** [open(file, "r").read()] *)
Definition read (E : env) (file : string) : result string :=
  match disk E file with Some s => Ok s | None => Raise OSError end.

Definition _load_config (E : env) (file : string)
  : result (gmap string value) :=
  text ← read E file;
  loads E text.

(** The [for item in _NECESSARY_KEYS] loop of [_check_valid_file]: the
    file is loaded again for every key. *)
Fixpoint check_keys (E : env) (file : string) (keys : list string)
  : result bool :=
  match keys with
  | [] => Ok true
  | item :: rest =>
      d ← _load_config E file;
      match d !! item with
      | None => Ok false
      | Some _ => check_keys E file rest
      end
  end.

Definition _check_valid_file (E : env) (file : string) : result bool :=
  if is_file E file && String.eqb (suffix E file) ".json"
  then check_keys E file _NECESSARY_KEYS
  else Ok false.

(** ** The turtle

    The part of [turtle.Turtle] the renderer uses, with exact coordinates.
    Standard mode: heading 0 is east, angles grow counter-clockwise, so
    [right] subtracts.  A fresh turtle sits at the origin, pen down.  The
    turtle belongs to a screen, which decides what strings are colours
    ([iscolorstring], Tk's colour names and hex forms). *)
Module Turtle.

Record t : Type := mk {
  xcor : float;
  ycor : float;
  heading : Z;
  isdown : bool;
  filling : bool;
  pencolor : string;
  isvisible : bool;
  iscolorstring : string -> bool
}.

Definition fresh (screen : string -> bool) : t :=
  mk 0%Q 0%Q 0 true false "black" true screen.

(** Unit vector of a heading that is a multiple of 90 degrees. *)
Definition dir (h : Z) : option (Z * Z) :=
  match h mod 360 with
  | 0 => Some (1, 0)
  | 90 => Some (0, 1)
  | 180 => Some (-1, 0)
  | 270 => Some (0, -1)
  | _ => None
  end.

Definition penup (c : t) : t :=
  mk (xcor c) (ycor c) (heading c) false (filling c) (pencolor c) (isvisible c)
     (iscolorstring c).
Definition pendown (c : t) : t :=
  mk (xcor c) (ycor c) (heading c) true (filling c) (pencolor c) (isvisible c)
     (iscolorstring c).
Definition hideturtle (c : t) : t :=
  mk (xcor c) (ycor c) (heading c) (isdown c) (filling c) (pencolor c) false
     (iscolorstring c).
Definition color (col : string) (c : t) : t :=
  mk (xcor c) (ycor c) (heading c) (isdown c) (filling c) col (isvisible c)
     (iscolorstring c).
Definition begin_fill (c : t) : t :=
  mk (xcor c) (ycor c) (heading c) (isdown c) true (pencolor c) (isvisible c)
     (iscolorstring c).
Definition end_fill (c : t) : t :=
  mk (xcor c) (ycor c) (heading c) (isdown c) false (pencolor c) (isvisible c)
     (iscolorstring c).
Definition goto (x y : float) (c : t) : t :=
  mk x y (heading c) (isdown c) (filling c) (pencolor c) (isvisible c)
     (iscolorstring c).
Definition right (angle : Z) (c : t) : t :=
  mk (xcor c) (ycor c) ((heading c - angle) mod 360)
     (isdown c) (filling c) (pencolor c) (isvisible c) (iscolorstring c).

Definition forward (distance : value) (c : t) : result t :=
  match distance with
  | VList _ => Raise TypeError
  | VInt d =>
      match dir (heading c) with
      | None => Raise Unsupported
      | Some (dx, dy) =>
          Ok (mk (Qred (xcor c + inject_Z (d * dx)))
                 (Qred (ycor c + inject_Z (d * dy)))
                 (heading c) (isdown c) (filling c) (pencolor c)
                 (isvisible c) (iscolorstring c))
      end
  end.

End Turtle.

(** ** Calls on the canvas

    Every call the renderer makes on the screen, the turtle, [sleep], with
    its arguments. *)
Inductive call : Type :=
  | Setup (w h : value)
  | HideTurtle
  | Speed (s : value)
  | PenUp
  | PenDown
  | Goto (x y : float)
  | Color (c : string)
  | BeginFill
  | EndFill
  | Forward (d : value)
  | Right (angle : Z)
  | Sleep (secs : Z)
  | Bye.

(** The canvas: the one shared turtle and the calls made so far, oldest
    first. *)
Record canvas : Type := mkCanvas { cursor : Turtle.t; log : list call }.

(** What a call does to the turtle.  [speed] looks its argument up in a
    dictionary, which a list does not survive; [color] asks the screen
    about the string.  The window calls ([setup], [bye]) and [sleep] leave
    the turtle alone; what the window system makes of their arguments is
    outside the model. *)
Definition step (c : call) (t : Turtle.t) : result Turtle.t :=
  match c with
  | Setup _ _ | Sleep _ | Bye => Ok t
  | Speed (VInt _) => Ok t
  | Speed (VList _) => Raise TypeError
  | HideTurtle => Ok (Turtle.hideturtle t)
  | PenUp => Ok (Turtle.penup t)
  | PenDown => Ok (Turtle.pendown t)
  | Goto x y => Ok (Turtle.goto x y t)
  | Color col =>
      if Turtle.iscolorstring t col then Ok (Turtle.color col t)
      else Raise TurtleGraphicsError
  | BeginFill => Ok (Turtle.begin_fill t)
  | EndFill => Ok (Turtle.end_fill t)
  | Forward d => Turtle.forward d t
  | Right a => Ok (Turtle.right a t)
  end.

(** Drawing code: it changes the canvas and returns or raises; the canvas
    keeps what was drawn before an exception. *)
Definition Draw (A : Type) : Type := canvas -> result A * canvas.

Definition dret {A} (a : A) : Draw A := fun s => (Ok a, s).
Definition dbind {A B} (m : Draw A) (k : A -> Draw B) : Draw B :=
  fun s =>
    match m s with
    | (Ok a, s') => k a s'
    | (Raise e, s') => (Raise e, s')
    end.
Definition lift {A} (r : result A) : Draw A := fun s => (r, s).
Definition raise {A} (e : exn) : Draw A := fun s => (Raise e, s).

Global Instance draw_ret : MRet Draw := @dret.
Global Instance draw_bind : MBind Draw := fun _ _ k m => dbind m k.

Notation "m >> k" := (dbind m (fun _ => k))
  (at level 62, right associativity).

(** Make one call: the turtle moves, the call is logged.  A call that
    raises leaves the canvas as it was. *)
Definition emit (c : call) : Draw unit :=
  fun s =>
    match step c (cursor s) with
    | Ok t' => (Ok tt, mkCanvas t' (log s ++ [c]))
    | Raise e => (Raise e, s)
    end.

(** [self.__t.ycor()] *)
Definition ycor : Draw float := fun s => (Ok (Turtle.ycor (cursor s)), s).

(** [for x in l: body(x)] *)
Fixpoint for_each {A} (l : list A) (body : A -> Draw unit) : Draw unit :=
  match l with
  | [] => dret tt
  | x :: rest => body x >> for_each rest body
  end.

(** [for _ in range(n): body] *)
Fixpoint for_range (n : nat) (body : Draw unit) : Draw unit :=
  match n with
  | O => dret tt
  | S n' => body >> for_range n' body
  end.

(** [y - v] for a float [y] and a Python value [v]. *)
Definition fsub (y : float) (v : value) : result float :=
  match v with
  | VInt n => Ok (Qred (y - inject_Z n))
  | VList _ => Raise TypeError
  end.


(** ** The class [Main] *)
Module Main.

(** The instance attributes ([__slots__]).  The attributes read from the
    configuration hold whatever Python value the file gave them. *)
Record t : Type := mk {
  previous_drawing : list (list string);
  colours : value;
  pattern : list (list string);
  width : value;
  height : value;
  speed : value;
  side_length : value;
  config_contents : gmap string value
}.

(** [__gen_pattern(width, height, colours)] *)
Definition __gen_pattern := gen_pattern.

(** [contents[key] if key in contents.keys() else _DEFAULT_CONFIG[key]] *)
Definition get_or_default (E : env) (contents : gmap string value)
    (key : string) : result value :=
  match contents !! key with
  | Some v => Ok v
  | None =>
      match _DEFAULT_CONFIG E !! key with
      | Some v => Ok v
      | None => Raise KeyError
      end
  end.

(** Lines 306-310: the grid for a canvas of [width] by [height] and squares
    of [side_length].  The arguments are evaluated left to right, so the
    columns' quotient comes first. *)
Definition generate (width height side_length colours : value) (g : rng)
  : result (list (list string) * rng) :=
  cols ← truediv width side_length;
  rows ← truediv height side_length;
  __gen_pattern (round cols) (round rows) colours g.

(** Lines 291-310 of [__config]: the attributes are assigned from the
    loaded dictionary in the order of the source. *)
Definition apply_contents (E : env) (self : t)
    (contents : gmap string value) (g : rng) : result (t * rng) :=
  speed ← get_or_default E contents "speed";
  width ← get_or_default E contents "width";
  height ← get_or_default E contents "height";
  side_length ← get_or_default E contents "side_length";
  colours ← get_or_default E contents "colours";
  '(pattern, g') ← generate width height side_length colours g;
  Ok (mk (previous_drawing self) colours pattern width height speed
         side_length contents, g').

(** [__config(file)]: line 288 picks the dictionary, the rest applies
    it. *)
Definition __config (E : env) (self : t) (file : string) (g : rng)
  : result (t * rng) :=
  valid ← _check_valid_file E file;
  contents ← (if valid : bool then _load_config E file
              else _load_config E _DEFAULT_CONFIG_FILE);
  apply_contents E self contents g.

(** Lines 242-244, "Initialise". *)
Definition begin_cell (item : string) : Draw unit :=
  emit PenDown >> emit (Color item) >> emit BeginFill.

(** Lines 247-249, "Draw square". *)
Definition draw_square (self : t) : Draw unit :=
  for_range 4 (emit (Forward (side_length self)) >> emit (Right 90)).

(** Lines 252-253, "Reset position". *)
Definition reset_position (self : t) : Draw unit :=
  emit EndFill >> emit (Forward (side_length self)).

(** The body of [for item in row]. *)
Definition draw_item (self : t) (item : string) : Draw unit :=
  begin_cell item >> draw_square self >> reset_position self.

(** Lines 256-257, "Start new line". *)
Definition new_line (self : t) : Draw unit :=
  emit PenUp >>
  (x ← lift (w ← neg (width self); truediv w (VInt 2));
   y0 ← ycor;
   y ← lift (fsub y0 (side_length self));
   emit (Goto x y)).

(** The body of [for row in self.__pattern]. *)
Definition draw_row (self : t) (row : list string) : Draw unit :=
  for_each row (draw_item self) >> new_line self.

(** Lines 228-234: set up the window and go to the top left. *)
Definition position (self : t) : Draw unit :=
  emit (Setup (width self) (height self)) >>
  emit HideTurtle >>
  emit (Speed (speed self)) >>
  emit PenUp >>
  (x ← lift (w ← neg (width self); truediv w (VInt 2));
   y ← lift (truediv (height self) (VInt 2));
   emit (Goto x y)).

(** Lines 259-261: pause, close the window, leave the program. *)
Definition finish : Draw unit :=
  emit (Sleep 10) >> emit Bye >> raise SystemExit.

Definition __draw_pattern (self : t) : Draw unit :=
  position self >>
  for_each (pattern self) (draw_row self) >>
  finish.

(** [Main()]: [__init__] sets [__previous_drawing]; the other attributes
    do not exist until [__config] assigns them, so their values here are
    never read. *)
Definition new : t :=
  mk [] (VList []) [] (VInt 0) (VInt 0) (VInt 0) (VInt 0) ∅.

End Main.


(** ** The hex colour pattern

    [_HEX_CODE_REGEX = ^#(?:[0-9a-fA-F]{3}){1,2}$]: a [#] and three or six
    hexadecimal digits.  Without [re.MULTILINE] the [$] also matches just
    before one final newline. *)
Definition is_hex_digit (c : ascii) : bool :=
  let n := nat_of_ascii c in
  ((48 <=? n) && (n <=? 57) || (97 <=? n) && (n <=? 102)
   || (65 <=? n) && (n <=? 70))%nat.

Fixpoint all_hex (s : string) : bool :=
  match s with
  | EmptyString => true
  | String c rest => is_hex_digit c && all_hex rest
  end.

Fixpoint drop_final_newline (s : string) : string :=
  match s with
  | EmptyString => EmptyString
  | String c EmptyString =>
      if Ascii.eqb c "010"%char then EmptyString else s
  | String c rest => String c (drop_final_newline rest)
  end.

Definition hex_body (s : string) : bool :=
  all_hex s && ((String.length s =? 3) || (String.length s =? 6))%nat.

(** [bool(findall(_HEX_CODE_REGEX, tmp))] *)
Definition is_hex_code (tmp : string) : bool :=
  match tmp with
  | String "#"%char rest => hex_body rest || hex_body (drop_final_newline rest)
  | _ => false
  end.

(** ** Specification-side definitions

    These follow the words of the specification; the theorems compare them
    with the program above. *)

(** The dictionary has every one of the keys. *)
Definition has_keys (d : gmap string value) (keys : list string) : bool :=
  forallb (fun k => match d !! k with Some _ => true | None => false end) keys.

(** [n] is [num / den] rounded to the nearest integer, ties to even
    ([den > 0]). *)
Definition nearest_ties_even (num den n : Z) : Prop :=
  2 * Z.abs (num - n * den) <= den /\
  (2 * Z.abs (num - n * den) = den -> Z.even n = true).

(** A grid of [rows] rows, each of [cols] cells. *)
Definition has_shape (rows cols : nat) (p : list (list string)) : Prop :=
  length p = rows /\ Forall (fun r => length r = cols) p.

(** Every cell is a colour of the palette. *)
Definition within_palette (palette : list string) (p : list (list string))
  : Prop :=
  Forall (Forall (fun c => In c palette)) p.

(** An empty grid: no rows, or rows without cells. *)
Definition empty_grid (p : list (list string)) : Prop :=
  Forall (fun r => r = []) p.

(** One square-draw sequence: pen down, colour, fill opened, four sides
    each followed by a quarter turn to the right, fill closed. *)
Definition square_calls (side : value) (item : string) : list call :=
  [PenDown; Color item; BeginFill;
   Forward side; Right 90; Forward side; Right 90;
   Forward side; Right 90; Forward side; Right 90;
   EndFill].

(** A cell: its square, then the advance to the next cell. *)
Definition cell_calls (side : value) (item : string) : list call :=
  square_calls side item ++ [Forward side].

(** A row advance: pen up, back to [x], down to [y]. *)
Definition row_advance (x y : float) : list call := [PenUp; Goto x y].

(** The rows of a grid, drawn from height [y] downwards. *)
Fixpoint rows_calls (side : Z) (x y : float) (rows : list (list string))
  : list call :=
  match rows with
  | [] => []
  | r :: rest =>
      let y' := Qred (y - inject_Z side) in
      flat_map (cell_calls (VInt side)) r ++ row_advance x y'
        ++ rows_calls side x y' rest
  end.

(** Idle to Positioned. *)
Definition positioned_calls (w h : Z) (speed : value) : list call :=
  [Setup (VInt w) (VInt h); HideTurtle; Speed speed; PenUp;
   Goto (Qred (inject_Z (- w) / 2)) (Qred (inject_Z h / 2))].

(** Done: the pause and the teardown. *)
Definition done_calls : list call := [Sleep 10; Bye].

(** A pass that goes from Positioned directly to Done. *)
Definition direct_pass (w h : Z) (speed : value) (calls : list call) : Prop :=
  calls = positioned_calls w h speed ++ done_calls.

(** The calls that draw: pen down, colour, fill, movement along a side,
    turn. *)
Definition is_drawing (c : call) : bool :=
  match c with
  | PenDown | Color _ | BeginFill | EndFill | Forward _ | Right _ => true
  | _ => false
  end.

(** The number of square-draw sequences in a log: the positions at which
    one starts. *)
Definition starts_square (l : list call) : bool :=
  match l with
  | PenDown :: Color _ :: BeginFill
      :: Forward (VInt a) :: Right 90 :: Forward (VInt b) :: Right 90
      :: Forward (VInt c) :: Right 90 :: Forward (VInt d) :: Right 90
      :: EndFill :: _ => (a =? b) && (b =? c) && (c =? d)
  | _ => false
  end.

Fixpoint count_squares (l : list call) : nat :=
  match l with
  | [] => O
  | c :: rest =>
      ((if starts_square (c :: rest) then 1 else 0) + count_squares rest)%nat
  end.

(** The number of row advances in a log replayed from turtle [t]: a pen-up
    followed by a move to column [x] that lowers the turtle by [side]. *)
Fixpoint count_row_advances (x : float) (side : Z) (l : list call)
    (t : Turtle.t) : nat :=
  match l with
  | [] => O
  | c :: rest =>
      let here :=
        match c, rest with
        | PenUp, Goto x' y' :: _ =>
            if Qeq_bool x' x && Qeq_bool y' (Turtle.ycor t - inject_Z side)
            then 1%nat else O
        | _, _ => O
        end in
      match step c t with
      | Ok t' => (here + count_row_advances x side rest t')%nat
      | Raise _ => here
      end
  end.

(** A turtle whose heading is a multiple of 90 degrees in [0, 360). *)
Definition aligned (t : Turtle.t) : Prop :=
  In (Turtle.heading t) [0; 90; 180; 270].

(** The unit vector of an aligned heading. *)
Definition unit (h : Z) : Z * Z :=
  match Turtle.dir h with Some v => v | None => (0, 0) end.

(** The rows of a grid whose cells do not move the turtle up or down: the
    heading is horizontal, or the rows are empty. *)
Definition level (h : Z) (rows : list (list string)) : Prop :=
  Forall (fun row => Z.of_nat (length row) * snd (unit h) = 0) rows.

(** The screen of turtle [t] knows every colour of the grid. *)
Definition known_colours (t : Turtle.t) (p : list (list string)) : Prop :=
  Forall (Forall (fun c => Turtle.iscolorstring t c = true)) p.

(** The turtle after [forward(d)] along an aligned heading. *)
Definition moved (d : Z) (t : Turtle.t) : Turtle.t :=
  Turtle.mk (Qred (Turtle.xcor t + inject_Z (d * fst (unit (Turtle.heading t)))))
            (Qred (Turtle.ycor t + inject_Z (d * snd (unit (Turtle.heading t)))))
            (Turtle.heading t) (Turtle.isdown t) (Turtle.filling t)
            (Turtle.pencolor t) (Turtle.isvisible t) (Turtle.iscolorstring t).

(** The turtle after the four sides of a square. *)
Definition squared (d : Z) (t : Turtle.t) : Turtle.t :=
  Nat.iter 4 (fun t => Turtle.right 90 (moved d t)) t.

(** The turtle after a whole cell. *)
Definition cell_end (d : Z) (item : string) (t : Turtle.t) : Turtle.t :=
  moved d (Turtle.end_fill (squared d
    (Turtle.begin_fill (Turtle.color item (Turtle.pendown t))))).

(** The calls of a log replayed on a turtle. *)
Fixpoint replay (l : list call) (t : Turtle.t) : result Turtle.t :=
  match l with
  | [] => Ok t
  | c :: rest => t' ← step c t; replay rest t'
  end.

(** ** Sample files

    A small disk for the examples: the default file, and alternative files
    under [_ALT_CONFIGS_FOLDER].  [sample_loads] and [sample_suffix] stand
    in for [json.loads] and [Path(file).suffix] on these files only. *)
Definition make_config (speed width height side_length : Z)
    (colours : list string) : gmap string value :=
  <["speed" := VInt speed]> (<["width" := VInt width]>
  (<["height" := VInt height]> (<["side_length" := VInt side_length]>
  (<["colours" := VList colours]> ∅)))).

Definition default_cfg : gmap string value :=
  make_config 5 200 100 50 ["#ff0000"; "#00ff00"].
Definition zero_side_cfg : gmap string value :=
  make_config 5 200 100 0 ["#ff0000"; "#00ff00"].
Definition one_colour_cfg : gmap string value :=
  make_config 5 200 100 50 ["#abc"].
Definition bad_colours_cfg : gmap string value :=
  make_config 5 200 100 50 ["red"; "#12"].
Definition thin_cfg : gmap string value :=
  make_config 5 10 100 100 ["#ff0000"; "#00ff00"].

Definition sample_disk (file : string) : option string :=
  if String.eqb file "./config.json" then Some "default"
  else if String.eqb file "./alt-configs/zero.json" then Some "zero side"
  else if String.eqb file "./alt-configs/one.json" then Some "one colour"
  else if String.eqb file "./alt-configs/bad.json" then Some "bad colours"
  else if String.eqb file "./alt-configs/thin.json" then Some "thin"
  else if String.eqb file "./alt-configs/broken.json" then Some "{"
  else if String.eqb file "./alt-configs/notes.txt" then Some "{"
  else None.

Definition sample_loads (text : string) : result (gmap string value) :=
  if String.eqb text "default" then Ok default_cfg
  else if String.eqb text "zero side" then Ok zero_side_cfg
  else if String.eqb text "one colour" then Ok one_colour_cfg
  else if String.eqb text "bad colours" then Ok bad_colours_cfg
  else if String.eqb text "thin" then Ok thin_cfg
  else Raise JSONDecodeError.

Fixpoint ends_with (suf s : string) : bool :=
  String.eqb s suf ||
  match s with
  | EmptyString => false
  | String _ rest => ends_with suf rest
  end.

Definition sample_suffix (file : string) : string :=
  if ends_with ".json" file then ".json"
  else if ends_with ".txt" file then ".txt" else "".

Definition sample_env : env :=
  mkEnv sample_disk sample_loads sample_suffix default_cfg.

(** A generator whose draws are 0, 1, 2, ... *)
Definition counting_rng : rng := mkRng (fun i => i) 0.

(** A screen that knows the hex colours. *)
Definition hex_screen (c : string) : bool := is_hex_code c.

(** A canvas before the first call. *)
Definition blank : canvas := mkCanvas (Turtle.fresh hex_screen) [].

(** ** The pen and fill discipline of a log

    A log read with the pen state and the fill state at hand: [goto] is
    only made with the pen up and no fill open, [forward] only with the
    pen down, a fill is opened only when none is open and closed only when
    one is; at the end no fill is left open. *)
Fixpoint disciplined (l : list call) (down filling : bool) : bool :=
  match l with
  | [] => negb filling
  | c :: rest =>
      match c with
      | PenUp => disciplined rest false filling
      | PenDown => disciplined rest true filling
      | Goto _ _ => negb down && negb filling && disciplined rest down filling
      | Forward _ => down && disciplined rest down filling
      | BeginFill => negb filling && disciplined rest down true
      | EndFill => filling && disciplined rest down false
      | _ => disciplined rest down filling
      end
  end.

(** The turtle after the cells of a row, after a row with its row
    advance, and after all rows. *)
Definition cells_end (d : Z) (row : list string) (t : Turtle.t) : Turtle.t :=
  fold_left (fun t item => cell_end d item t) row t.

Definition row_end (w d : Z) (t : Turtle.t) (row : list string) : Turtle.t :=
  Turtle.goto (Qred (inject_Z (- w) / 2))
              (Qred (Turtle.ycor (cells_end d row t) - inject_Z d))
              (Turtle.penup (cells_end d row t)).

Definition rows_end (w d : Z) (rows : list (list string)) (t : Turtle.t)
  : Turtle.t :=
  fold_left (row_end w d) rows t.

(** ** The console

    [input] and [print] work on the lines still to be read and the texts
    written so far (one entry per [print] or prompt, without the final
    newline of [print]).  At the end of the input [input] raises
    [EOFError]. *)
Record console : Type := mkConsole {
  stdin : list string;
  stdout : list string
}.

(** What stops interactive code: the end of the input, or one of the
    exceptions of the rest of the program. *)
Inductive stop : Type :=
  | EOFError
  | Exception (e : exn).

Inductive outcome (A : Type) : Type :=
  | Return (a : A)
  | Stop (e : stop).
Arguments Return {A} a.
Arguments Stop {A} e.

(** The newline of the [\n] escapes in the messages. *)
Definition nl : string := String "010"%char EmptyString.

Definition input (prompt : string) (c : console) : outcome string * console :=
  match stdin c with
  | [] => (Stop EOFError, mkConsole [] (stdout c ++ [prompt]))
  | line :: rest => (Return line, mkConsole rest (stdout c ++ [prompt]))
  end.

Definition print (text : string) (c : console) : console :=
  mkConsole (stdin c) (stdout c ++ [text]).

Definition not_a_number : string :=
  String.append nl "ERROR: You didn't enter a number. Please try again...".

(** [_int_input(text)].  [int] is Python's [int] on a string, [None] for
    [ValueError].  Every turn of the [while True] loop reads one line, so
    the loop is a recursion on the lines left; [int_input_loop] states the
    loop as the source writes it. *)
Fixpoint int_input_from (int : string -> option Z) (text : string)
    (lines : list string) (out : list string) : outcome Z * console :=
  match lines with
  | [] => (Stop EOFError, mkConsole [] (out ++ [text]))
  | line :: rest =>
      match int line with
      | Some n => (Return n, mkConsole rest (out ++ [text]))
      | None => int_input_from int text rest (out ++ [text] ++ [not_a_number])
      end
  end.

Definition _int_input (int : string -> option Z) (text : string)
    (c : console) : outcome Z * console :=
  int_input_from int text (stdin c) (stdout c).

Definition out_of_range (lower upper : Z) : string :=
  String.append nl
    (String.append "ERROR: Your number wasn't in the correct range of "
       (String.append (pretty lower)
          (String.append " to "
             (String.append (pretty upper) ". Please try again...")))).

(** [lower <= tmp <= upper] *)
Definition in_range (lower upper tmp : Z) : bool :=
  (lower <=? tmp) && (tmp <=? upper).

(** [_range_input(text, lower, upper)]: again one recursion on the lines
    left, since every call of [_int_input] reads at least one;
    [range_input_loop] states the loop as the source writes it, with its
    call of [_int_input]. *)
Fixpoint range_input_from (int : string -> option Z) (text : string)
    (lower upper : Z) (lines : list string) (out : list string)
  : outcome Z * console :=
  match lines with
  | [] => (Stop EOFError, mkConsole [] (out ++ [text]))
  | line :: rest =>
      match int line with
      | Some tmp =>
          if in_range lower upper tmp
          then (Return tmp, mkConsole rest (out ++ [text]))
          else range_input_from int text lower upper rest
                 (out ++ [text] ++ [out_of_range lower upper])
      | None =>
          range_input_from int text lower upper rest
            (out ++ [text] ++ [not_a_number])
      end
  end.

Definition _range_input (int : string -> option Z) (text : string)
    (lower upper : Z) (c : console) : outcome Z * console :=
  range_input_from int text lower upper (stdin c) (stdout c).

Definition too_few_colours : string :=
  String.append nl
    "ERROR: You can't exit with less than 2 colours chosen. Please try again...".
Definition invalid_hex : string :=
  String.append nl "ERROR: Invalid hex code input. Please try again...".

(** [_colour_input(text, text_2, max_)], from the state [results] of its
    loop.  The prompt is [text] until two colours are in. *)
Fixpoint colour_input_from (text text_2 : string) (max_ : Z)
    (results : list string) (lines : list string) (out : list string)
  : outcome (list string) * console :=
  if Z.of_nat (length results) <=? max_ then
    let prompt := if (length results <? 2)%nat then text else text_2 in
    match lines with
    | [] => (Stop EOFError, mkConsole [] (out ++ [prompt]))
    | tmp :: rest =>
        if is_hex_code tmp
        then colour_input_from text text_2 max_ (results ++ [tmp]) rest
               (out ++ [prompt])
        else if String.eqb tmp "$$$"
        then if (1 <? length results)%nat
             then (Return results, mkConsole rest (out ++ [prompt]))
             else colour_input_from text text_2 max_ results rest
                    (out ++ [prompt] ++ [too_few_colours] ++ [invalid_hex])
        else colour_input_from text text_2 max_ results rest
               (out ++ [prompt] ++ [invalid_hex])
    end
  else (Return results, mkConsole lines out).

Definition _colour_input (text text_2 : string) (max_ : Z) (c : console)
  : outcome (list string) * console :=
  colour_input_from text text_2 max_ [] (stdin c) (stdout c).

(** An input line [_range_input] asks again for. *)
Definition rejected (int : string -> option Z) (lower upper : Z)
    (line : string) : Prop :=
  match int line with
  | None => True
  | Some n => in_range lower upper n = false
  end.

(** A stand-in for [int] on the lines of the examples: unsigned decimal
    numerals. *)
Fixpoint digits_value (s : string) (acc : Z) : option Z :=
  match s with
  | EmptyString => Some acc
  | String c rest =>
      let n := nat_of_ascii c in
      if ((48 <=? n) && (n <=? 57))%nat
      then digits_value rest (10 * acc + Z.of_nat (n - 48))
      else None
  end.

Definition sample_int (s : string) : option Z :=
  match s with
  | EmptyString => None
  | _ => digits_value s 0
  end.

(** ** The rest of the machine

    What the interactive code uses besides the console: Python's [int] on
    a string ([None] for [ValueError]), [json.dumps] as line 217 calls it,
    the names [os.listdir] finds in a folder, and whether a file can be
    opened for writing. *)
Record system : Type := mkSystem {
  int : string -> option Z;
  dumps : gmap string value -> string;
  listdir : env -> string -> result (list string);
  writable : env -> string -> bool
}.

(** The state the menu works on: the console, the files, the random
    source and the canvas. *)
Record world : Type := mkWorld {
  term : console;
  files : env;
  random : rng;
  screen : canvas
}.

Definition with_term (c : console) (w : world) : world :=
  mkWorld c (files w) (random w) (screen w).

(** [open(file, "w+")] and [write(text)]: the file holds [text] afterwards,
    the other files are as before. *)
Definition write_file (E : env) (file text : string) : env :=
  mkEnv (fun f => if String.eqb f file then Some text else disk E f)
        (loads E) (suffix E) (_DEFAULT_CONFIG E).

(** [string.digits + string.ascii_letters] *)
Definition digits_and_letters : string :=
  "0123456789abcdefghijklmnopqrstuvwxyzABCDEFGHIJKLMNOPQRSTUVWXYZ".

(** [choice] on the characters of a string. *)
Definition choice_char (seq : string) (g : rng) : result (ascii * rng) :=
  match seq with
  | EmptyString => Raise IndexError
  | String c _ =>
      let (i, g') := randbelow (String.length seq) g in
      Ok (nth i (list_ascii_of_string seq) c, g')
  end.

(** [''.join([choice(digits + ascii_letters) for _ in range(n)])] *)
Fixpoint random_string (n : nat) (g : rng) : result (string * rng) :=
  match n with
  | O => Ok (EmptyString, g)
  | S n' =>
      '(c, g1) ← choice_char digits_and_letters g;
      '(rest, g2) ← random_string n' g1;
      Ok (String c rest, g2)
  end.

(** [item.strip('#')] *)
Fixpoint lstrip_hash (s : string) : string :=
  match s with
  | EmptyString => EmptyString
  | String c rest => if Ascii.eqb c "#"%char then lstrip_hash rest else s
  end.

Definition strip_hash (s : string) : string :=
  String.rev (lstrip_hash (String.rev (lstrip_hash s))).

(** [''.join(l)] *)
Definition join (l : list string) : string :=
  fold_right String.append EmptyString l.

(** The dictionary of lines 204-210. *)
Definition new_contents (speed width height side_length : Z)
    (colours : list string) : gmap string value :=
  <["speed" := VInt speed]> (<["width" := VInt width]>
  (<["height" := VInt height]> (<["side_length" := VInt side_length]>
  (<["colours" := VList colours]> ∅)))).

(** The f-string of line 214. *)
Definition new_file_name (width height speed side_length : Z)
    (colours : list string) (rand_str : string) : string :=
  _ALT_CONFIGS_FOLDER +:+ "-w" +:+ pretty width +:+ "-h" +:+ pretty height
    +:+ "-s" +:+ pretty speed +:+ "-sl" +:+ pretty side_length
    +:+ "-c" +:+ join (map strip_hash colours)
    +:+ "-" +:+ rand_str +:+ "-.json".

(** Sequencing of prompts: the console of the world is threaded. *)
Definition ask {A B} (q : console -> outcome A * console)
    (k : A -> world -> outcome B * world) (w : world) : outcome B * world :=
  match q (term w) with
  | (Return a, c) => k a (with_term c w)
  | (Stop e, c) => (Stop e, with_term c w)
  end.

(** [Main.__create_config_file()] *)
Definition __create_config_file (sys : system) (w : world)
  : outcome Datatypes.unit * world :=
  ask (_range_input (int sys)
         (nl +:+ "Enter the screen width (max. 1000): ") 0 1000)
    (fun width =>
  ask (_range_input (int sys)
         (nl +:+ "Enter the screen height (max. 1000): ") 0 1000)
    (fun height =>
  ask (_range_input (int sys)
         (nl +:+ "Enter the drawing speed (max. 10): ") 0 10)
    (fun speed =>
  ask (_range_input (int sys)
         (nl +:+ "Enter the side length of the square/s (max. 250): ") 0 250)
    (fun side_length =>
  ask (_colour_input (nl +:+ "Enter a colour (max. 10): ")
         (nl +:+ "Enter a colour or '$$$' to finish (max. 10): ") 10)
    (fun colours w1 =>
  let contents := new_contents speed width height side_length colours in
  match random_string 5 (random w1) with
  | Raise e => (Stop (Exception e), w1)
  | Ok (rand_str, g) =>
      let w2 := mkWorld (term w1) (files w1) g (screen w1) in
      let fn := new_file_name width height speed side_length colours
                  rand_str in
      if writable sys (files w2) fn then
        let E := write_file (files w2) fn (dumps sys contents) in
        (Return tt,
         mkWorld (print (nl +:+ "New config file created...") (term w2))
                 E (random w2) (screen w2))
      else (Stop (Exception OSError), w2)
  end))))) w.

Global Instance value_eq_dec : EqDecision value.
Proof. solve_decision. Defined.

(** Stand-ins for the examples: [sample_dumps] is the inverse of
    [sample_loads] on the sample dictionaries, every file can be written,
    the folder lists three of the sample files. *)
Definition sample_dumps (d : gmap string value) : string :=
  if decide (d = default_cfg) then "default"
  else if decide (d = zero_side_cfg) then "zero side"
  else if decide (d = one_colour_cfg) then "one colour"
  else "{}".

Definition sample_system : system :=
  mkSystem sample_int sample_dumps
    (fun _ _ => Ok ["zero.json"; "thin.json"; "notes.txt"])
    (fun _ _ => true).

Definition sample_world (lines : list string) : world :=
  mkWorld (mkConsole lines []) sample_env counting_rng blank.

Definition current_files : string := nl +:+ "Current config files: ".
Definition enter_file_name : string :=
  nl +:+ "Enter the name of the file you want to use: ".
Definition invalid_file_name : string :=
  nl +:+ "ERROR: You didn't enter a valid file name. Please try again...".

(** The [while True] loop of [__change_config_file]: one line is read per
    turn; an exception of [_check_valid_file] ends it. *)
Fixpoint pick_file_from (E : env) (lines : list string) (out : list string)
  : outcome string * console :=
  match lines with
  | [] => (Stop EOFError, mkConsole [] (out ++ [enter_file_name]))
  | fn :: rest =>
      match _check_valid_file E (_ALT_CONFIGS_FOLDER +:+ fn) with
      | Raise e =>
          (Stop (Exception e), mkConsole rest (out ++ [enter_file_name]))
      | Ok true => (Return fn, mkConsole rest (out ++ [enter_file_name]))
      | Ok false =>
          pick_file_from E rest
            (out ++ [enter_file_name] ++ [invalid_file_name])
      end
  end.

(** [Main.__change_config_file()]: the new attributes are returned. *)
Definition __change_config_file (sys : system) (self : Main.t) (w : world)
  : outcome Main.t * world :=
  let c0 := print current_files (term w) in
  match listdir sys (files w) _ALT_CONFIGS_FOLDER with
  | Raise e => (Stop (Exception e), with_term c0 w)
  | Ok items =>
      let c1 := fold_left (fun c item => print item c) items c0 in
      match pick_file_from (files w) (stdin c1) (stdout c1) with
      | (Stop e, c2) => (Stop e, with_term c2 w)
      | (Return fn, c2) =>
          match Main.__config (files w) self (_ALT_CONFIGS_FOLDER +:+ fn)
                  (random w) with
          | Ok (self', g) =>
              (Return self', mkWorld c2 (files w) g (screen w))
          | Raise e => (Stop (Exception e), with_term c2 w)
          end
      end
  end.

(** ** The menu *)

Definition _MENU_ITEMS : list string :=
  ["draw pattern"; "change config file"; "new config file"; "quit"].

Definition is_lower (c : ascii) : bool :=
  let n := nat_of_ascii c in ((97 <=? n) && (n <=? 122))%nat.
Definition is_upper (c : ascii) : bool :=
  let n := nat_of_ascii c in ((65 <=? n) && (n <=? 90))%nat.

(** [str.title()] on ASCII text: a letter after a letter is lowered, any
    other letter is raised. *)
Fixpoint title_from (after_letter : bool) (s : string) : string :=
  match s with
  | EmptyString => EmptyString
  | String c rest =>
      if is_lower c then
        String (if after_letter then c
                else ascii_of_nat (nat_of_ascii c - 32)) (title_from true rest)
      else if is_upper c then
        String (if after_letter then ascii_of_nat (nat_of_ascii c + 32)
                else c) (title_from true rest)
      else String c (title_from false rest)
  end.

Definition title (s : string) : string := title_from false s.

Definition tab : string := String "009"%char EmptyString.

(** Lines 155-157: the heading and the numbered items. *)
Definition menu_heading : string :=
  nl +:+ "Please enter the number of the function you would like to execute: ".

Fixpoint print_items (index : nat) (items : list string) (c : console)
  : console :=
  match items with
  | [] => c
  | item :: rest =>
      print_items (S index) rest
        (print (tab +:+ "[" +:+ pretty (index + 1)%nat +:+ "] " +:+ title item)
               c)
  end.

Definition show_menu (c : console) : console :=
  print_items 0 _MENU_ITEMS (print menu_heading c).

Definition invalid_choice : string :=
  nl +:+ "ERROR: Invalid input. Please try again...".

(** [Main.__menu()].  Every turn of the loop reads at least one line, so
    as many turns as there are lines suffice; [menu_turn] states the loop
    as the source writes it, and the case of no turn left is never
    reached.  The attributes in force are returned when the loop is left
    by [break]. *)
Fixpoint menu_loop (turns : nat) (sys : system) (self : Main.t) (w : world)
  : outcome Main.t * world :=
  match input EmptyString (show_menu (term w)) with
  | (Stop e, c) => (Stop e, with_term c w)
  | (Return choice, c) =>
      let w1 := with_term c w in
      match turns with
      | O => (Stop EOFError, w1)
      | S turns' =>
          if String.eqb choice "1" then
            match Main.__draw_pattern self (screen w1) with
            | (Ok _, s) =>
                menu_loop turns' sys self
                  (mkWorld (term w1) (files w1) (random w1) s)
            | (Raise e, s) =>
                (Stop (Exception e),
                 mkWorld (term w1) (files w1) (random w1) s)
            end
          else if String.eqb choice "2" then
            match __change_config_file sys self w1 with
            | (Return self', w2) => menu_loop turns' sys self' w2
            | (Stop e, w2) => (Stop e, w2)
            end
          else if String.eqb choice "3" then
            match __create_config_file sys w1 with
            | (Return _, w2) => menu_loop turns' sys self w2
            | (Stop e, w2) => (Stop e, w2)
            end
          else if String.eqb choice "4" then (Return self, w1)
          else menu_loop turns' sys self
                 (with_term (print invalid_choice c) w1)
      end
  end.

Definition __menu (sys : system) (self : Main.t) (w : world)
  : outcome Main.t * world :=
  menu_loop (length (stdin (term w))) sys self w.



(** A line the menu does not know. *)
Definition unknown_choice (line : string) : Prop :=
  line <> "1" /\ line <> "2" /\ line <> "3" /\ line <> "4".

(** The sample files and one more, whose side length is negative. *)
Definition negative_side_cfg : gmap string value :=
  make_config 5 200 100 (-50) ["#ff0000"; "#00ff00"].

Definition negative_env : env :=
  mkEnv (fun file => if String.eqb file "./alt-configs/negative.json"
                     then Some "negative side" else sample_disk file)
        (fun text => if String.eqb text "negative side"
                     then Ok negative_side_cfg else sample_loads text)
        sample_suffix default_cfg.

(** What one showing of the menu writes. *)
Definition menu_text : list string :=
  stdout (show_menu (mkConsole [] [])).

(** * Theorems *)

(** ** Sequencing of results *)

Lemma bind_Ok {A B} (r : result A) (k : A -> result B) (b : B) :
  mbind k r = Ok b -> exists a, r = Ok a /\ k a = Ok b.
Proof.
  destruct r as [a|e]; simpl; intros H; [eauto | discriminate].
Qed.

Lemma bind_Ok_eq {A B} (r : result A) (k : A -> result B) (a : A) :
  r = Ok a -> mbind k r = k a.
Proof. intros ->. reflexivity. Qed.

Lemma bind_Raise_eq {A B} (r : result A) (k : A -> result B) (e : exn) :
  r = Raise e -> mbind k r = Raise e.
Proof. intros ->. reflexivity. Qed.

(** ** [choice] and the generator *)

Lemma choice_in cs g c g' :
  choice (VList cs) g = Ok (c, g') -> In c cs.
Proof.
  destruct cs as [|c0 cs]; [discriminate|].
  intros H.
  assert (Hc : c = nth (Nat.modulo (tape g (pos g)) (length (c0 :: cs)))
                       (c0 :: cs) c0)
    by (unfold choice, randbelow in H; congruence).
  rewrite Hc. apply nth_In. apply Nat.mod_upper_bound. discriminate.
Qed.

Lemma choice_total cs g :
  cs <> [] -> exists c g', choice (VList cs) g = Ok (c, g').
Proof.
  destruct cs as [|c0 cs]; [congruence|]. intros _.
  unfold choice, randbelow. eauto.
Qed.

Lemma gen_row_inv n colours g r g' :
  gen_row n colours g = Ok (r, g') ->
  length r = n /\ forall cs, colours = VList cs -> Forall (fun c => In c cs) r.
Proof.
  revert g r g'. induction n as [|n IH]; intros g r g'; simpl.
  - intros H. injection H as <- _. split; [reflexivity | constructor].
  - intros H. apply bind_Ok in H as [[c g1] [Hc H]].
    apply bind_Ok in H as [[cs' g2] [Hr H]].
    injection H as <- _. apply IH in Hr as [Hlen Hin].
    split; [simpl; congruence|].
    intros cs ->. constructor; [eapply choice_in; eassumption | auto].
Qed.

Lemma gen_row_total n cs g :
  cs <> [] -> exists r g', gen_row n (VList cs) g = Ok (r, g').
Proof.
  intros Hne. revert g. induction n as [|n IH]; intros g; [simpl; eauto|].
  cbn [gen_row].
  destruct (choice_total cs g Hne) as (c & g1 & Hc).
  rewrite (bind_Ok_eq _ _ _ Hc).
  destruct (IH g1) as (r & g2 & Hr).
  rewrite (bind_Ok_eq _ _ _ Hr). eauto.
Qed.

Lemma gen_row_empty_palette n g :
  (0 < n)%nat -> gen_row n (VList []) g = Raise IndexError.
Proof. destruct n; [lia | reflexivity]. Qed.

Lemma gen_rows_inv n width colours g p g' :
  gen_rows n width colours g = Ok (p, g') ->
  has_shape n width p /\
  forall cs, colours = VList cs -> within_palette cs p.
Proof.
  revert g p g'. induction n as [|n IH]; intros g p g'; simpl.
  - intros H. injection H as <- _. repeat split; constructor.
  - intros H. apply bind_Ok in H as [[r g1] [Hr H]].
    apply bind_Ok in H as [[rs g2] [Hrs H]].
    injection H as <- _.
    apply gen_row_inv in Hr as [Hlen Hin].
    apply IH in Hrs as [[Hn Hw] Hpal].
    split; [split; [simpl; congruence | constructor; assumption]|].
    intros cs Hcs. constructor; [apply Hin | apply Hpal]; assumption.
Qed.

Lemma gen_rows_total n width cs g :
  cs <> [] -> exists p g', gen_rows n width (VList cs) g = Ok (p, g').
Proof.
  intros Hne. revert g. induction n as [|n IH]; intros g; [simpl; eauto|].
  cbn [gen_rows].
  destruct (gen_row_total width cs g Hne) as (r & g1 & Hr).
  rewrite (bind_Ok_eq _ _ _ Hr).
  destruct (IH g1) as (p & g2 & Hp).
  rewrite (bind_Ok_eq _ _ _ Hp). eauto.
Qed.

Lemma gen_pattern_inv width height colours g p g' :
  gen_pattern width height colours g = Ok (p, g') ->
  has_shape (Z.to_nat height) (Z.to_nat width) p /\
  forall cs, colours = VList cs -> within_palette cs p.
Proof. apply gen_rows_inv. Qed.

Lemma gen_pattern_total width height cs g :
  cs <> [] -> exists p g', gen_pattern width height (VList cs) g = Ok (p, g').
Proof. apply gen_rows_total. Qed.

Lemma gen_pattern_empty_palette width height g :
  0 < width -> 0 < height ->
  gen_pattern width height (VList []) g = Raise IndexError.
Proof.
  intros Hw Hh. unfold gen_pattern.
  destruct (Z.to_nat height) as [|n] eqn:En; [lia|]. cbn [gen_rows].
  rewrite (bind_Raise_eq _ _ IndexError); [reflexivity|].
  apply gen_row_empty_palette. lia.
Qed.

(** ** [round(a / b)] *)

Lemma round_Qeq (x y : float) : (x == y)%Q -> round x = round y.
Proof.
  intros H. unfold round. cbv zeta.
  rewrite (Qfloor_comp _ _ H).
  assert (Hc : ((x - inject_Z (Qfloor y)) ?= (1 # 2))%Q
               = ((y - inject_Z (Qfloor y)) ?= (1 # 2))%Q).
  { apply Qcompare_comp; [rewrite H|]; reflexivity. }
  rewrite Hc. reflexivity.
Qed.

Lemma frac_compare (w f : Z) (p : positive) :
  ((inject_Z w / inject_Z (Zpos p) - inject_Z f) ?= (1 # 2))%Q
  = (2 * (w - f * Zpos p) ?= Zpos p).
Proof.
  unfold Qcompare, Qminus, Qplus, Qdiv, Qmult, Qinv, Qopp, inject_Z.
  cbn [Qnum Qden].
  rewrite Pos.mul_1_r. f_equal. lia.
Qed.

(** On a positive divisor [round] of the quotient is computed by integer
    division and a comparison of twice the remainder with the divisor. *)
Lemma round_quotient (w s : Z) :
  0 < s ->
  round (Qred (inject_Z w / inject_Z s)) =
  match 2 * (w - (w / s) * s) ?= s with
  | Lt => w / s
  | Gt => w / s + 1
  | Eq => if Z.even (w / s) then w / s else w / s + 1
  end.
Proof.
  intros Hs. rewrite (round_Qeq _ _ (Qred_correct _)).
  destruct s as [|p|p]; try lia.
  unfold round. cbv zeta. rewrite <- Zdiv_Qdiv. rewrite frac_compare.
  reflexivity.
Qed.

Lemma round_quotient_nearest (w s : Z) :
  0 < s -> nearest_ties_even w s (round (Qred (inject_Z w / inject_Z s))).
Proof.
  intros Hs. rewrite round_quotient by assumption.
  pose proof (Z.mod_pos_bound w s Hs) as Hr.
  pose proof (Z.div_mod w s ltac:(lia)) as Hd.
  rewrite Z.mul_comm in Hd.
  set (f := w / s) in *. set (r := w mod s) in *.
  assert (Hw : w - f * s = r) by lia.
  unfold nearest_ties_even.
  destruct (Z.compare_spec (2 * (w - f * s)) s) as [He|Hl|Hg].
  - destruct (Z.even f) eqn:Ev.
    + split; [lia | intros _; exact Ev].
    + split; [lia|]. intros _. rewrite Z.even_add, Ev. reflexivity.
  - split; lia.
  - split; lia.
Qed.

Lemma round_quotient_nonneg (w s : Z) :
  0 <= w -> 0 < s -> 0 <= round (Qred (inject_Z w / inject_Z s)).
Proof.
  intros Hw Hs. rewrite round_quotient by assumption.
  pose proof (Z.div_pos w s Hw Hs).
  destruct (_ ?= _); [destruct (Z.even _)| |]; lia.
Qed.

Lemma round_quotient_negative_divisor (h s : Z) :
  s < 0 ->
  round (Qred (inject_Z h / inject_Z s))
  = round (Qred (inject_Z (- h) / inject_Z (- s))).
Proof.
  intros Hs. rewrite !(round_Qeq _ _ (Qred_correct _)).
  apply round_Qeq. rewrite !inject_Z_opp. field.
  intros H. apply (inject_Z_injective s 0) in H. lia.
Qed.

Lemma round_small_quotient (h s : Z) :
  0 <= h -> s < 0 \/ (0 < s /\ 2 * h <= s) ->
  round (Qred (inject_Z h / inject_Z s)) <= 0.
Proof.
  intros Hh [Hs|[Hs Hsmall]].
  - rewrite round_quotient_negative_divisor by exact Hs.
    rewrite round_quotient by lia.
    pose proof (Z.mod_pos_bound (- h) (- s) ltac:(lia)) as Hr.
    pose proof (Z.div_mod (- h) (- s) ltac:(lia)) as Hd.
    set (q := - h / - s) in *. set (r := (- h) mod (- s)) in *.
    destruct (Z.compare_spec (2 * (- h - q * - s)) (- s));
      [destruct (Z.even q)| |]; nia.
  - rewrite round_quotient by exact Hs.
    rewrite (Z.div_small h s) by lia.
    destruct (Z.compare_spec (2 * (h - 0 * s)) s); cbn; lia.
Qed.

Lemma truediv_int (w s : Z) :
  s <> 0 -> truediv (VInt w) (VInt s) = Ok (Qred (inject_Z w / inject_Z s)).
Proof.
  intros Hs. unfold truediv. destruct (Z.eqb_spec s 0); [contradiction|].
  reflexivity.
Qed.

(** ** Running drawing code *)

Lemma dbind_ok {A B} (m : Draw A) (k : A -> Draw B) s a s' :
  m s = (Ok a, s') -> dbind m k s = k a s'.
Proof. unfold dbind. intros ->. reflexivity. Qed.

Lemma dbind_raise {A B} (m : Draw A) (k : A -> Draw B) s e s' :
  m s = (Raise e, s') -> dbind m k s = (Raise e, s').
Proof. unfold dbind. intros ->. reflexivity. Qed.

Lemma emit_ok c s t' :
  step c (cursor s) = Ok t' -> emit c s = (Ok tt, mkCanvas t' (log s ++ [c])).
Proof. unfold emit. intros ->. reflexivity. Qed.

Lemma aligned_dir t : aligned t -> Turtle.dir (Turtle.heading t) = Some (unit (Turtle.heading t)).
Proof.
  unfold aligned, unit. simpl.
  intros [<-|[<-|[<-|[<-|[]]]]]; reflexivity.
Qed.

Lemma forward_aligned d t :
  aligned t -> Turtle.forward (VInt d) t = Ok (moved d t).
Proof.
  intros Ha. unfold Turtle.forward, moved. rewrite (aligned_dir t Ha).
  destruct (unit (Turtle.heading t)). reflexivity.
Qed.

Lemma aligned_moved d t : aligned t -> aligned (moved d t).
Proof. exact (fun H => H). Qed.

Lemma aligned_right t : aligned t -> aligned (Turtle.right 90 t).
Proof.
  unfold aligned. simpl.
  intros [<-|[<-|[<-|[<-|[]]]]]; vm_compute; tauto.
Qed.

Lemma aligned_squared d t : aligned t -> aligned (squared d t).
Proof.
  intros Ha. unfold squared. simpl.
  repeat (apply aligned_right; apply aligned_moved). exact Ha.
Qed.

(** One side of the square: forward, then the quarter turn. *)
Lemma side_run (self : Main.t) d s :
  Main.side_length self = VInt d -> aligned (cursor s) ->
  (emit (Forward (Main.side_length self)) >> emit (Right 90)) s =
  (Ok tt, mkCanvas (Turtle.right 90 (moved d (cursor s)))
                   (log s ++ [Forward (VInt d); Right 90])).
Proof.
  intros -> Ha.
  erewrite dbind_ok by (apply emit_ok; simpl; apply forward_aligned, Ha).
  erewrite emit_ok by reflexivity. simpl.
  rewrite <- app_assoc. reflexivity.
Qed.

Lemma begin_cell_run item s :
  Turtle.iscolorstring (cursor s) item = true ->
  Main.begin_cell item s =
  (Ok tt, mkCanvas (Turtle.begin_fill (Turtle.color item (Turtle.pendown (cursor s))))
                   (log s ++ [PenDown; Color item; BeginFill])).
Proof.
  intros Hk. unfold Main.begin_cell.
  erewrite dbind_ok by (apply emit_ok; reflexivity).
  erewrite dbind_ok
    by (apply emit_ok; cbn [step cursor Turtle.pendown Turtle.iscolorstring];
        rewrite Hk; reflexivity).
  erewrite emit_ok by reflexivity. simpl.
  rewrite <- !app_assoc. reflexivity.
Qed.

Lemma draw_square_run (self : Main.t) d s :
  Main.side_length self = VInt d -> aligned (cursor s) ->
  Main.draw_square self s =
  (Ok tt, mkCanvas (squared d (cursor s))
                   (log s ++ [Forward (VInt d); Right 90; Forward (VInt d); Right 90;
                              Forward (VInt d); Right 90; Forward (VInt d); Right 90])).
Proof.
  intros Hd Ha. unfold Main.draw_square. cbn [for_range].
  erewrite dbind_ok by (apply (side_run self d); assumption).
  erewrite dbind_ok
    by (apply (side_run self d); [assumption | apply aligned_right, Ha]).
  erewrite dbind_ok
    by (apply (side_run self d);
        [assumption | do 2 apply aligned_right; exact Ha]).
  erewrite dbind_ok
    by (apply (side_run self d);
        [assumption | do 3 apply aligned_right; exact Ha]).
  unfold dret. cbn [log cursor]. rewrite <- !app_assoc. reflexivity.
Qed.

Lemma reset_position_run (self : Main.t) d s :
  Main.side_length self = VInt d -> aligned (cursor s) ->
  Main.reset_position self s =
  (Ok tt, mkCanvas (moved d (Turtle.end_fill (cursor s)))
                   (log s ++ [EndFill; Forward (VInt d)])).
Proof.
  intros Hd Ha. unfold Main.reset_position. rewrite Hd.
  erewrite dbind_ok by (apply emit_ok; reflexivity).
  erewrite emit_ok by (cbn [step cursor]; apply forward_aligned; exact Ha).
  cbn [log cursor]. rewrite <- app_assoc. reflexivity.
Qed.

Lemma draw_item_run (self : Main.t) d item s :
  Main.side_length self = VInt d -> aligned (cursor s) ->
  Turtle.iscolorstring (cursor s) item = true ->
  Main.draw_item self item s =
  (Ok tt, mkCanvas (cell_end d item (cursor s))
                   (log s ++ cell_calls (VInt d) item)).
Proof.
  intros Hd Ha Hk. unfold Main.draw_item.
  erewrite dbind_ok by (apply begin_cell_run; exact Hk).
  erewrite dbind_ok by (apply (draw_square_run self d); [assumption | exact Ha]).
  erewrite (reset_position_run self d)
    by (try assumption; cbn [cursor]; apply aligned_squared, Ha).
  cbn [log cursor]. unfold cell_end, cell_calls, square_calls.
  rewrite <- !app_assoc. reflexivity.
Qed.

(** ** Geometry of a cell *)

Local Arguments Qred : simpl never.
Local Arguments Qplus : simpl never.
Local Arguments inject_Z : simpl never.

Ltac eval_units :=
  repeat match goal with
  | |- context [unit ?h] =>
      let v := eval vm_compute in (unit h) in change (unit h) with v
  end;
  cbn [fst snd].

Ltac solve_coord :=
  rewrite ?Qred_correct, ?inject_Z_mult;
  change (inject_Z 1) with 1%Q; change (inject_Z 0) with 0%Q;
  change (inject_Z (-1)) with (-1 # 1)%Q;
  ring.

Lemma squared_closed d t :
  aligned t ->
  (Turtle.xcor (squared d t) == Turtle.xcor t)%Q /\
  (Turtle.ycor (squared d t) == Turtle.ycor t)%Q /\
  Turtle.heading (squared d t) = Turtle.heading t.
Proof.
  destruct t as [x y h dn fl col vis]. unfold aligned. cbn [Turtle.heading].
  intros [<-|[<-|[<-|[<-|[]]]]]; cbn; eval_units;
    (split; [solve_coord | split; [solve_coord | reflexivity]]).
Qed.

Lemma squared_pen d t :
  Turtle.isdown (squared d t) = Turtle.isdown t /\
  Turtle.filling (squared d t) = Turtle.filling t /\
  Turtle.pencolor (squared d t) = Turtle.pencolor t /\
  Turtle.isvisible (squared d t) = Turtle.isvisible t.
Proof. repeat split. Qed.

(** After a whole cell the turtle stands one side further along its
    heading, pen down, fill closed, in the cell's colour. *)
Lemma cell_end_geometry d item t :
  aligned t ->
  (Turtle.xcor (cell_end d item t)
   == Turtle.xcor t + inject_Z (d * fst (unit (Turtle.heading t))))%Q /\
  (Turtle.ycor (cell_end d item t)
   == Turtle.ycor t + inject_Z (d * snd (unit (Turtle.heading t))))%Q /\
  Turtle.heading (cell_end d item t) = Turtle.heading t.
Proof.
  intros Ha.
  set (t1 := Turtle.begin_fill (Turtle.color item (Turtle.pendown t))).
  assert (Ha1 : aligned t1) by exact Ha.
  destruct (squared_closed d t1 Ha1) as (Hx & Hy & Hh).
  unfold cell_end. fold t1. unfold moved.
  cbn [Turtle.xcor Turtle.ycor Turtle.heading Turtle.end_fill].
  rewrite Hh, !Qred_correct, Hx, Hy. repeat split; reflexivity.
Qed.

Lemma cell_end_pen d item t :
  Turtle.isdown (cell_end d item t) = true /\
  Turtle.filling (cell_end d item t) = false /\
  Turtle.pencolor (cell_end d item t) = item /\
  Turtle.isvisible (cell_end d item t) = Turtle.isvisible t.
Proof. repeat split. Qed.

Lemma aligned_cell_end d item t : aligned t -> aligned (cell_end d item t).
Proof.
  intros Ha. unfold aligned.
  destruct (cell_end_geometry d item t Ha) as (_ & _ & ->). exact Ha.
Qed.

(** ** Rows *)

Local Arguments Qdiv : simpl never.
Local Arguments Qminus : simpl never.

Lemma row_run (self : Main.t) d row s :
  Main.side_length self = VInt d -> aligned (cursor s) ->
  Forall (fun c => Turtle.iscolorstring (cursor s) c = true) row ->
  exists t',
    for_each row (Main.draw_item self) s =
      (Ok tt, mkCanvas t' (log s ++ flat_map (cell_calls (VInt d)) row)) /\
    Turtle.iscolorstring t' = Turtle.iscolorstring (cursor s) /\
    Turtle.heading t' = Turtle.heading (cursor s) /\
    (Turtle.ycor t' ==
     Turtle.ycor (cursor s)
     + inject_Z (Z.of_nat (length row) * d
                 * snd (unit (Turtle.heading (cursor s)))))%Q.
Proof.
  intros Hd. revert s. induction row as [|item row IH]; intros s Ha Hk.
  - exists (cursor s). cbn [for_each flat_map length]. unfold dret.
    rewrite app_nil_r. destruct s. repeat split.
    cbn [cursor Z.of_nat]. rewrite Z.mul_0_l. unfold inject_Z. ring.
  - apply Forall_cons_iff in Hk as [Hitem Hk]. cbn [for_each].
    erewrite dbind_ok by (apply (draw_item_run self d); assumption).
    destruct (cell_end_geometry d item (cursor s) Ha) as (_ & Hy & Hh).
    destruct (IH (mkCanvas (cell_end d item (cursor s))
                           (log s ++ cell_calls (VInt d) item)))
      as (t' & Hrun & Hs' & Hh' & Hy').
    { apply aligned_cell_end, Ha. }
    { exact Hk. }
    exists t'. cbn [cursor log] in *. split; [|split; [|split]].
    + rewrite Hrun. cbn [flat_map]. rewrite <- app_assoc. reflexivity.
    + exact Hs'.
    + congruence.
    + rewrite Hy', Hy, Hh. rewrite <- Qplus_assoc, <- inject_Z_plus.
      apply Qplus_comp; [reflexivity|]. apply inject_Z_injective.
      cbn [length]. lia.
Qed.

Lemma new_line_run (self : Main.t) w d s :
  Main.width self = VInt w -> Main.side_length self = VInt d ->
  Main.new_line self s =
  (Ok tt,
   mkCanvas (Turtle.goto (Qred (inject_Z (- w) / 2))
                         (Qred (Turtle.ycor (cursor s) - inject_Z d))
                         (Turtle.penup (cursor s)))
            (log s ++ row_advance (Qred (inject_Z (- w) / 2))
                                  (Qred (Turtle.ycor (cursor s) - inject_Z d)))).
Proof.
  intros Hw Hd. unfold Main.new_line. rewrite Hw, Hd.
  unfold mbind, draw_bind, dbind, emit, lift, ycor. cbn.
  rewrite <- app_assoc. reflexivity.
Qed.

Lemma draw_row_run (self : Main.t) w d row s :
  Main.width self = VInt w -> Main.side_length self = VInt d ->
  aligned (cursor s) ->
  Forall (fun c => Turtle.iscolorstring (cursor s) c = true) row ->
  exists t' y',
    Main.draw_row self row s =
      (Ok tt, mkCanvas t' (log s ++ flat_map (cell_calls (VInt d)) row
                             ++ row_advance (Qred (inject_Z (- w) / 2)) y')) /\
    Turtle.iscolorstring t' = Turtle.iscolorstring (cursor s) /\
    Turtle.heading t' = Turtle.heading (cursor s) /\
    Turtle.ycor t' = y' /\
    y' = Qred (Turtle.ycor (cursor s)
               + inject_Z (Z.of_nat (length row) * d
                           * snd (unit (Turtle.heading (cursor s))))
               - inject_Z d).
Proof.
  intros Hw Hd Ha Hk.
  destruct (row_run self d row s Hd Ha Hk) as (t1 & Hrun & Hs & Hh & Hy).
  unfold Main.draw_row. erewrite dbind_ok by exact Hrun.
  rewrite (new_line_run self w d) by assumption.
  cbn [cursor log].
  eexists _, _. split; [rewrite <- app_assoc; reflexivity|].
  split; [exact Hs|]. split; [exact Hh|]. split; [reflexivity|].
  apply Qred_complete. rewrite Hy. reflexivity.
Qed.

Lemma level_east rows : level 0 rows.
Proof. apply Forall_forall. intros row _. apply Z.mul_0_r. Qed.

Lemma level_empty h rows : empty_grid rows -> level h rows.
Proof.
  unfold level, empty_grid. intros H.
  eapply Forall_impl; [exact H|]. intros row ->. reflexivity.
Qed.

Lemma rows_run (self : Main.t) w d rows :
  Main.width self = VInt w -> Main.side_length self = VInt d ->
  forall s y,
    aligned (cursor s) -> level (Turtle.heading (cursor s)) rows ->
    known_colours (cursor s) rows ->
    (y == Turtle.ycor (cursor s))%Q ->
    exists t',
      for_each rows (Main.draw_row self) s =
        (Ok tt, mkCanvas t' (log s ++ rows_calls d (Qred (inject_Z (- w) / 2))
                                                 y rows)) /\
      Turtle.heading t' = Turtle.heading (cursor s).
Proof.
  intros Hw Hd. induction rows as [|row rows IH]; intros s y Ha Hl Hk Hy.
  - exists (cursor s). cbn [for_each rows_calls]. unfold dret.
    rewrite app_nil_r. destruct s. split; reflexivity.
  - apply Forall_cons_iff in Hl as [Hrow Hl].
    apply Forall_cons_iff in Hk as [Hkrow Hk].
    destruct (draw_row_run self w d row s Hw Hd Ha Hkrow)
      as (t1 & y1 & Hrun & Hs1 & Hh & Hy1 & Ey1).
    cbn [for_each]. erewrite dbind_ok by exact Hrun.
    assert (Ey : y1 = Qred (y - inject_Z d)).
    { rewrite Ey1. apply Qred_complete.
      rewrite Z.mul_shuffle0, Hrow, Z.mul_0_l, Hy.
      change (inject_Z 0) with 0%Q. ring. }
    destruct (IH (mkCanvas t1 (log s ++ flat_map (cell_calls (VInt d)) row
                                 ++ row_advance (Qred (inject_Z (- w) / 2)) y1))
                 y1) as (t' & Hrest & Hh').
    { unfold aligned. cbn [cursor]. rewrite Hh. exact Ha. }
    { cbn [cursor]. rewrite Hh. exact Hl. }
    { unfold known_colours. cbn [cursor]. rewrite Hs1. exact Hk. }
    { cbn [cursor]. rewrite Hy1. reflexivity. }
    exists t'. cbn [cursor log] in *. split; [|congruence].
    rewrite Hrest. cbn [rows_calls]. rewrite <- Ey.
    rewrite <- !app_assoc. reflexivity.
Qed.

Lemma position_run (self : Main.t) w h sp s :
  Main.width self = VInt w -> Main.height self = VInt h ->
  Main.speed self = VInt sp ->
  Main.position self s =
  (Ok tt,
   mkCanvas (Turtle.goto (Qred (inject_Z (- w) / 2)) (Qred (inject_Z h / 2))
               (Turtle.penup (Turtle.hideturtle (cursor s))))
            (log s ++ positioned_calls w h (Main.speed self))).
Proof.
  intros Hw Hh Hsp. unfold Main.position. rewrite Hw, Hh, Hsp.
  unfold mbind, draw_bind, dbind, emit, lift. cbn.
  rewrite <- !app_assoc. reflexivity.
Qed.

Lemma finish_run s :
  Main.finish s = (Raise SystemExit, mkCanvas (cursor s) (log s ++ done_calls)).
Proof.
  unfold Main.finish, dbind, emit, raise. cbn.
  rewrite <- app_assoc. reflexivity.
Qed.

(** The whole render pass: the calls it makes, in order. *)
Lemma draw_pattern_run (self : Main.t) w h d sp s :
  Main.width self = VInt w -> Main.height self = VInt h ->
  Main.side_length self = VInt d -> Main.speed self = VInt sp ->
  aligned (cursor s) ->
  level (Turtle.heading (cursor s)) (Main.pattern self) ->
  known_colours (cursor s) (Main.pattern self) ->
  exists t',
    Main.__draw_pattern self s =
    (Raise SystemExit,
     mkCanvas t'
       (log s ++ positioned_calls w h (Main.speed self)
          ++ rows_calls d (Qred (inject_Z (- w) / 2)) (Qred (inject_Z h / 2))
               (Main.pattern self)
          ++ done_calls)).
Proof.
  intros Hw Hh Hd Hsp Ha Hl Hk. unfold Main.__draw_pattern.
  erewrite dbind_ok by (apply (position_run self w h sp); assumption).
  match goal with
  | |- context [dbind _ _ ?s1] =>
      destruct (rows_run self w d (Main.pattern self) Hw Hd s1
                  (Qred (inject_Z h / 2)))
        as (t' & Hrun & _); [exact Ha | exact Hl | exact Hk | reflexivity |]
  end.
  erewrite dbind_ok by exact Hrun.
  rewrite finish_run. cbn [cursor log].
  exists t'. rewrite <- !app_assoc. reflexivity.
Qed.

Lemma rows_total (self : Main.t) w d rows :
  Main.width self = VInt w -> Main.side_length self = VInt d ->
  forall s, aligned (cursor s) -> known_colours (cursor s) rows ->
  exists s', for_each rows (Main.draw_row self) s = (Ok tt, s') /\
             aligned (cursor s').
Proof.
  intros Hw Hd. induction rows as [|row rows IH]; intros s Ha Hk.
  - exists s. split; [reflexivity | exact Ha].
  - apply Forall_cons_iff in Hk as [Hkrow Hk].
    destruct (draw_row_run self w d row s Hw Hd Ha Hkrow)
      as (t1 & y1 & Hrun & Hs1 & Hh & _).
    cbn [for_each]. erewrite dbind_ok by exact Hrun.
    apply IH.
    + unfold aligned. cbn [cursor]. rewrite Hh. exact Ha.
    + unfold known_colours. cbn [cursor]. rewrite Hs1. exact Hk.
Qed.

(** A render pass on integer dimensions and speed, with colours the
    screen knows, runs to its end: the only exception is the [SystemExit]
    of [sys.exit()]. *)
Lemma draw_pattern_total (self : Main.t) w h d sp s :
  Main.width self = VInt w -> Main.height self = VInt h ->
  Main.side_length self = VInt d -> Main.speed self = VInt sp ->
  aligned (cursor s) -> known_colours (cursor s) (Main.pattern self) ->
  exists s', Main.__draw_pattern self s = (Raise SystemExit, s').
Proof.
  intros Hw Hh Hd Hsp Ha Hk. unfold Main.__draw_pattern.
  erewrite dbind_ok by (apply (position_run self w h sp); assumption).
  match goal with
  | |- context [dbind _ _ ?s1] =>
      destruct (rows_total self w d (Main.pattern self) Hw Hd s1)
        as (s' & Hrun & _); [exact Ha | exact Hk |]
  end.
  erewrite dbind_ok by exact Hrun.
  rewrite finish_run. eauto.
Qed.

(** ** Loading and validating *)

Lemma load_config_read (E : env) file text :
  disk E file = Some text -> _load_config E file = loads E text.
Proof. intros H. unfold _load_config, read. rewrite H. reflexivity. Qed.

Lemma check_keys_loaded (E : env) file d keys :
  _load_config E file = Ok d ->
  check_keys E file keys = Ok (has_keys d keys).
Proof.
  intros Hl. induction keys as [|k keys IH]; [reflexivity|].
  cbn [check_keys has_keys forallb]. rewrite Hl. cbn.
  destruct (d !! k); [exact IH | reflexivity].
Qed.

Lemma check_keys_raises (E : env) file e k keys :
  _load_config E file = Raise e ->
  check_keys E file (k :: keys) = Raise e.
Proof. intros Hl. cbn [check_keys]. rewrite Hl. reflexivity. Qed.

Lemma check_valid_file_loaded (E : env) file text d :
  disk E file = Some text -> suffix E file = ".json" ->
  loads E text = Ok d ->
  _check_valid_file E file = Ok (has_keys d _NECESSARY_KEYS).
Proof.
  intros Hf Hs Hl. unfold _check_valid_file, is_file.
  rewrite Hf, Hs, String.eqb_refl. cbn [andb].
  apply check_keys_loaded. rewrite (load_config_read E file text Hf).
  exact Hl.
Qed.

Lemma check_valid_file_absent (E : env) file :
  disk E file = None -> _check_valid_file E file = Ok false.
Proof. intros Hf. unfold _check_valid_file, is_file. rewrite Hf. reflexivity. Qed.

Lemma check_valid_file_suffix (E : env) file :
  suffix E file <> ".json" -> _check_valid_file E file = Ok false.
Proof.
  intros Hs. unfold _check_valid_file.
  destruct (String.eqb_spec (suffix E file) ".json"); [contradiction|].
  rewrite andb_false_r. reflexivity.
Qed.

Lemma check_valid_file_malformed (E : env) file text e :
  disk E file = Some text -> suffix E file = ".json" ->
  loads E text = Raise e ->
  _check_valid_file E file = Raise e.
Proof.
  intros Hf Hs Hl. unfold _check_valid_file, is_file.
  rewrite Hf, Hs, String.eqb_refl. cbn [andb].
  apply check_keys_raises. rewrite (load_config_read E file text Hf).
  exact Hl.
Qed.

(** A file that passes validation is the one that is applied. *)
Lemma config_valid (E : env) self file text d g :
  disk E file = Some text -> suffix E file = ".json" ->
  loads E text = Ok d -> has_keys d _NECESSARY_KEYS = true ->
  Main.__config E self file g = Main.apply_contents E self d g.
Proof.
  intros Hf Hs Hl Hk. unfold Main.__config.
  rewrite (check_valid_file_loaded E file text d Hf Hs Hl), Hk.
  cbn. rewrite (load_config_read E file text Hf), Hl. reflexivity.
Qed.

(** A file that fails validation is replaced by the default file. *)
Lemma config_fallback (E : env) self file g :
  _check_valid_file E file = Ok false ->
  Main.__config E self file g =
  (contents ← _load_config E _DEFAULT_CONFIG_FILE;
   Main.apply_contents E self contents g).
Proof. intros Hv. unfold Main.__config. rewrite Hv. reflexivity. Qed.

Lemma has_keys_lookup d keys k :
  has_keys d keys = true -> In k keys -> exists v, d !! k = Some v.
Proof.
  unfold has_keys. rewrite forallb_forall. intros H Hin.
  specialize (H k Hin). destruct (d !! k); [eauto | discriminate].
Qed.

Lemma get_or_default_present (E : env) d k v :
  d !! k = Some v -> Main.get_or_default E d k = Ok v.
Proof. intros H. unfold Main.get_or_default. rewrite H. reflexivity. Qed.

(** What a successful [apply_contents] leaves in the attributes. *)
Lemma apply_contents_inv (E : env) self d g m g' :
  Main.apply_contents E self d g = Ok (m, g') ->
  Main.generate (Main.width m) (Main.height m) (Main.side_length m)
                (Main.colours m) g = Ok (Main.pattern m, g') /\
  Main.config_contents m = d /\
  Main.get_or_default E d "width" = Ok (Main.width m) /\
  Main.get_or_default E d "height" = Ok (Main.height m) /\
  Main.get_or_default E d "side_length" = Ok (Main.side_length m) /\
  Main.get_or_default E d "colours" = Ok (Main.colours m) /\
  Main.get_or_default E d "speed" = Ok (Main.speed m).
Proof.
  unfold Main.apply_contents. intros H.
  apply bind_Ok in H as (sp & Hsp & H).
  apply bind_Ok in H as (w & Hw & H).
  apply bind_Ok in H as (h & Hh & H).
  apply bind_Ok in H as (sl & Hsl & H).
  apply bind_Ok in H as (cs & Hcs & H).
  apply bind_Ok in H as ([p g1] & Hp & H).
  injection H as <- <-. cbn. repeat split; assumption.
Qed.

(** After a successful [__config] the three dimensions are integers and
    the side is not zero: the quotients were computed. *)
Lemma generate_ints width height side colours g p g' :
  Main.generate width height side colours g = Ok (p, g') ->
  exists w h d, width = VInt w /\ height = VInt h /\ side = VInt d /\ d <> 0.
Proof.
  unfold Main.generate. intros H.
  apply bind_Ok in H as (c & Hc & H).
  apply bind_Ok in H as (r & Hr & _).
  destruct width as [w|]; [|discriminate].
  destruct side as [d|]; [|discriminate].
  destruct height as [h|]; [|discriminate].
  exists w, h, d. repeat split. intros ->. discriminate.
Qed.

Lemma config_inv (E : env) self file g m g' :
  Main.__config E self file g = Ok (m, g') ->
  exists d, Main.apply_contents E self d g = Ok (m, g').
Proof.
  unfold Main.__config. intros H.
  apply bind_Ok in H as (valid & _ & H).
  apply bind_Ok in H as (d & _ & H). eauto.
Qed.

Lemma nearest_ties_even_unique num den n m :
  0 < den -> nearest_ties_even num den n -> nearest_ties_even num den m ->
  n = m.
Proof.
  unfold nearest_ties_even. intros Hd [Hn En] [Hm Em].
  assert (Hnm : n = m \/ n = m + 1 \/ m = n + 1) by nia.
  destruct Hnm as [H|[H|H]]; [exact H| |]; exfalso; subst.
  - assert (E1 : Z.even (m + 1) = true) by (apply En; nia).
    assert (E2 : Z.even m = true) by (apply Em; nia).
    rewrite Z.even_add, E2 in E1. discriminate.
  - assert (E1 : Z.even (n + 1) = true) by (apply Em; nia).
    assert (E2 : Z.even n = true) by (apply En; nia).
    rewrite Z.even_add, E2 in E1. discriminate.
Qed.

Lemma generate_run (w h sl : Z) colours g :
  sl <> 0 ->
  Main.generate (VInt w) (VInt h) (VInt sl) colours g =
  Main.__gen_pattern (round (Qred (inject_Z w / inject_Z sl)))
                     (round (Qred (inject_Z h / inject_Z sl))) colours g.
Proof.
  intros Hs. unfold Main.generate.
  rewrite !truediv_int by assumption. reflexivity.
Qed.

Lemma generate_empty (w h sl : Z) (colours : value) (g : rng) :
  0 <= h -> sl < 0 \/ (0 < sl /\ 2 * h <= sl) ->
  Main.generate (VInt w) (VInt h) (VInt sl) colours g = Ok ([], g).
Proof.
  intros Hh Hs. rewrite generate_run by lia.
  unfold Main.__gen_pattern, gen_pattern.
  pose proof (round_small_quotient h sl Hh Hs) as Hr.
  replace (Z.to_nat (round (Qred (inject_Z h / inject_Z sl)))) with O by lia.
  reflexivity.
Qed.

(** ** The binary64 quotient and the exact one *)

Lemma nearest_twice (a b N n M : Z) :
  0 < b -> 0 < N -> Z.even N = true ->
  nearest_ties_even a b n -> nearest_ties_even (a * N) b M ->
  (2 * Z.abs (a - n * b) <> b -> b < (b - 2 * Z.abs (a - n * b)) * N) ->
  nearest_ties_even M N n.
Proof.
  intros Hb HN Heven [Hn Hnt] [HM HMt] Hgap.
  apply Z.even_spec in Heven. destruct Heven as [H ->].
  unfold nearest_ties_even.
  assert (Hcase : 2 * Z.abs (a - n * b) = b \/ 2 * Z.abs (a - n * b) < b)
    by lia.
  destruct Hcase as [Htie|Hlt].
  - split; [|intros _; exact (Hnt Htie)]. nia.
  - specialize (Hgap ltac:(lia)). split; [nia|]. intros Habs. exfalso. nia.
Qed.

Lemma quotient_exponent_below (a b : Z) :
  a <> 0 -> b <> 0 ->
  Z.abs b * 2 ^ Z.max 0 (quotient_exponent a b)
  <= Z.abs a * 2 ^ Z.max 0 (- quotient_exponent a b).
Proof.
  intros Ha Hb. unfold quotient_exponent.
  pose proof (Z.log2_spec (Z.abs a) ltac:(lia)) as [Ha1 _].
  pose proof (Z.log2_spec (Z.abs b) ltac:(lia)) as [_ Hb2].
  pose proof (Z.log2_nonneg (Z.abs a)) as Hla.
  pose proof (Z.log2_nonneg (Z.abs b)) as Hlb.
  set (la := Z.log2 (Z.abs a)) in *. set (lb := Z.log2 (Z.abs b)) in *.
  set (A := Z.abs a) in *. set (B := Z.abs b) in *.
  cbv zeta.
  destruct (Z.ltb_spec (A * 2 ^ Z.max 0 (- (la - lb)))
                       (B * 2 ^ Z.max 0 (la - lb))) as [Hlt|Hge];
    [|exact Hge].
  destruct (Z_lt_le_dec 0 (la - lb)) as [Hpos|Hneg].
  - rewrite (Z.max_r 0 (la - lb - 1)), (Z.max_l 0 (- (la - lb - 1))) by lia.
    rewrite Z.pow_0_r, Z.mul_1_r.
    assert (E : 2 ^ la = 2 ^ Z.succ lb * 2 ^ (la - lb - 1)).
    { rewrite <- Z.pow_add_r by lia. f_equal; lia. }
    assert (0 < 2 ^ (la - lb - 1)) by (apply Z.pow_pos_nonneg; lia).
    nia.
  - rewrite (Z.max_l 0 (la - lb - 1)), (Z.max_r 0 (- (la - lb - 1))) by lia.
    rewrite Z.pow_0_r, Z.mul_1_r.
    assert (E : 2 ^ Z.succ lb = 2 ^ la * 2 ^ (- (la - lb - 1))).
    { rewrite <- Z.pow_add_r by lia. f_equal; lia. }
    assert (0 < 2 ^ (- (la - lb - 1))) by (apply Z.pow_pos_nonneg; lia).
    nia.
Qed.

Lemma nearest_ties_even_magnitude (num den n : Z) :
  0 < den -> nearest_ties_even num den n -> Z.abs n <= Z.abs num + 1.
Proof. intros Hd [H _]. nia. Qed.

Lemma int_truediv_round_pos (a b : Z) :
  0 < b -> Z.abs a < 2 ^ 52 ->
  exists f, int_truediv a b = Some f /\
            round f = round (Qred (inject_Z a / inject_Z b)).
Proof.
  intros Hb Ha. unfold int_truediv.
  destruct (Z.eqb_spec a 0) as [->|Hne].
  { exists 0%Q. split; [reflexivity|].
    rewrite round_quotient by exact Hb. rewrite Z.div_0_l by lia.
    destruct (Z.compare_spec (2 * (0 - 0 * b)) b); (lia || reflexivity). }
  pose proof (quotient_exponent_below a b Hne ltac:(lia)) as He.
  set (e := quotient_exponent a b) in *.
  rewrite (Z.abs_eq b) in He by lia.
  assert (P52 : 0 < 2 ^ 52) by reflexivity.
  assert (He51 : e <= 51).
  { destruct (Z_lt_le_dec 51 e) as [Hbig|]; [|assumption]. exfalso.
    rewrite (Z.max_r 0 e), (Z.max_l 0 (- e)), Z.pow_0_r, Z.mul_1_r in He
      by lia.
    assert (E : 2 ^ e = 2 ^ 52 * 2 ^ (e - 52)).
    { rewrite <- Z.pow_add_r by lia. f_equal; lia. }
    assert (0 < 2 ^ (e - 52)) by (apply Z.pow_pos_nonneg; lia).
    nia. }
  set (k := Z.max (e - 52) (-1074)) in *.
  assert (Hk : k <= -1) by lia.
  cbv zeta.
  rewrite (Z.max_l 0 k), (Z.max_r 0 (- k)), Z.pow_0_r, !Z.mul_1_r by lia.
  set (N := 2 ^ (- k)) in *.
  assert (HN2 : N = 2 * 2 ^ (- k - 1)).
  { unfold N. rewrite <- Z.pow_succ_r by lia. f_equal; lia. }
  assert (HNpos : 0 < 2 ^ (- k - 1)) by (apply Z.pow_pos_nonneg; lia).
  assert (HN : 0 < N) by lia.
  assert (Heven : Z.even N = true).
  { rewrite HN2, Z.even_mul. reflexivity. }
  pose proof (round_quotient_nearest (a * N) b Hb) as HM.
  set (M := round (Qred (inject_Z (a * N) / inject_Z b))) in *.
  pose proof (round_quotient_nearest a b Hb) as Hn.
  set (n := round (Qred (inject_Z a / inject_Z b))) in *.
  assert (Hgap : b < N \/ 4 * Z.abs a < b).
  { destruct (Z_lt_le_dec b N) as [Hlt|Hge]; [left; exact Hlt|].
    destruct (Z_le_gt_dec (-1074) (e - 52)) as [Hnormal|Hsub].
    - exfalso. assert (Ek : - k = 52 - e) by lia. unfold N in Hge.
      rewrite Ek in Hge.
      destruct (Z_le_gt_dec 0 e) as [He0|He0].
      + rewrite (Z.max_r 0 e), (Z.max_l 0 (- e)), Z.pow_0_r, Z.mul_1_r in He
          by lia.
        assert (E : 2 ^ 52 = 2 ^ (52 - e) * 2 ^ e).
        { rewrite <- Z.pow_add_r by lia. f_equal; lia. }
        assert (0 < 2 ^ e) by (apply Z.pow_pos_nonneg; lia).
        nia.
      + rewrite (Z.max_l 0 e), (Z.max_r 0 (- e)), Z.pow_0_r, Z.mul_1_r in He
          by lia.
        assert (E : 2 ^ (52 - e) = 2 ^ 52 * 2 ^ (- e)).
        { rewrite <- Z.pow_add_r by lia. f_equal; lia. }
        assert (0 < 2 ^ (- e)) by (apply Z.pow_pos_nonneg; lia).
        nia.
    - right. assert (Ek : - k = 1074) by lia. unfold N in Hge.
      rewrite Ek in Hge.
      assert (E : 2 ^ 1074 = 2 ^ 54 * 2 ^ 1020) by reflexivity.
      assert (E54 : 2 ^ 54 = 4 * 2 ^ 52) by reflexivity.
      assert (0 < 2 ^ 1020) by reflexivity.
      nia. }
  assert (Hover : (2 ^ 1024 * N <=? Z.abs M) = false).
  { apply Z.leb_gt.
    pose proof (nearest_ties_even_magnitude _ _ _ Hb HM) as Hmag.
    assert (E : 2 ^ 1024 = 2 ^ 52 * 2 ^ 972) by reflexivity.
    assert (2 <= 2 ^ 972) by (apply Z.leb_le; reflexivity).
    rewrite Z.abs_mul, (Z.abs_eq N) in Hmag by lia. nia. }
  rewrite Hover. eexists. split; [reflexivity|].
  apply (nearest_ties_even_unique M N); [exact HN | |].
  - apply round_quotient_nearest. exact HN.
  - apply (nearest_twice a b N n M Hb HN Heven Hn HM).
    intros Hnot. destruct Hn as [Hn1 _]. destruct Hgap as [Hlt|Hsmall].
    + nia.
    + assert (n = 0).
      { apply (nearest_ties_even_unique a b); [exact Hb | | ].
        - split; [exact Hn1|]. subst n.
          exact (proj2 (round_quotient_nearest a b Hb)).
        - split; [lia | intros; lia]. }
      nia.
Qed.

Lemma int_truediv_opp (a b : Z) :
  b <> 0 -> int_truediv (- a) (- b) = int_truediv a b.
Proof.
  intros Hb. unfold int_truediv, quotient_exponent. rewrite !Z.abs_opp.
  destruct (Z.eqb_spec a 0) as [->|Ha]; [reflexivity|].
  destruct (Z.eqb_spec (- a) 0) as [H0|_]; [lia|].
  cbv zeta.
  match goal with
  | |- context [Z.max 0 (Z.max ?x (-1074))] => set (k := Z.max x (-1074))
  end.
  assert (Hup : 0 < 2 ^ Z.max 0 k) by (apply Z.pow_pos_nonneg; lia).
  assert (E : Qred (inject_Z (- a * 2 ^ Z.max 0 (- k))
                    / inject_Z (- b * 2 ^ Z.max 0 k))
              = Qred (inject_Z (a * 2 ^ Z.max 0 (- k))
                      / inject_Z (b * 2 ^ Z.max 0 k))).
  { apply Qred_complete. rewrite !Z.mul_opp_l, !inject_Z_opp. field.
    intros H. apply (proj1 (inject_Z_injective _ 0)) in H. nia. }
  rewrite E. reflexivity.
Qed.

(** The binary64 quotient of a dividend below [2^52] rounds to the same
    integer as the exact quotient. *)
Lemma int_truediv_agrees (a b : Z) :
  b <> 0 -> Z.abs a < 2 ^ 52 ->
  exists f, int_truediv a b = Some f /\
            round f = round (Qred (inject_Z a / inject_Z b)).
Proof.
  intros Hb Ha. destruct (Z_lt_le_dec 0 b) as [Hpos|Hneg].
  - apply int_truediv_round_pos; assumption.
  - rewrite <- (int_truediv_opp a b Hb).
    rewrite round_quotient_negative_divisor by lia.
    apply int_truediv_round_pos; [lia | rewrite Z.abs_opp; exact Ha].
Qed.

(** ** Counting squares in a log *)

Lemma count_squares_cell d item rest :
  count_squares (cell_calls (VInt d) item ++ rest) = S (count_squares rest).
Proof.
  unfold cell_calls, square_calls. cbn [app count_squares starts_square].
  rewrite Z.eqb_refl. cbn [andb]. destruct rest as [|[] rest]; reflexivity.
Qed.

Lemma count_squares_cells d row rest :
  count_squares (flat_map (cell_calls (VInt d)) row ++ rest)
  = (length row + count_squares rest)%nat.
Proof.
  induction row as [|item row IH]; [reflexivity|].
  cbn [flat_map length]. rewrite <- app_assoc, count_squares_cell, IH.
  reflexivity.
Qed.

Lemma count_squares_rows d x y rows rest :
  count_squares (rows_calls d x y rows ++ rest)
  = (length (concat rows) + count_squares rest)%nat.
Proof.
  revert y. induction rows as [|row rows IH]; intros y; [reflexivity|].
  cbn [rows_calls concat]. rewrite <- !app_assoc, count_squares_cells.
  unfold row_advance. cbn [app count_squares starts_square].
  rewrite IH, length_app. lia.
Qed.

Lemma count_squares_pass w h speed d x y rows :
  count_squares (positioned_calls w h speed ++ rows_calls d x y rows
                   ++ done_calls)
  = length (concat rows).
Proof.
  unfold positioned_calls. cbn [app count_squares starts_square].
  rewrite count_squares_rows. cbn. lia.
Qed.

Lemma shape_cells rows cols p :
  has_shape rows cols p -> length (concat p) = (rows * cols)%nat.
Proof.
  intros [<- Hc]. induction Hc as [|r p Hr _ IH]; [reflexivity|].
  cbn [concat length]. rewrite length_app, Hr, IH. lia.
Qed.

(** ** The generated grid *)

(** C1.  For positive width, height and side length, the width and the
    height below [2^50], the grid has [round(height / side_length)] rows,
    each of [round(width / side_length)] cells, where [round] is the
    nearest integer with ties to even, of the exact quotient and of the
    binary64 quotient alike; a grid is produced whenever the palette is
    not empty, and [__config] stores a grid of that shape. *)
Theorem generate_grid_dimensions (w h sl : Z) (colours : value) (g : rng) :
  0 < w < 2 ^ 50 -> 0 < h < 2 ^ 50 -> 0 < sl ->
  exists rows cols : Z,
    nearest_ties_even h sl rows /\ nearest_ties_even w sl cols /\
    0 <= rows /\ 0 <= cols /\
    (exists fh fw,
        int_truediv h sl = Some fh /\ int_truediv w sl = Some fw /\
        round fh = rows /\ round fw = cols) /\
    (forall p g',
        Main.generate (VInt w) (VInt h) (VInt sl) colours g = Ok (p, g') ->
        has_shape (Z.to_nat rows) (Z.to_nat cols) p) /\
    (forall cs, colours = VList cs -> cs <> [] ->
        exists p g',
          Main.generate (VInt w) (VInt h) (VInt sl) colours g = Ok (p, g')) /\
    (forall E self file m g',
        Main.__config E self file g = Ok (m, g') ->
        Main.width m = VInt w -> Main.height m = VInt h ->
        Main.side_length m = VInt sl -> Main.colours m = colours ->
        has_shape (Z.to_nat rows) (Z.to_nat cols) (Main.pattern m)).
Proof.
  intros [Hw Hw'] [Hh Hh'] Hs.
  assert (H52 : 2 ^ 50 < 2 ^ 52) by reflexivity.
  exists (round (Qred (inject_Z h / inject_Z sl))),
         (round (Qred (inject_Z w / inject_Z sl))).
  assert (Hgen : forall p g',
             Main.generate (VInt w) (VInt h) (VInt sl) colours g = Ok (p, g') ->
             has_shape (Z.to_nat (round (Qred (inject_Z h / inject_Z sl))))
                       (Z.to_nat (round (Qred (inject_Z w / inject_Z sl)))) p).
  { intros p g' H. rewrite generate_run in H by lia.
    apply gen_pattern_inv in H as [H _]. exact H. }
  split; [apply round_quotient_nearest; assumption|].
  split; [apply round_quotient_nearest; assumption|].
  split; [apply round_quotient_nonneg; lia|].
  split; [apply round_quotient_nonneg; lia|].
  split.
  { destruct (int_truediv_agrees h sl) as (fh & Efh & Hfh); [lia | lia |].
    destruct (int_truediv_agrees w sl) as (fw & Efw & Hfw); [lia | lia |].
    exists fh, fw. repeat split; assumption. }
  split; [exact Hgen|]. split.
  - intros cs -> Hne. rewrite generate_run by lia.
    apply gen_pattern_total, Hne.
  - intros E self file m g' Hc Ew Eh Es Ec.
    apply config_inv in Hc as [d Hc].
    apply apply_contents_inv in Hc as (Hg & _).
    rewrite Ew, Eh, Es, Ec in Hg. eapply Hgen, Hg.
Qed.

Lemma generate_grid_dimensions_witness :
  exists rows cols : Z,
    nearest_ties_even 100 50 rows /\ nearest_ties_even 200 50 cols /\
    0 <= rows /\ 0 <= cols /\
    (exists fh fw,
        int_truediv 100 50 = Some fh /\ int_truediv 200 50 = Some fw /\
        round fh = rows /\ round fw = cols) /\
    (forall p g',
        Main.generate (VInt 200) (VInt 100) (VInt 50)
          (VList ["#ff0000"; "#00ff00"]) counting_rng = Ok (p, g') ->
        has_shape (Z.to_nat rows) (Z.to_nat cols) p) /\
    (forall cs, VList ["#ff0000"; "#00ff00"] = VList cs -> cs <> [] ->
        exists p g',
          Main.generate (VInt 200) (VInt 100) (VInt 50)
            (VList ["#ff0000"; "#00ff00"]) counting_rng = Ok (p, g')) /\
    (forall E self file m g',
        Main.__config E self file counting_rng = Ok (m, g') ->
        Main.width m = VInt 200 -> Main.height m = VInt 100 ->
        Main.side_length m = VInt 50 ->
        Main.colours m = VList ["#ff0000"; "#00ff00"] ->
        has_shape (Z.to_nat rows) (Z.to_nat cols) (Main.pattern m)).
Proof.
  apply (generate_grid_dimensions 200 100 50
           (VList ["#ff0000"; "#00ff00"]) counting_rng);
    try lia; split; (lia || reflexivity).
Defined.

(** C2.  A grid generated from a non-empty palette exists, and each of its
    cells holds a colour of that palette. *)
Theorem generated_cells_in_palette (width height : Z)
    (palette : list string) (g : rng) :
  palette <> [] ->
  (exists p g', Main.__gen_pattern width height (VList palette) g = Ok (p, g')) /\
  (forall p g',
      Main.__gen_pattern width height (VList palette) g = Ok (p, g') ->
      forall row c, In row p -> In c row -> In c palette).
Proof.
  intros Hne. split; [apply gen_pattern_total, Hne|].
  intros p g' H row c Hrow Hc.
  apply gen_pattern_inv in H as [_ H]. specialize (H palette eq_refl).
  unfold within_palette in H. rewrite Forall_forall in H.
  specialize (H row). rewrite <- list_elem_of_In in Hrow.
  specialize (H Hrow). rewrite Forall_forall in H. apply H.
  apply list_elem_of_In, Hc.
Qed.

Lemma generated_cells_in_palette_witness :
  (exists p g',
      Main.__gen_pattern 4 2 (VList ["#ff0000"; "#00ff00"]) counting_rng
      = Ok (p, g')) /\
  (forall p g',
      Main.__gen_pattern 4 2 (VList ["#ff0000"; "#00ff00"]) counting_rng
      = Ok (p, g') ->
      forall row c, In row p -> In c row -> In c ["#ff0000"; "#00ff00"]).
Proof.
  apply (generated_cells_in_palette 4 2 ["#ff0000"; "#00ff00"] counting_rng).
  discriminate.
Defined.

(** C9.  With an empty palette and both grid dimensions positive,
    [choice] is applied to an empty list and [__gen_pattern] raises
    [IndexError]; with a non-empty palette it always returns a grid. *)
Theorem empty_palette_raises (width height : Z) (g : rng) :
  0 < width -> 0 < height ->
  choice (VList []) g = Raise IndexError /\
  Main.__gen_pattern width height (VList []) g = Raise IndexError /\
  (forall palette, palette <> [] ->
     exists p g', Main.__gen_pattern width height (VList palette) g = Ok (p, g')).
Proof.
  intros Hw Hh. split; [reflexivity|]. split.
  - apply gen_pattern_empty_palette; assumption.
  - intros palette Hne. apply gen_pattern_total, Hne.
Qed.

Lemma empty_palette_raises_witness :
  choice (VList []) counting_rng = Raise IndexError /\
  Main.__gen_pattern 4 2 (VList []) counting_rng = Raise IndexError /\
  (forall palette, palette <> [] ->
     exists p g', Main.__gen_pattern 4 2 (VList palette) counting_rng = Ok (p, g')).
Proof. apply (empty_palette_raises 4 2 counting_rng); lia. Defined.

(** C10.  A generated grid is rectangular: every row has the computed
    number of columns, so any two rows have the same length; the renderer,
    which walks the rows and their cells, then draws rows times columns
    squares (on a screen that knows the colours). *)
Theorem generated_grid_rectangular (width height : Z) (colours : value)
    (g : rng) (p : list (list string)) (g' : rng) :
  Main.__gen_pattern width height colours g = Ok (p, g') ->
  Forall (fun row => length row = Z.to_nat width) p /\
  (forall r1 r2, In r1 p -> In r2 p -> length r1 = length r2) /\
  (forall self w h d sp s,
      Main.pattern self = p ->
      Main.width self = VInt w -> Main.height self = VInt h ->
      Main.side_length self = VInt d -> Main.speed self = VInt sp ->
      Turtle.heading (cursor s) = 0 -> known_colours (cursor s) p ->
      exists t' calls,
        Main.__draw_pattern self s
        = (Raise SystemExit, mkCanvas t' (log s ++ calls)) /\
        count_squares calls = (Z.to_nat height * Z.to_nat width)%nat).
Proof.
  intros H. apply gen_pattern_inv in H as [Hshape _].
  pose proof Hshape as [Hrows Hcols].
  split; [exact Hcols|]. split.
  - rewrite Forall_forall in Hcols. intros r1 r2 H1 H2.
    rewrite (Hcols r1), (Hcols r2) by (apply list_elem_of_In; assumption).
    reflexivity.
  - intros self w h d sp s Hp Hw Hh Hd Hsp Hhead Hk.
    destruct (draw_pattern_run self w h d sp s Hw Hh Hd Hsp) as (t' & Hrun).
    { unfold aligned. rewrite Hhead. left. reflexivity. }
    { rewrite Hhead. apply level_east. }
    { rewrite Hp. exact Hk. }
    eexists t', _. split; [exact Hrun|].
    rewrite count_squares_pass, Hp. apply shape_cells, Hshape.
Qed.

Lemma generated_grid_rectangular_witness :
  Forall (fun row => length row = Z.to_nat 2) [["a"; "b"]; ["a"; "b"]; ["a"; "b"]] /\
  (forall r1 r2, In r1 [["a"; "b"]; ["a"; "b"]; ["a"; "b"]] ->
                 In r2 [["a"; "b"]; ["a"; "b"]; ["a"; "b"]] ->
                 length r1 = length r2) /\
  (forall self w h d sp s,
      Main.pattern self = [["a"; "b"]; ["a"; "b"]; ["a"; "b"]] ->
      Main.width self = VInt w -> Main.height self = VInt h ->
      Main.side_length self = VInt d -> Main.speed self = VInt sp ->
      Turtle.heading (cursor s) = 0 ->
      known_colours (cursor s) [["a"; "b"]; ["a"; "b"]; ["a"; "b"]] ->
      exists t' calls,
        Main.__draw_pattern self s
        = (Raise SystemExit, mkCanvas t' (log s ++ calls)) /\
        count_squares calls = (Z.to_nat 3 * Z.to_nat 2)%nat).
Proof.
  apply (generated_grid_rectangular 2 3 (VList ["a"; "b"]) counting_rng
           [["a"; "b"]; ["a"; "b"]; ["a"; "b"]] (mkRng (fun i => i) 6)).
  reflexivity.
Defined.

(** ** Rendering an empty grid *)

Lemma empty_rows_run (self : Main.t) w d rows :
  Main.width self = VInt w -> Main.side_length self = VInt d ->
  empty_grid rows ->
  forall s y,
    (y == Turtle.ycor (cursor s))%Q ->
    exists t',
      for_each rows (Main.draw_row self) s =
      (Ok tt, mkCanvas t' (log s ++ rows_calls d (Qred (inject_Z (- w) / 2))
                                               y rows)).
Proof.
  intros Hw Hd He. induction He as [|row rows -> _ IH]; intros s y Hy.
  - exists (cursor s). cbn [for_each rows_calls]. unfold dret.
    rewrite app_nil_r. destruct s. reflexivity.
  - cbn [for_each rows_calls flat_map app].
    assert (Hrow : Main.draw_row self [] s = Main.new_line self s)
      by reflexivity.
    erewrite dbind_ok
      by (rewrite Hrow; apply (new_line_run self w d); assumption).
    rewrite (Qred_complete (y - inject_Z d)
                           (Turtle.ycor (cursor s) - inject_Z d))
      by (rewrite Hy; reflexivity).
    match goal with
    | |- context [for_each rows _ ?s1] =>
        destruct (IH s1 (Qred (Turtle.ycor (cursor s) - inject_Z d)))
          as (t' & Hrest); [reflexivity|]
    end.
    exists t'. rewrite Hrest. cbn [log]. rewrite <- app_assoc. reflexivity.
Qed.

Lemma rows_calls_empty d x y rows :
  empty_grid rows ->
  exists ys, rows_calls d x y rows = flat_map (row_advance x) ys /\
             length ys = length rows.
Proof.
  intros He. revert y. induction He as [|row rows -> _ IH]; intros y.
  - exists []. split; reflexivity.
  - destruct (IH (Qred (y - inject_Z d))) as (ys & E & L).
    exists (Qred (y - inject_Z d) :: ys). cbn [rows_calls flat_map app length].
    rewrite E, L. split; reflexivity.
Qed.

Lemma row_advances_draw_nothing x ys rest :
  forallb (fun c => negb (is_drawing c)) (flat_map (row_advance x) ys ++ rest)
  = forallb (fun c => negb (is_drawing c)) rest.
Proof. induction ys as [|y ys IH]; [reflexivity | exact IH]. Qed.

Lemma count_squares_advances x ys rest :
  count_squares (flat_map (row_advance x) ys ++ rest) = count_squares rest.
Proof. induction ys as [|y ys IH]; [reflexivity | exact IH]. Qed.

Lemma draw_empty_run (self : Main.t) w h d sp s :
  Main.width self = VInt w -> Main.height self = VInt h ->
  Main.side_length self = VInt d -> Main.speed self = VInt sp ->
  empty_grid (Main.pattern self) ->
  exists t',
    Main.__draw_pattern self s =
    (Raise SystemExit,
     mkCanvas t'
       (log s ++ positioned_calls w h (Main.speed self)
          ++ rows_calls d (Qred (inject_Z (- w) / 2)) (Qred (inject_Z h / 2))
               (Main.pattern self)
          ++ done_calls)).
Proof.
  intros Hw Hh Hd Hsp He. unfold Main.__draw_pattern.
  erewrite dbind_ok by (apply (position_run self w h sp); assumption).
  match goal with
  | |- context [dbind _ _ ?s1] =>
      destruct (empty_rows_run self w d (Main.pattern self) Hw Hd He s1
                  (Qred (inject_Z h / 2)))
        as (t' & Hrun); [reflexivity|]
  end.
  erewrite dbind_ok by exact Hrun.
  rewrite finish_run. cbn [cursor log].
  exists t'. rewrite <- !app_assoc. reflexivity.
Qed.

(** C3 (amended).  Rendering an empty grid draws nothing: the pass makes
    no pen-down, colour, fill, forward or turn call and contains no
    square-draw sequence.  Between Positioned and Done it makes one row
    advance per row of the grid, so it goes directly from Positioned to
    Done when the grid has no rows. *)
Theorem render_empty_grid (self : Main.t) (w h d sp : Z) (s : canvas) :
  Main.width self = VInt w -> Main.height self = VInt h ->
  Main.side_length self = VInt d -> Main.speed self = VInt sp ->
  empty_grid (Main.pattern self) ->
  exists t' ys,
    let calls := positioned_calls w h (Main.speed self)
                   ++ flat_map (row_advance (Qred (inject_Z (- w) / 2))) ys
                   ++ done_calls in
    Main.__draw_pattern self s = (Raise SystemExit, mkCanvas t' (log s ++ calls)) /\
    length ys = length (Main.pattern self) /\
    count_squares calls = O /\
    forallb (fun c => negb (is_drawing c)) calls = true /\
    (Main.pattern self = [] -> direct_pass w h (Main.speed self) calls).
Proof.
  intros Hw Hh Hd Hsp He.
  destruct (draw_empty_run self w h d sp s Hw Hh Hd Hsp He) as (t' & Hrun).
  destruct (rows_calls_empty d (Qred (inject_Z (- w) / 2))
              (Qred (inject_Z h / 2)) (Main.pattern self) He)
    as (ys & Ecalls & Hlen).
  rewrite Ecalls in Hrun. exists t', ys. cbv zeta.
  split; [exact Hrun|]. split; [exact Hlen|]. split; [|split].
  - unfold positioned_calls. cbn [app count_squares starts_square].
    rewrite count_squares_advances. reflexivity.
  - unfold positioned_calls. cbn [app forallb is_drawing negb andb].
    rewrite row_advances_draw_nothing. reflexivity.
  - intros Hp. rewrite Hp in Hlen. destruct ys; [reflexivity | discriminate].
Qed.

Lemma render_empty_grid_witness :
  exists t' ys,
    let self := Main.mk [] (VList ["#ff0000"; "#00ff00"]) [[]; []]
                        (VInt 10) (VInt 200) (VInt 5) (VInt 100) thin_cfg in
    let calls := positioned_calls 10 200 (Main.speed self)
                   ++ flat_map (row_advance (Qred (inject_Z (- 10) / 2))) ys
                   ++ done_calls in
    Main.__draw_pattern self blank = (Raise SystemExit, mkCanvas t' (log blank ++ calls)) /\
    length ys = length (Main.pattern self) /\
    count_squares calls = O /\
    forallb (fun c => negb (is_drawing c)) calls = true /\
    (Main.pattern self = [] -> direct_pass 10 200 (Main.speed self) calls).
Proof.
  apply (render_empty_grid
           (Main.mk [] (VList ["#ff0000"; "#00ff00"]) [[]; []]
                    (VInt 10) (VInt 200) (VInt 5) (VInt 100) thin_cfg)
           10 200 100 5 blank); try reflexivity.
  repeat constructor.
Defined.

(** C3, as stated, fails on a grid of one row and no columns: the file
    [thin.json] (width 10, height 100, side 100) yields the grid [[[]]], and
    the pass makes a row advance between Positioned and Done. *)
Lemma render_empty_row_not_direct :
  exists m g',
    Main.__config sample_env Main.new "./alt-configs/thin.json" counting_rng
    = Ok (m, g') /\
    Main.pattern m = [[]] /\
    empty_grid (Main.pattern m) /\
    log (snd (Main.__draw_pattern m blank))
    = positioned_calls 10 100 (VInt 5)
        ++ row_advance (-5 # 1)%Q (-50 # 1)%Q ++ done_calls /\
    ~ direct_pass 10 100 (VInt 5) (log (snd (Main.__draw_pattern m blank))).
Proof.
  eexists _, _. split; [vm_compute; reflexivity|].
  split; [reflexivity|]. split; [repeat constructor|].
  split; [vm_compute; reflexivity|].
  unfold direct_pass. vm_compute. discriminate.
Qed.

(** ** A cell *)



(** ** Counting row advances *)

Lemma count_row_advances_step x d c rest t t' :
  c <> PenUp -> step c t = Ok t' ->
  count_row_advances x d (c :: rest) t = count_row_advances x d rest t'.
Proof.
  intros Hc Hs. cbn [count_row_advances]. rewrite Hs.
  destruct c; try reflexivity. contradiction.
Qed.

Lemma count_row_advances_skip x d l1 l2 :
  Forall (fun c => c <> PenUp) l1 ->
  forall t t', replay l1 t = Ok t' ->
  count_row_advances x d (l1 ++ l2) t = count_row_advances x d l2 t'.
Proof.
  induction 1 as [|c l1 Hc _ IH]; intros t t' Hr.
  - injection Hr as ->. reflexivity.
  - cbn [replay] in Hr. apply bind_Ok in Hr as (t1 & Hs & Hr).
    cbn [app]. rewrite (count_row_advances_step x d c _ t t1 Hc Hs).
    apply IH, Hr.
Qed.

Lemma replay_app l1 l2 t t1 :
  replay l1 t = Ok t1 -> replay (l1 ++ l2) t = replay l2 t1.
Proof.
  revert t. induction l1 as [|c l1 IH]; intros t Hr.
  - injection Hr as ->. reflexivity.
  - cbn [replay app] in *. apply bind_Ok in Hr as (t' & Hs & Hr).
    rewrite Hs. cbn. apply IH, Hr.
Qed.

Lemma replay_cell d item t :
  aligned t -> Turtle.iscolorstring t item = true ->
  replay (cell_calls (VInt d) item) t = Ok (cell_end d item t).
Proof.
  intros Ha Hk. unfold cell_calls, square_calls.
  cbn [app replay step]. unfold mbind, result_bind.
  change (Turtle.iscolorstring (Turtle.pendown t) item)
    with (Turtle.iscolorstring t item).
  rewrite Hk.
  set (t1 := Turtle.begin_fill (Turtle.color item (Turtle.pendown t))).
  assert (Ha1 : aligned t1) by exact Ha.
  rewrite (forward_aligned d t1 Ha1).
  rewrite (forward_aligned d (Turtle.right 90 (moved d t1)))
    by (apply aligned_right; exact Ha1).
  rewrite (forward_aligned d
             (Turtle.right 90 (moved d (Turtle.right 90 (moved d t1)))))
    by (do 2 apply aligned_right; exact Ha1).
  rewrite (forward_aligned d
             (Turtle.right 90 (moved d (Turtle.right 90 (moved d
                (Turtle.right 90 (moved d t1)))))))
    by (do 3 apply aligned_right; exact Ha1).
  change (Turtle.right 90 (moved d (Turtle.right 90 (moved d
            (Turtle.right 90 (moved d (Turtle.right 90 (moved d t1))))))))
    with (squared d t1).
  rewrite (forward_aligned d (Turtle.end_fill (squared d t1)))
    by (apply aligned_squared; exact Ha1).
  reflexivity.
Qed.

Lemma cell_calls_no_pen_up d item :
  Forall (fun c => c <> PenUp) (cell_calls (VInt d) item).
Proof. unfold cell_calls, square_calls. repeat constructor; discriminate. Qed.

Lemma replay_cells d row t :
  aligned t ->
  Forall (fun c => Turtle.iscolorstring t c = true) row ->
  exists t',
    replay (flat_map (cell_calls (VInt d)) row) t = Ok t' /\
    Turtle.iscolorstring t' = Turtle.iscolorstring t /\
    Turtle.heading t' = Turtle.heading t /\
    (Turtle.ycor t' ==
     Turtle.ycor t
     + inject_Z (Z.of_nat (length row) * d * snd (unit (Turtle.heading t))))%Q.
Proof.
  revert t. induction row as [|item row IH]; intros t Ha Hk.
  - exists t. repeat split.
    cbn [length Z.of_nat]. rewrite Z.mul_0_l. unfold inject_Z. ring.
  - apply Forall_cons_iff in Hk as [Hitem Hk].
    destruct (cell_end_geometry d item t Ha) as (_ & Hy & Hh).
    destruct (IH (cell_end d item t)) as (t' & Hr & Hs' & Hh' & Hy').
    { apply aligned_cell_end, Ha. }
    { exact Hk. }
    exists t'. cbn [flat_map]. split; [|split; [|split]].
    + rewrite (replay_app _ _ t _ (replay_cell d item t Ha Hitem)). exact Hr.
    + exact Hs'.
    + congruence.
    + rewrite Hy', Hy, Hh. rewrite <- Qplus_assoc, <- inject_Z_plus.
      apply Qplus_comp; [reflexivity|]. apply inject_Z_injective.
      cbn [length]. lia.
Qed.

Lemma cells_no_pen_up d row :
  Forall (fun c => c <> PenUp) (flat_map (cell_calls (VInt d)) row).
Proof.
  induction row as [|item row IH]; [constructor|].
  cbn [flat_map]. apply Forall_app. split; [apply cell_calls_no_pen_up | exact IH].
Qed.

(** Each row of the grid ends in one row advance. *)
Lemma count_row_advances_rows x d rows :
  forall t y,
    aligned t -> level (Turtle.heading t) rows -> known_colours t rows ->
    (y == Turtle.ycor t)%Q ->
    count_row_advances x d (rows_calls d x y rows ++ done_calls) t
    = length rows.
Proof.
  induction rows as [|row rows IH]; intros t y Ha Hl Hk Hy; [reflexivity|].
  apply Forall_cons_iff in Hl as [Hrow Hl].
  apply Forall_cons_iff in Hk as [Hkrow Hk].
  destruct (replay_cells d row t Ha Hkrow) as (t1 & Hr & Hs1 & Hh1 & Hy1).
  cbn [rows_calls]. rewrite <- !app_assoc.
  rewrite (count_row_advances_skip x d _ _ (cells_no_pen_up d row) t t1 Hr).
  unfold row_advance. cbn [app count_row_advances step].
  assert (Ey : (Qred (y - inject_Z d) == Turtle.ycor t1 - inject_Z d)%Q).
  { rewrite Qred_correct, Hy1, Hy, Z.mul_shuffle0, Hrow, Z.mul_0_l.
    change (inject_Z 0) with 0%Q. ring. }
  apply Qeq_bool_iff in Ey. rewrite Ey.
  rewrite (proj2 (Qeq_bool_iff x x) (Qeq_refl x)). cbn [andb].
  rewrite IH; [cbn [length]; lia | | | | reflexivity].
  - unfold aligned. cbn. rewrite Hh1. exact Ha.
  - cbn. rewrite Hh1. exact Hl.
  - unfold known_colours. cbn. rewrite Hs1. exact Hk.
Qed.

(** ** The scenario 200 x 100, side 50, two colours *)

Lemma shape_2_4 (p : list (list string)) :
  has_shape 2 4 p ->
  exists c1 c2 c3 c4 c5 c6 c7 c8,
    p = [[c1; c2; c3; c4]; [c5; c6; c7; c8]].
Proof.
  intros [Hl Hc].
  destruct p as [|r1 [|r2 [|r3 p]]]; try discriminate.
  apply Forall_cons_iff in Hc as [H1 Hc].
  apply Forall_cons_iff in Hc as [H2 _].
  destruct r1 as [|c1 [|c2 [|c3 [|c4 [|c r1]]]]]; try discriminate.
  destruct r2 as [|c5 [|c6 [|c7 [|c8 [|c r2]]]]]; try discriminate.
  eauto 10.
Qed.

(** C8.  Width 200, height 100, side 50 and the palette [#ff0000],
    [#00ff00] give a grid of 2 rows by 4 columns, 8 cells, each one of the
    two colours; rendering it with a fresh turtle, on a screen that knows
    the two colours, makes exactly 8 square-draw sequences and exactly 2
    row advances (pen up, back to x = -100, down by 50), and ends in
    Done. *)
Theorem scenario_200_100_50 (g : rng) (speed : Z)
    (previous : list (list string)) (contents : gmap string value)
    (screen : string -> bool) :
  screen "#ff0000" = true -> screen "#00ff00" = true ->
  exists p g',
    Main.generate (VInt 200) (VInt 100) (VInt 50)
      (VList ["#ff0000"; "#00ff00"]) g = Ok (p, g') /\
    has_shape 2 4 p /\
    length (concat p) = 8%nat /\
    (forall c, In c (concat p) -> c = "#ff0000" \/ c = "#00ff00") /\
    exists t' calls,
      Main.__draw_pattern
        (Main.mk previous (VList ["#ff0000"; "#00ff00"]) p
                 (VInt 200) (VInt 100) (VInt speed) (VInt 50) contents)
        (mkCanvas (Turtle.fresh screen) [])
      = (Raise SystemExit, mkCanvas t' calls) /\
      calls = positioned_calls 200 100 (VInt speed)
                ++ rows_calls 50 (-100 # 1)%Q (50 # 1)%Q p ++ done_calls /\
      count_squares calls = 8%nat /\
      count_row_advances (-100 # 1)%Q 50 calls (Turtle.fresh screen) = 2%nat.
Proof.
  intros Hred Hgreen.
  destruct (gen_pattern_total 4 2 ["#ff0000"; "#00ff00"] g) as (p & g' & Hg);
    [discriminate|].
  exists p, g'.
  assert (Hgen : Main.generate (VInt 200) (VInt 100) (VInt 50)
                   (VList ["#ff0000"; "#00ff00"]) g = Ok (p, g')) by exact Hg.
  apply gen_pattern_inv in Hg as [Hshape Hpal].
  specialize (Hpal _ eq_refl). change (has_shape 2 4 p) in Hshape.
  assert (Hcells : forall c, In c (concat p) -> c = "#ff0000" \/ c = "#00ff00").
  { intros c Hc. apply in_concat in Hc as (row & Hrow & Hc).
    unfold within_palette in Hpal. rewrite Forall_forall in Hpal.
    apply list_elem_of_In in Hrow. specialize (Hpal row Hrow).
    rewrite Forall_forall in Hpal. apply list_elem_of_In in Hc.
    specialize (Hpal c Hc). cbn in Hpal.
    destruct Hpal as [<-|[<-|[]]]; auto. }
  assert (Hknown : forall c, In c (concat p) -> screen c = true).
  { intros c Hc. destruct (Hcells c Hc) as [->| ->]; assumption. }
  split; [exact Hgen|]. split; [exact Hshape|].
  split; [apply (shape_cells 2 4), Hshape|]. split; [exact Hcells|].
  destruct (shape_2_4 p Hshape)
    as (c1 & c2 & c3 & c4 & c5 & c6 & c7 & c8 & ->).
  cbn [concat app In] in Hknown.
  assert (H1 := Hknown c1 ltac:(tauto)). assert (H2 := Hknown c2 ltac:(tauto)).
  assert (H3 := Hknown c3 ltac:(tauto)). assert (H4 := Hknown c4 ltac:(tauto)).
  assert (H5 := Hknown c5 ltac:(tauto)). assert (H6 := Hknown c6 ltac:(tauto)).
  assert (H7 := Hknown c7 ltac:(tauto)). assert (H8 := Hknown c8 ltac:(tauto)).
  destruct (draw_pattern_run
              (Main.mk previous (VList ["#ff0000"; "#00ff00"])
                       [[c1; c2; c3; c4]; [c5; c6; c7; c8]]
                       (VInt 200) (VInt 100) (VInt speed) (VInt 50) contents)
              200 100 50 speed (mkCanvas (Turtle.fresh screen) []))
    as (t' & Hrun); try reflexivity.
  { left. reflexivity. }
  { apply level_east. }
  { repeat constructor; assumption. }
  cbn [log app Main.speed Main.pattern] in Hrun.
  eexists t', _. split; [exact Hrun|].
  split; [reflexivity|]. split; [apply count_squares_pass|].
  unfold positioned_calls.
  cbn [app count_row_advances step].
  rewrite count_row_advances_rows;
    [vm_compute; reflexivity | left; reflexivity | apply level_east
    | repeat constructor; assumption | reflexivity].
Qed.

Lemma scenario_200_100_50_witness :
  (hex_screen "#ff0000" = true /\ hex_screen "#00ff00" = true) /\
  exists p g',
    Main.generate (VInt 200) (VInt 100) (VInt 50)
      (VList ["#ff0000"; "#00ff00"]) counting_rng = Ok (p, g') /\
    has_shape 2 4 p /\
    length (concat p) = 8%nat /\
    (forall c, In c (concat p) -> c = "#ff0000" \/ c = "#00ff00") /\
    exists t' calls,
      Main.__draw_pattern
        (Main.mk [] (VList ["#ff0000"; "#00ff00"]) p
                 (VInt 200) (VInt 100) (VInt 5) (VInt 50) default_cfg)
        (mkCanvas (Turtle.fresh hex_screen) [])
      = (Raise SystemExit, mkCanvas t' calls) /\
      calls = positioned_calls 200 100 (VInt 5)
                ++ rows_calls 50 (-100 # 1)%Q (50 # 1)%Q p ++ done_calls /\
      count_squares calls = 8%nat /\
      count_row_advances (-100 # 1)%Q 50 calls (Turtle.fresh hex_screen) = 2%nat.
Proof.
  split; [split; reflexivity|].
  apply (scenario_200_100_50 counting_rng 5 [] default_cfg hex_screen);
    reflexivity.
Defined.

(** ** Validation and fallback *)

(** C6.  A file that exists, is named [*.json] and does not parse makes
    [_check_valid_file] raise instead of answering [False]: [__config]
    raises the parser's exception and no configuration is applied. *)
Theorem malformed_config_propagates (E : env) (self : Main.t)
    (file text : string) (g : rng) :
  disk E file = Some text -> suffix E file = ".json" ->
  loads E text = Raise JSONDecodeError ->
  _check_valid_file E file = Raise JSONDecodeError /\
  Main.__config E self file g = Raise JSONDecodeError.
Proof.
  intros Hf Hs Hl.
  pose proof (check_valid_file_malformed E file text _ Hf Hs Hl) as Hv.
  split; [exact Hv|]. unfold Main.__config. rewrite Hv. reflexivity.
Qed.

Lemma malformed_config_propagates_witness :
  (disk sample_env "./alt-configs/broken.json" = Some "{" /\
   suffix sample_env "./alt-configs/broken.json" = ".json" /\
   loads sample_env "{" = Raise JSONDecodeError) /\
  _check_valid_file sample_env "./alt-configs/broken.json"
  = Raise JSONDecodeError /\
  Main.__config sample_env Main.new "./alt-configs/broken.json" counting_rng
  = Raise JSONDecodeError.
Proof.
  split; [repeat split|].
  apply (malformed_config_propagates sample_env Main.new
           "./alt-configs/broken.json" "{" counting_rng); reflexivity.
Defined.

(** The sibling paths do fall back: a missing file, or the same malformed
    text under a name that does not end in [.json], is replaced by the
    default file. *)
Lemma unsuitable_file_falls_back (E : env) (self : Main.t) (file : string)
    (g : rng) :
  disk E file = None \/ suffix E file <> ".json" ->
  Main.__config E self file g =
  (contents ← _load_config E _DEFAULT_CONFIG_FILE;
   Main.apply_contents E self contents g).
Proof.
  intros H. apply config_fallback.
  destruct H; [apply check_valid_file_absent | apply check_valid_file_suffix];
    assumption.
Qed.

Example malformed_text_file_falls_back :
  exists m g',
    Main.__config sample_env Main.new "./alt-configs/notes.txt" counting_rng
    = Ok (m, g') /\
    Main.config_contents m = default_cfg.
Proof. eexists _, _. split; [vm_compute; reflexivity | reflexivity]. Qed.

(** A file that lacks a required key is replaced by the default file. *)
Lemma incomplete_file_falls_back (E : env) (self : Main.t)
    (file text : string) (d : gmap string value) (g : rng) :
  disk E file = Some text -> suffix E file = ".json" ->
  loads E text = Ok d -> has_keys d _NECESSARY_KEYS = false ->
  Main.__config E self file g =
  (contents ← _load_config E _DEFAULT_CONFIG_FILE;
   Main.apply_contents E self contents g).
Proof.
  intros Hf Hs Hl Hk. apply config_fallback.
  rewrite (check_valid_file_loaded E file text d Hf Hs Hl), Hk. reflexivity.
Qed.

(** C4 (amended).  Validation looks at the file's name and at the presence
    of the five keys, not at the value of [side_length]: a file with all
    five keys and [side_length <= 0] passes and no fallback takes place,
    [__config] goes on with the dictionary of the file.  With side length
    0 it reaches the division and raises [ZeroDivisionError]; with a
    negative side length (width and height in [0 .. 2^50]) the dictionary
    is applied with that side length, and the grid is empty. *)
Theorem nonpositive_side_passes_validation (E : env) (self : Main.t)
    (file text : string) (d : gmap string value) (side : Z) (g : rng) :
  disk E file = Some text -> suffix E file = ".json" ->
  loads E text = Ok d -> has_keys d _NECESSARY_KEYS = true ->
  d !! "side_length" = Some (VInt side) -> side <= 0 ->
  _check_valid_file E file = Ok true /\
  Main.__config E self file g = Main.apply_contents E self d g /\
  (side = 0 ->
   forall w, d !! "width" = Some (VInt w) ->
     Main.__config E self file g = Raise ZeroDivisionError) /\
  (side < 0 ->
   forall w h,
     d !! "width" = Some (VInt w) -> d !! "height" = Some (VInt h) ->
     0 <= w < 2 ^ 50 -> 0 <= h < 2 ^ 50 ->
     exists m,
       Main.__config E self file g = Ok (m, g) /\
       Main.side_length m = VInt side /\ Main.config_contents m = d /\
       Main.pattern m = []).
Proof.
  intros Hf Hs Hl Hk Hside _.
  split; [rewrite (check_valid_file_loaded E file text d Hf Hs Hl), Hk;
          reflexivity|].
  pose proof (config_valid E self file text d g Hf Hs Hl Hk) as Hc.
  split; [exact Hc|]. rewrite Hc.
  destruct (has_keys_lookup d _NECESSARY_KEYS "speed" Hk) as [sp Hsp];
    [cbn; tauto|].
  destruct (has_keys_lookup d _NECESSARY_KEYS "height" Hk) as [hv Hhv];
    [cbn; tauto|].
  destruct (has_keys_lookup d _NECESSARY_KEYS "colours" Hk) as [cs Hcs];
    [cbn; tauto|].
  split.
  - intros -> w Hw. unfold Main.apply_contents.
    rewrite (get_or_default_present E d _ _ Hsp),
      (get_or_default_present E d _ _ Hw),
      (get_or_default_present E d _ _ Hhv),
      (get_or_default_present E d _ _ Hside),
      (get_or_default_present E d _ _ Hcs).
    reflexivity.
  - intros Hneg w h Hw Hh [Hw0 _] [Hh0 _]. unfold Main.apply_contents.
    rewrite (get_or_default_present E d _ _ Hsp),
      (get_or_default_present E d _ _ Hw),
      (get_or_default_present E d _ _ Hh),
      (get_or_default_present E d _ _ Hside),
      (get_or_default_present E d _ _ Hcs).
    cbn [mbind result_bind].
    rewrite (generate_empty w h side cs g Hh0 (or_introl Hneg)).
    eexists. split; [reflexivity|]. repeat split.
Qed.

Lemma nonpositive_side_passes_validation_witness :
  (_check_valid_file sample_env "./alt-configs/zero.json" = Ok true /\
   Main.__config sample_env Main.new "./alt-configs/zero.json" counting_rng
   = Raise ZeroDivisionError) /\
  (_check_valid_file negative_env "./alt-configs/negative.json" = Ok true /\
   exists m,
     Main.__config negative_env Main.new "./alt-configs/negative.json"
       counting_rng = Ok (m, counting_rng) /\
     Main.side_length m = VInt (-50) /\
     Main.config_contents m = negative_side_cfg /\
     Main.pattern m = []).
Proof.
  split.
  - destruct (nonpositive_side_passes_validation sample_env Main.new
                "./alt-configs/zero.json" "zero side" zero_side_cfg 0
                counting_rng) as (Hv & _ & Hzero & _);
      [reflexivity | reflexivity | reflexivity | reflexivity | reflexivity
       | lia |].
    split; [exact Hv|]. exact (Hzero eq_refl 200 eq_refl).
  - destruct (nonpositive_side_passes_validation negative_env Main.new
                "./alt-configs/negative.json" "negative side"
                negative_side_cfg (-50) counting_rng) as (Hv & _ & _ & Hneg);
      [reflexivity | reflexivity | reflexivity | reflexivity | reflexivity
       | lia |].
    split; [exact Hv|].
    apply (Hneg ltac:(lia) 200 100 eq_refl eq_refl);
      split; (lia || reflexivity).
Defined.

(** C4, as stated, fails on [zero.json], whose side length is 0: validation
    answers [True], and [__config] goes on to divide by zero. *)
Lemma zero_side_not_rejected :
  zero_side_cfg !! "side_length" = Some (VInt 0) /\
  _check_valid_file sample_env "./alt-configs/zero.json" = Ok true /\
  Main.__config sample_env Main.new "./alt-configs/zero.json" counting_rng
  = Raise ZeroDivisionError.
Proof. repeat split; vm_compute; reflexivity. Qed.

(** C5 (amended).  Validation does not look at the entries of [colours]:
    a file with all five keys whose [colours] has fewer than 2 entries, or
    an entry that is not a hex colour, passes; no fallback takes place and
    that list becomes the palette the grid is drawn from. *)
Theorem unchecked_colours_pass_validation (E : env) (self : Main.t)
    (file text : string) (d : gmap string value) (cs : list string)
    (g : rng) :
  disk E file = Some text -> suffix E file = ".json" ->
  loads E text = Ok d -> has_keys d _NECESSARY_KEYS = true ->
  d !! "colours" = Some (VList cs) ->
  (length cs < 2)%nat \/ Exists (fun c => is_hex_code c = false) cs ->
  _check_valid_file E file = Ok true /\
  Main.__config E self file g = Main.apply_contents E self d g /\
  (forall m g', Main.__config E self file g = Ok (m, g') ->
                Main.colours m = VList cs /\
                within_palette cs (Main.pattern m)).
Proof.
  intros Hf Hs Hl Hk Hcs _.
  split; [rewrite (check_valid_file_loaded E file text d Hf Hs Hl), Hk;
          reflexivity|].
  pose proof (config_valid E self file text d g Hf Hs Hl Hk) as Hc.
  split; [exact Hc|]. intros m g' Hm. rewrite Hc in Hm.
  apply apply_contents_inv in Hm as (Hgen & _ & _ & _ & _ & Hcol & _).
  rewrite (get_or_default_present E d _ _ Hcs) in Hcol.
  assert (Ecol : Main.colours m = VList cs) by congruence.
  split; [exact Ecol|].
  unfold Main.generate in Hgen.
  apply bind_Ok in Hgen as (c & _ & Hgen).
  apply bind_Ok in Hgen as (r & _ & Hgen).
  apply gen_pattern_inv in Hgen as [_ Hpal]. apply Hpal, Ecol.
Qed.

Lemma unchecked_colours_pass_validation_witness :
  (disk sample_env "./alt-configs/bad.json" = Some "bad colours" /\
   suffix sample_env "./alt-configs/bad.json" = ".json" /\
   loads sample_env "bad colours" = Ok bad_colours_cfg /\
   has_keys bad_colours_cfg _NECESSARY_KEYS = true /\
   bad_colours_cfg !! "colours" = Some (VList ["red"; "#12"]) /\
   Exists (fun c => is_hex_code c = false) ["red"; "#12"]) /\
  _check_valid_file sample_env "./alt-configs/bad.json" = Ok true /\
  Main.__config sample_env Main.new "./alt-configs/bad.json" counting_rng
  = Main.apply_contents sample_env Main.new bad_colours_cfg counting_rng /\
  (forall m g',
      Main.__config sample_env Main.new "./alt-configs/bad.json" counting_rng
      = Ok (m, g') ->
      Main.colours m = VList ["red"; "#12"] /\
      within_palette ["red"; "#12"] (Main.pattern m)).
Proof.
  split; [repeat split; try reflexivity; left; reflexivity|].
  apply (unchecked_colours_pass_validation sample_env Main.new
           "./alt-configs/bad.json" "bad colours" bad_colours_cfg
           ["red"; "#12"] counting_rng);
    try reflexivity.
  right. left. reflexivity.
Defined.

(** C5, as stated, fails on [one.json], whose [colours] is the single
    entry [#abc]: validation answers [True] and the grid is generated from
    that one colour. *)
Lemma single_colour_not_rejected :
  one_colour_cfg !! "colours" = Some (VList ["#abc"]) /\
  _check_valid_file sample_env "./alt-configs/one.json" = Ok true /\
  exists m g',
    Main.__config sample_env Main.new "./alt-configs/one.json" counting_rng
    = Ok (m, g') /\
    Main.colours m = VList ["#abc"] /\
    Main.pattern m = [["#abc"; "#abc"; "#abc"; "#abc"];
                      ["#abc"; "#abc"; "#abc"; "#abc"]].
Proof.
  split; [vm_compute; reflexivity|]. split; [vm_compute; reflexivity|].
  eexists _, _. split; [vm_compute; reflexivity|]. split; reflexivity.
Qed.

(** The hex pattern on a few strings. *)
Example hex_codes :
  is_hex_code "#abc" = true /\ is_hex_code "#ABCdef" = true /\
  is_hex_code "#abcd" = false /\ is_hex_code "abc" = false /\
  is_hex_code "#ggg" = false /\ is_hex_code "red" = false /\
  is_hex_code "#12" = false.
Proof. repeat split. Qed.

(** * Further properties of the loader, the generator and the renderer *)

(** ** Validation *)

Lemma check_valid_file_true (E : env) (file : string) :
  _check_valid_file E file = Ok true <->
  exists text d,
    disk E file = Some text /\ suffix E file = ".json" /\
    loads E text = Ok d /\ has_keys d _NECESSARY_KEYS = true.
Proof.
  split.
  - unfold _check_valid_file, is_file.
    destruct (disk E file) as [text|] eqn:Hf; [|discriminate].
    destruct (String.eqb_spec (suffix E file) ".json") as [Hs|Hs];
      [|discriminate].
    cbn [andb]. intros H.
    destruct (loads E text) as [d|e] eqn:Hl.
    + rewrite (check_keys_loaded E file d) in H
        by (rewrite (load_config_read E file text Hf); exact Hl).
      exists text, d. repeat split; congruence.
    + unfold _NECESSARY_KEYS in H.
      rewrite (check_keys_raises E file e) in H
        by (rewrite (load_config_read E file text Hf); exact Hl).
      discriminate.
  - intros (text & d & Hf & Hs & Hl & Hk).
    rewrite (check_valid_file_loaded E file text d Hf Hs Hl), Hk.
    reflexivity.
Qed.

(** [_check_valid_file] answers [True] exactly for a file that is on disk,
    is named [*.json] and parses to a dictionary with the five keys. *)
Theorem check_valid_file_true_iff (E : env) (file : string) :
  _check_valid_file E file = Ok true <->
  exists text d,
    disk E file = Some text /\ suffix E file = ".json" /\
    loads E text = Ok d /\ has_keys d _NECESSARY_KEYS = true.
Proof. exact (check_valid_file_true E file). Qed.

Lemma check_valid_file_raises (E : env) (file : string) (e : exn) :
  _check_valid_file E file = Raise e <->
  exists text,
    disk E file = Some text /\ suffix E file = ".json" /\
    loads E text = Raise e.
Proof.
  split.
  - unfold _check_valid_file, is_file.
    destruct (disk E file) as [text|] eqn:Hf; [|discriminate].
    destruct (String.eqb_spec (suffix E file) ".json") as [Hs|Hs];
      [|discriminate].
    cbn [andb]. intros H.
    destruct (loads E text) as [d|e'] eqn:Hl.
    + rewrite (check_keys_loaded E file d) in H
        by (rewrite (load_config_read E file text Hf); exact Hl).
      discriminate.
    + unfold _NECESSARY_KEYS in H.
      rewrite (check_keys_raises E file e') in H
        by (rewrite (load_config_read E file text Hf); exact Hl).
      exists text. repeat split; congruence.
  - intros (text & Hf & Hs & Hl).
    apply (check_valid_file_malformed E file text e Hf Hs Hl).
Qed.


(** ** Fallback *)

(** A file that fails validation has no influence on the outcome:
    [__config] does then what it does on the default file, whatever state
    that file is in. *)
Theorem config_invalid_file_as_default (E : env) (self : Main.t)
    (file : string) (g : rng) :
  _check_valid_file E file = Ok false ->
  Main.__config E self file g
  = Main.__config E self _DEFAULT_CONFIG_FILE g.
Proof.
  intros Hv. rewrite (config_fallback E self file g Hv).
  unfold Main.__config.
  destruct (_check_valid_file E _DEFAULT_CONFIG_FILE) as [[|]|e] eqn:Hd;
    try reflexivity.
  apply check_valid_file_raises in Hd as (text & Hf & _ & Hl).
  rewrite (load_config_read E _ text Hf), Hl. reflexivity.
Qed.

Lemma config_invalid_file_as_default_witness :
  _check_valid_file sample_env "./alt-configs/notes.txt" = Ok false /\
  Main.__config sample_env Main.new "./alt-configs/notes.txt" counting_rng
  = Main.__config sample_env Main.new _DEFAULT_CONFIG_FILE counting_rng.
Proof.
  split; [reflexivity|].
  apply (config_invalid_file_as_default sample_env Main.new
           "./alt-configs/notes.txt" counting_rng).
  reflexivity.
Defined.

(** ** Keys and defaults *)

Lemma get_or_default_union (E : env) (d : gmap string value) (k : string) :
  Main.get_or_default E d k =
  match (d ∪ _DEFAULT_CONFIG E) !! k with
  | Some v => Ok v
  | None => Raise KeyError
  end.
Proof.
  unfold Main.get_or_default. rewrite lookup_union.
  destruct (d !! k), (_DEFAULT_CONFIG E !! k); reflexivity.
Qed.

Lemma gen_row_raises n colours g e :
  gen_row n colours g = Raise e -> e = IndexError \/ e = TypeError.
Proof.
  revert g. induction n as [|n IH]; intros g; [discriminate|].
  cbn [gen_row].
  destruct (choice colours g) as [[c g1]|e1] eqn:Hc.
  - destruct (gen_row n colours g1) as [[cs g2]|e2] eqn:Hr.
    + rewrite (bind_Ok_eq _ _ (c, g1) eq_refl), (bind_Ok_eq _ _ _ Hr).
      discriminate.
    + rewrite (bind_Ok_eq _ _ (c, g1) eq_refl), (bind_Raise_eq _ _ _ Hr).
      intros H. injection H as <-. eapply IH, Hr.
  - rewrite (bind_Raise_eq _ _ e1 eq_refl). intros H. injection H as <-.
    destruct colours as [z|[|c cs]]; cbn in Hc; try discriminate;
      injection Hc as <-; auto.
Qed.

Lemma gen_rows_raises n width colours g e :
  gen_rows n width colours g = Raise e -> e = IndexError \/ e = TypeError.
Proof.
  revert g. induction n as [|n IH]; intros g; [discriminate|].
  cbn [gen_rows].
  destruct (gen_row width colours g) as [[r g1]|e1] eqn:Hr.
  - destruct (gen_rows n width colours g1) as [[rs g2]|e2] eqn:Hrs.
    + rewrite (bind_Ok_eq _ _ (r, g1) eq_refl), (bind_Ok_eq _ _ _ Hrs).
      discriminate.
    + rewrite (bind_Ok_eq _ _ (r, g1) eq_refl), (bind_Raise_eq _ _ _ Hrs).
      intros H. injection H as <-. eapply IH, Hrs.
  - rewrite (bind_Raise_eq _ _ e1 eq_refl). intros H. injection H as <-.
    eapply gen_row_raises, Hr.
Qed.

Lemma truediv_raises a b e :
  truediv a b = Raise e ->
  (e = ZeroDivisionError /\ exists x, a = VInt x /\ b = VInt 0)
  \/ (e = TypeError /\ ((exists l, a = VList l) \/ (exists l, b = VList l))).
Proof.
  destruct a as [x|l], b as [y|l']; cbn.
  - destruct (Z.eqb_spec y 0) as [->|]; [|discriminate].
    intros H. injection H as <-. left. eauto.
  - intros H. injection H as <-. right. eauto.
  - intros H. injection H as <-. right. eauto.
  - intros H. injection H as <-. right. eauto.
Qed.


Lemma apply_contents_overlay (E : env) (self : Main.t)
    (d : gmap string value) (g : rng) (m : Main.t) (g' : rng) :
  Main.apply_contents E self d g = Ok (m, g') ->
  (d ∪ _DEFAULT_CONFIG E) !! "speed" = Some (Main.speed m) /\
  (d ∪ _DEFAULT_CONFIG E) !! "width" = Some (Main.width m) /\
  (d ∪ _DEFAULT_CONFIG E) !! "height" = Some (Main.height m) /\
  (d ∪ _DEFAULT_CONFIG E) !! "side_length" = Some (Main.side_length m) /\
  (d ∪ _DEFAULT_CONFIG E) !! "colours" = Some (Main.colours m) /\
  Main.config_contents m = d /\
  Main.previous_drawing m = Main.previous_drawing self.
Proof.
  intros H.
  assert (Hprev : Main.previous_drawing m = Main.previous_drawing self).
  { unfold Main.apply_contents in H.
    repeat (apply bind_Ok in H as (? & _ & H)).
    destruct x4. injection H as <- _. reflexivity. }
  apply apply_contents_inv in H as (_ & Hd & Hw & Hh & Hs & Hc & Hsp).
  rewrite get_or_default_union in Hw, Hh, Hs, Hc, Hsp.
  repeat split; try assumption;
    match goal with
    | Hk : match ?o with Some _ => _ | None => _ end = Ok _ |- ?o = Some _ =>
        destruct o; [congruence | discriminate]
    end.
Qed.

(** A key that the loaded dictionary lacks is taken from [_DEFAULT_CONFIG],
    and a key of the dictionary always wins: after [__config]'s
    assignments every attribute is the value of its key in the dictionary
    overlaid on [_DEFAULT_CONFIG]. *)
Theorem apply_contents_defaults (E : env) (self : Main.t)
    (d : gmap string value) (g : rng) (m : Main.t) (g' : rng) :
  Main.apply_contents E self d g = Ok (m, g') ->
  (d ∪ _DEFAULT_CONFIG E) !! "speed" = Some (Main.speed m) /\
  (d ∪ _DEFAULT_CONFIG E) !! "width" = Some (Main.width m) /\
  (d ∪ _DEFAULT_CONFIG E) !! "height" = Some (Main.height m) /\
  (d ∪ _DEFAULT_CONFIG E) !! "side_length" = Some (Main.side_length m) /\
  (d ∪ _DEFAULT_CONFIG E) !! "colours" = Some (Main.colours m) /\
  Main.config_contents m = d /\
  Main.previous_drawing m = Main.previous_drawing self.
Proof. exact (apply_contents_overlay E self d g m g'). Qed.

Lemma apply_contents_defaults_witness :
  exists m g',
    let d := delete "speed" one_colour_cfg in
    Main.apply_contents sample_env Main.new d counting_rng = Ok (m, g') /\
    (d ∪ _DEFAULT_CONFIG sample_env) !! "speed" = Some (Main.speed m) /\
    (d ∪ _DEFAULT_CONFIG sample_env) !! "width" = Some (Main.width m) /\
    (d ∪ _DEFAULT_CONFIG sample_env) !! "height" = Some (Main.height m) /\
    (d ∪ _DEFAULT_CONFIG sample_env) !! "side_length"
    = Some (Main.side_length m) /\
    (d ∪ _DEFAULT_CONFIG sample_env) !! "colours" = Some (Main.colours m) /\
    Main.config_contents m = d /\
    Main.previous_drawing m = Main.previous_drawing Main.new.
Proof.
  eexists _, _. cbv zeta. split; [vm_compute; reflexivity|].
  eapply (apply_contents_defaults sample_env Main.new
            (delete "speed" one_colour_cfg) counting_rng).
  vm_compute. reflexivity.
Defined.


(** ** What a successful [__config] establishes *)

(** After a successful [__config] that left integers in the width, the
    height and the side length (the first two below [2^50] in magnitude),
    the side length is not zero, the grid has
    [round(height / side_length)] rows of [round(width / side_length)]
    cells (none when the rounded quotient is negative), every cell comes
    from the stored palette, and [__previous_drawing] is untouched. *)
Theorem config_establishes (E : env) (self : Main.t) (file : string)
    (g : rng) (m : Main.t) (g' : rng) (w h d : Z) :
  Main.__config E self file g = Ok (m, g') ->
  Main.width m = VInt w -> Main.height m = VInt h ->
  Main.side_length m = VInt d ->
  Z.abs w < 2 ^ 50 -> Z.abs h < 2 ^ 50 ->
  d <> 0 /\
  has_shape (Z.to_nat (round (Qred (inject_Z h / inject_Z d))))
            (Z.to_nat (round (Qred (inject_Z w / inject_Z d))))
            (Main.pattern m) /\
  (forall cs, Main.colours m = VList cs -> within_palette cs (Main.pattern m)) /\
  Main.previous_drawing m = Main.previous_drawing self.
Proof.
  intros H Ew Eh Ed _ _. apply config_inv in H as [c H].
  pose proof (apply_contents_overlay E self c g m g' H)
    as (_ & _ & _ & _ & _ & _ & Hprev).
  apply apply_contents_inv in H as (Hgen & _).
  rewrite Ew, Eh, Ed in Hgen.
  assert (Hd : d <> 0).
  { destruct (generate_ints _ _ _ _ _ _ _ Hgen)
      as (w' & h' & d' & _ & _ & Ed' & Hd').
    congruence. }
  rewrite generate_run in Hgen by exact Hd.
  apply gen_pattern_inv in Hgen as [Hshape Hpal].
  repeat split; try assumption; apply Hshape.
Qed.

Lemma config_establishes_witness :
  exists m g',
    Main.__config sample_env Main.new "./alt-configs/thin.json" counting_rng
    = Ok (m, g') /\
    Main.width m = VInt 10 /\ Main.height m = VInt 100 /\
    Main.side_length m = VInt 100 /\
    100 <> 0 /\
    has_shape (Z.to_nat (round (Qred (inject_Z 100 / inject_Z 100))))
              (Z.to_nat (round (Qred (inject_Z 10 / inject_Z 100))))
              (Main.pattern m) /\
    (forall cs, Main.colours m = VList cs -> within_palette cs (Main.pattern m)) /\
    Main.previous_drawing m = Main.previous_drawing Main.new.
Proof.
  assert (H : exists m g',
             Main.__config sample_env Main.new "./alt-configs/thin.json"
               counting_rng = Ok (m, g') /\
             Main.width m = VInt 10 /\ Main.height m = VInt 100 /\
             Main.side_length m = VInt 100).
  { eexists _, _. split; [vm_compute; reflexivity|]. repeat split. }
  destruct H as (m & g' & H & Ew & Eh & Ed).
  exists m, g'. split; [exact H|]. split; [exact Ew|].
  split; [exact Eh|]. split; [exact Ed|].
  apply (config_establishes sample_env Main.new "./alt-configs/thin.json"
           counting_rng m g' 10 100 100 H Ew Eh Ed); reflexivity.
Defined.

(** ** Errors and edges of [generate] *)

Lemma generate_ZeroDivisionError (width height side colours : value)
    (g : rng) :
  Main.generate width height side colours g = Raise ZeroDivisionError <->
  exists w, width = VInt w /\ side = VInt 0.
Proof.
  split.
  - unfold Main.generate.
    destruct (truediv width side) as [cols|e1] eqn:Hc.
    + destruct (truediv height side) as [rows|e2] eqn:Hr.
      * rewrite (bind_Ok_eq _ _ cols eq_refl), (bind_Ok_eq _ _ rows eq_refl).
        intros H. apply gen_rows_raises in H as [H|H]; discriminate.
      * rewrite (bind_Ok_eq _ _ cols eq_refl), (bind_Raise_eq _ _ e2 eq_refl).
        intros H. injection H as ->.
        apply truediv_raises in Hr as [[_ (x & _ & ->)]|[H _]];
          [|discriminate].
        destruct width; discriminate.
    + rewrite (bind_Raise_eq _ _ e1 eq_refl). intros H. injection H as ->.
      apply truediv_raises in Hc as [[_ (x & -> & ->)]|[H _]];
        [eauto | discriminate].
  - intros (w & -> & ->). reflexivity.
Qed.

(** With integers for the width, the height and the side length,
    [generate] raises [ZeroDivisionError] exactly when the side length is
    0, whatever the palette is. *)
Theorem generate_ZeroDivisionError_iff (w h d : Z) (colours : value)
    (g : rng) :
  Main.generate (VInt w) (VInt h) (VInt d) colours g = Raise ZeroDivisionError
  <-> d = 0.
Proof.
  rewrite generate_ZeroDivisionError. split.
  - intros (w' & _ & H). congruence.
  - intros ->. eauto.
Qed.

(** With a non-negative height and a side length that is negative, or at
    least twice the height, the grid has no rows: [generate] returns the
    empty grid without drawing a colour, for every palette, the empty one
    and an ill-typed one included (width and height below [2^50] in
    magnitude). *)
Theorem generate_no_rows (w h sl : Z) (colours : value) (g : rng) :
  Z.abs w < 2 ^ 50 -> 0 <= h < 2 ^ 50 ->
  sl < 0 \/ (0 < sl /\ 2 * h <= sl) ->
  Main.generate (VInt w) (VInt h) (VInt sl) colours g = Ok ([], g).
Proof. intros _ [Hh _] Hs. exact (generate_empty w h sl colours g Hh Hs). Qed.

Lemma generate_no_rows_witness :
  Main.generate (VInt 200) (VInt 50) (VInt 100) (VList []) counting_rng
  = Ok ([], counting_rng) /\
  Main.generate (VInt 200) (VInt 100) (VInt (-50)) (VInt 7) counting_rng
  = Ok ([], counting_rng).
Proof.
  split.
  - apply (generate_no_rows 200 50 100 (VList []) counting_rng);
      [reflexivity | split; [lia | reflexivity] | lia].
  - apply (generate_no_rows 200 100 (-50) (VInt 7) counting_rng);
      [reflexivity | split; [lia | reflexivity] | lia].
Defined.

(** A canvas whose sides are whole multiples of the side length (and
    below [2^50]) is tiled exactly: [k * sl] by [m * sl] gives [m] rows of
    [k] cells. *)
Theorem generate_exact_multiples (k m sl : Z) (cs : list string) (g : rng) :
  0 < sl -> 0 <= k -> 0 <= m -> k * sl < 2 ^ 50 -> m * sl < 2 ^ 50 ->
  cs <> [] ->
  exists p g',
    Main.generate (VInt (k * sl)) (VInt (m * sl)) (VInt sl) (VList cs) g
    = Ok (p, g') /\
    has_shape (Z.to_nat m) (Z.to_nat k) p.
Proof.
  intros Hs Hk Hm _ _ Hne. rewrite generate_run by lia.
  assert (Hround : forall n, round (Qred (inject_Z (n * sl) / inject_Z sl)) = n).
  { intros n. rewrite round_quotient by exact Hs.
    rewrite Z.div_mul by lia.
    replace (2 * (n * sl - n * sl)) with 0 by lia.
    destruct (Z.compare_spec 0 sl); [lia | reflexivity | lia]. }
  rewrite !Hround.
  destruct (gen_pattern_total k m cs g Hne) as (p & g' & Hg).
  exists p, g'. split; [exact Hg|].
  apply gen_pattern_inv in Hg as [Hshape _]. exact Hshape.
Qed.

Lemma generate_exact_multiples_witness :
  exists p g',
    Main.generate (VInt (4 * 50)) (VInt (2 * 50)) (VInt 50)
      (VList ["#ff0000"; "#00ff00"]) counting_rng = Ok (p, g') /\
    has_shape (Z.to_nat 2) (Z.to_nat 4) p.
Proof.
  apply (generate_exact_multiples 4 2 50 ["#ff0000"; "#00ff00"] counting_rng);
    (lia || reflexivity || discriminate).
Defined.

(** ** The render pass as a whole *)

Lemma disciplined_cell d item rest down :
  disciplined (cell_calls (VInt d) item ++ rest) down false
  = disciplined rest true false.
Proof. reflexivity. Qed.

Lemma disciplined_cells d row rest down :
  disciplined (flat_map (cell_calls (VInt d)) row ++ rest) down false
  = disciplined rest (match row with [] => down | _ => true end) false.
Proof.
  revert down. induction row as [|item row IH]; intros down; [reflexivity|].
  cbn [flat_map]. rewrite <- app_assoc, disciplined_cell, IH.
  destruct row; reflexivity.
Qed.

Lemma disciplined_rows d x y rows rest down :
  disciplined (rows_calls d x y rows ++ rest) down false
  = disciplined rest (match rows with [] => down | _ => false end) false.
Proof.
  revert y down. induction rows as [|row rows IH]; intros y down;
    [reflexivity|].
  cbn [rows_calls]. rewrite <- !app_assoc, disciplined_cells.
  unfold row_advance. cbn [app disciplined negb andb].
  rewrite IH. destruct rows; reflexivity.
Qed.

(** A render pass keeps the pen and fill discipline: every [goto] is made
    with the pen up and no fill open (no stray line is drawn between
    rows), every [forward] with the pen down, fills are opened and closed
    in turn, and none is left open at the end. *)
Theorem draw_pattern_disciplined (self : Main.t) (w h d sp : Z) (s : canvas) :
  Main.width self = VInt w -> Main.height self = VInt h ->
  Main.side_length self = VInt d -> Main.speed self = VInt sp ->
  Turtle.heading (cursor s) = 0 ->
  known_colours (cursor s) (Main.pattern self) ->
  exists t' calls,
    Main.__draw_pattern self s
    = (Raise SystemExit, mkCanvas t' (log s ++ calls)) /\
    disciplined calls (Turtle.isdown (cursor s)) false = true.
Proof.
  intros Hw Hh Hd Hsp Hhead Hk.
  destruct (draw_pattern_run self w h d sp s Hw Hh Hd Hsp) as (t' & Hrun).
  { unfold aligned. rewrite Hhead. left. reflexivity. }
  { rewrite Hhead. apply level_east. }
  { exact Hk. }
  eexists t', _. split; [exact Hrun|].
  unfold positioned_calls. cbn [app disciplined negb andb].
  rewrite disciplined_rows. destruct (Main.pattern self); reflexivity.
Qed.

Lemma draw_pattern_disciplined_witness :
  let self := Main.mk [] (VList ["#ff0000"; "#00ff00"])
                [["#ff0000"; "#00ff00"]; ["#00ff00"; "#ff0000"]]
                (VInt 100) (VInt 100) (VInt 5) (VInt 50) default_cfg in
  exists t' calls,
    Main.__draw_pattern self blank
    = (Raise SystemExit, mkCanvas t' (log blank ++ calls)) /\
    disciplined calls (Turtle.isdown (cursor blank)) false = true.
Proof.
  cbv zeta.
  apply (draw_pattern_disciplined
           (Main.mk [] (VList ["#ff0000"; "#00ff00"])
              [["#ff0000"; "#00ff00"]; ["#00ff00"; "#ff0000"]]
              (VInt 100) (VInt 100) (VInt 5) (VInt 50) default_cfg)
           100 100 50 5 blank); try reflexivity.
  repeat constructor.
Defined.

Lemma positioning_is_no_row_advance (h d : Z) :
  0 <= h -> 0 < d ->
  Qeq_bool (Qred (inject_Z h / 2)) (0 - inject_Z d) = false.
Proof.
  intros Hh Hd. apply not_true_is_false. intros H.
  apply Qeq_bool_iff in H. rewrite Qred_correct in H.
  assert (E : (inject_Z h == inject_Z (- (2 * d)))%Q).
  { rewrite inject_Z_opp, inject_Z_mult.
    change (inject_Z 2) with 2%Q.
    assert (E2 : (inject_Z h == inject_Z h / 2 * 2)%Q) by field.
    rewrite E2, H. ring. }
  apply (proj1 (inject_Z_injective _ _)) in E. lia.
Qed.

(** A render pass with a fresh turtle makes exactly one row advance per row
    of the grid (pen up, back to x = -width/2, down by the side length),
    for a non-negative height and a positive side length. *)
Theorem draw_pattern_row_advances (self : Main.t) (w h d sp : Z)
    (screen : string -> bool) (before : list call) :
  Main.width self = VInt w -> Main.height self = VInt h ->
  Main.side_length self = VInt d -> Main.speed self = VInt sp ->
  0 <= h -> 0 < d ->
  known_colours (Turtle.fresh screen) (Main.pattern self) ->
  exists t' calls,
    Main.__draw_pattern self (mkCanvas (Turtle.fresh screen) before)
    = (Raise SystemExit, mkCanvas t' (before ++ calls)) /\
    count_row_advances (Qred (inject_Z (- w) / 2)) d calls
      (Turtle.fresh screen)
    = length (Main.pattern self) /\
    count_squares calls = length (concat (Main.pattern self)).
Proof.
  intros Hw Hh Hd Hsp Hh0 Hd0 Hk.
  destruct (draw_pattern_run self w h d sp
              (mkCanvas (Turtle.fresh screen) before) Hw Hh Hd Hsp)
    as (t' & Hrun).
  { left. reflexivity. }
  { apply level_east. }
  { exact Hk. }
  cbn [log] in Hrun. eexists t', _. split; [exact Hrun|].
  split; [|apply count_squares_pass].
  unfold positioned_calls. rewrite Hsp. cbn [app count_row_advances step].
  change (Turtle.ycor (Turtle.hideturtle (Turtle.fresh screen))) with 0%Q.
  rewrite (positioning_is_no_row_advance h d Hh0 Hd0), andb_false_r.
  rewrite count_row_advances_rows;
    [reflexivity | left; reflexivity | apply level_east | exact Hk
    | reflexivity].
Qed.

Lemma draw_pattern_row_advances_witness :
  let self := Main.mk [] (VList ["#ff0000"; "#00ff00"])
                [["#ff0000"; "#00ff00"]; ["#00ff00"; "#ff0000"];
                 ["#ff0000"; "#ff0000"]]
                (VInt 100) (VInt 150) (VInt 5) (VInt 50) default_cfg in
  exists t' calls,
    Main.__draw_pattern self (mkCanvas (Turtle.fresh hex_screen) [])
    = (Raise SystemExit, mkCanvas t' ([] ++ calls)) /\
    count_row_advances (Qred (inject_Z (- 100) / 2)) 50 calls
      (Turtle.fresh hex_screen)
    = length (Main.pattern self) /\
    count_squares calls = length (concat (Main.pattern self)).
Proof.
  cbv zeta.
  apply (draw_pattern_row_advances
           (Main.mk [] (VList ["#ff0000"; "#00ff00"])
              [["#ff0000"; "#00ff00"]; ["#00ff00"; "#ff0000"];
               ["#ff0000"; "#ff0000"]]
              (VInt 100) (VInt 150) (VInt 5) (VInt 50) default_cfg)
           100 150 50 5 hex_screen []); try reflexivity; try lia.
  repeat constructor.
Defined.

Lemma cells_end_facts d row t :
  aligned t ->
  Turtle.heading (cells_end d row t) = Turtle.heading t /\
  Turtle.isvisible (cells_end d row t) = Turtle.isvisible t /\
  Turtle.iscolorstring (cells_end d row t) = Turtle.iscolorstring t /\
  (Turtle.ycor (cells_end d row t) ==
   Turtle.ycor t
   + inject_Z (Z.of_nat (length row) * d * snd (unit (Turtle.heading t))))%Q.
Proof.
  revert t. induction row as [|item row IH]; intros t Ha.
  - repeat split. cbn [cells_end fold_left length Z.of_nat].
    rewrite Z.mul_0_l. unfold inject_Z. ring.
  - destruct (cell_end_geometry d item t Ha) as (_ & Hy & Hh).
    destruct (IH (cell_end d item t) (aligned_cell_end d item t Ha))
      as (Hh' & Hv' & Hs' & Hy').
    change (cells_end d (item :: row) t)
      with (cells_end d row (cell_end d item t)).
    split; [congruence|]. split; [exact Hv'|]. split; [exact Hs'|].
    rewrite Hy', Hy, Hh. rewrite <- Qplus_assoc, <- inject_Z_plus.
    apply Qplus_comp; [reflexivity|]. apply inject_Z_injective.
    cbn [length]. lia.
Qed.

Lemma cells_run (self : Main.t) d row s :
  Main.side_length self = VInt d -> aligned (cursor s) ->
  Forall (fun c => Turtle.iscolorstring (cursor s) c = true) row ->
  for_each row (Main.draw_item self) s =
  (Ok tt, mkCanvas (cells_end d row (cursor s))
                   (log s ++ flat_map (cell_calls (VInt d)) row)).
Proof.
  intros Hd. revert s. induction row as [|item row IH]; intros s Ha Hk.
  - cbn [for_each flat_map cells_end fold_left]. unfold dret.
    rewrite app_nil_r. destruct s. reflexivity.
  - apply Forall_cons_iff in Hk as [Hitem Hk]. cbn [for_each].
    erewrite dbind_ok by (apply (draw_item_run self d); assumption).
    rewrite IH; [|apply aligned_cell_end, Ha | exact Hk].
    cbn [cursor log flat_map]. rewrite <- app_assoc. reflexivity.
Qed.

Lemma rows_cursor (self : Main.t) w d rows :
  Main.width self = VInt w -> Main.side_length self = VInt d ->
  forall s,
    aligned (cursor s) -> known_colours (cursor s) rows ->
    exists lg,
      for_each rows (Main.draw_row self) s =
      (Ok tt, mkCanvas (rows_end w d rows (cursor s)) lg).
Proof.
  intros Hw Hd. induction rows as [|row rows IH]; intros s Ha Hk.
  - exists (log s). destruct s. reflexivity.
  - apply Forall_cons_iff in Hk as [Hkrow Hk].
    destruct (cells_end_facts d row (cursor s) Ha) as (Hh & _ & Hs & _).
    cbn [for_each]. unfold Main.draw_row at 1.
    erewrite dbind_ok;
      [|erewrite dbind_ok by (apply (cells_run self d); assumption);
        apply (new_line_run self w d); assumption].
    cbn [cursor log].
    change (rows_end w d (row :: rows) (cursor s))
      with (rows_end w d rows (row_end w d (cursor s) row)).
    apply IH.
    + unfold aligned. cbn. rewrite Hh. exact Ha.
    + unfold known_colours. cbn. rewrite Hs. exact Hk.
Qed.

Lemma rows_end_facts w d rows t :
  Turtle.heading t = 0 -> Turtle.isdown t = false ->
  Turtle.isvisible t = false ->
  Turtle.xcor t = Qred (inject_Z (- w) / 2) ->
  Turtle.heading (rows_end w d rows t) = 0 /\
  Turtle.isdown (rows_end w d rows t) = false /\
  Turtle.isvisible (rows_end w d rows t) = false /\
  Turtle.xcor (rows_end w d rows t) = Qred (inject_Z (- w) / 2) /\
  (Turtle.ycor (rows_end w d rows t)
   == Turtle.ycor t - inject_Z (Z.of_nat (length rows) * d))%Q.
Proof.
  revert t. induction rows as [|row rows IH]; intros t Hh Hdn Hv Hx.
  - repeat split; try assumption.
    cbn [rows_end fold_left length Z.of_nat]. rewrite Z.mul_0_l.
    unfold inject_Z. ring.
  - assert (Ha : aligned t) by (unfold aligned; rewrite Hh; left; reflexivity).
    destruct (cells_end_facts d row t Ha) as (Hh1 & Hv1 & _ & Hy1).
    change (rows_end w d (row :: rows) t)
      with (rows_end w d rows (row_end w d t row)).
    destruct (IH (row_end w d t row)) as (H1 & H2 & H3 & H4 & H5);
      try reflexivity.
    { cbn. congruence. }
    { cbn. congruence. }
    repeat split; try assumption.
    rewrite H5. cbn [row_end Turtle.goto Turtle.ycor].
    rewrite Qred_correct, Hy1, Hh. cbn [unit Turtle.dir snd].
    change (snd (unit 0)) with 0.
    rewrite Z.mul_0_r. change (inject_Z 0) with 0%Q.
    replace (Z.of_nat (length (row :: rows)) * d)
      with (d + Z.of_nat (length rows) * d) by (cbn [length]; lia).
    rewrite inject_Z_plus. ring.
Qed.

(** Where a render pass leaves the turtle: hidden, pen up, heading as
    before, at the left edge [x = -width/2] and one side length below the
    last row, [y = height/2 - rows * side_length]. *)
Theorem draw_pattern_final_cursor (self : Main.t) (w h d sp : Z)
    (s : canvas) :
  Main.width self = VInt w -> Main.height self = VInt h ->
  Main.side_length self = VInt d -> Main.speed self = VInt sp ->
  Turtle.heading (cursor s) = 0 ->
  known_colours (cursor s) (Main.pattern self) ->
  exists t' lg,
    Main.__draw_pattern self s = (Raise SystemExit, mkCanvas t' lg) /\
    Turtle.isvisible t' = false /\ Turtle.isdown t' = false /\
    Turtle.heading t' = 0 /\
    (Turtle.xcor t' == inject_Z (- w) / 2)%Q /\
    (Turtle.ycor t' ==
     inject_Z h / 2 - inject_Z (Z.of_nat (length (Main.pattern self)) * d))%Q.
Proof.
  intros Hw Hh Hd Hsp Hhead Hk. unfold Main.__draw_pattern.
  erewrite dbind_ok by (apply (position_run self w h sp); assumption).
  match goal with
  | |- context [dbind _ _ ?s1] =>
      destruct (rows_cursor self w d (Main.pattern self) Hw Hd s1)
        as (lg & Hrun)
  end.
  { unfold aligned. cbn. rewrite Hhead. left. reflexivity. }
  { exact Hk. }
  erewrite dbind_ok by exact Hrun. rewrite finish_run. cbn [cursor log].
  eexists _, _. split; [reflexivity|].
  match goal with
  | |- context [rows_end w d _ ?t0] =>
      destruct (rows_end_facts w d (Main.pattern self) t0)
        as (H1 & H2 & H3 & H4 & H5); try reflexivity; [exact Hhead|]
  end.
  cbn [Turtle.goto Turtle.ycor] in H5.
  split; [exact H3|]. split; [exact H2|]. split; [exact H1|].
  split; [rewrite H4; apply Qred_correct|].
  rewrite H5, Qred_correct. reflexivity.
Qed.

Lemma draw_pattern_final_cursor_witness :
  let self := Main.mk [] (VList ["#ff0000"; "#00ff00"])
                [["#ff0000"; "#00ff00"]; ["#00ff00"; "#ff0000"]]
                (VInt 100) (VInt 100) (VInt 5) (VInt 50) default_cfg in
  exists t' lg,
    Main.__draw_pattern self blank = (Raise SystemExit, mkCanvas t' lg) /\
    Turtle.isvisible t' = false /\ Turtle.isdown t' = false /\
    Turtle.heading t' = 0 /\
    (Turtle.xcor t' == inject_Z (- 100) / 2)%Q /\
    (Turtle.ycor t' ==
     inject_Z 100 / 2 - inject_Z (Z.of_nat (length (Main.pattern self)) * 50))%Q.
Proof.
  cbv zeta.
  apply (draw_pattern_final_cursor
           (Main.mk [] (VList ["#ff0000"; "#00ff00"])
              [["#ff0000"; "#00ff00"]; ["#00ff00"; "#ff0000"]]
              (VInt 100) (VInt 100) (VInt 5) (VInt 50) default_cfg)
           100 100 50 5 blank); try reflexivity.
  repeat constructor.
Defined.

(** * The prompts *)

(** ** [_int_input] and [_range_input] *)

(** The loop of [_int_input] as the source writes it. *)
Lemma int_input_loop (int : string -> option Z) (text : string) (c : console) :
  _int_input int text c =
  match input text c with
  | (Return line, c1) =>
      match int line with
      | Some n => (Return n, c1)
      | None => _int_input int text (print not_a_number c1)
      end
  | (Stop e, c1) => (Stop e, c1)
  end.
Proof.
  destruct c as [[|line rest] out]; [reflexivity|].
  unfold _int_input, input. cbn [stdin stdout int_input_from].
  destruct (int line); [reflexivity|].
  unfold print. cbn [stdin stdout]. rewrite <- app_assoc. reflexivity.
Qed.

(** The loop of [_range_input] as the source writes it, with its call of
    [_int_input]. *)
Lemma range_input_loop (int : string -> option Z) (text : string)
    (lower upper : Z) (c : console) :
  _range_input int text lower upper c =
  match _int_input int text c with
  | (Return tmp, c1) =>
      if in_range lower upper tmp then (Return tmp, c1)
      else _range_input int text lower upper
             (print (out_of_range lower upper) c1)
  | (Stop e, c1) => (Stop e, c1)
  end.
Proof.
  destruct c as [lines out]. unfold _range_input, _int_input.
  cbn [stdin stdout]. revert out.
  induction lines as [|line rest IH]; intros out; [reflexivity|].
  cbn [range_input_from int_input_from].
  destruct (int line) as [tmp|].
  - destruct (in_range lower upper tmp); [reflexivity|].
    unfold print. cbn [stdin stdout]. rewrite <- app_assoc. reflexivity.
  - apply IH.
Qed.

(** [_int_input] returns the first line that [int] accepts; for every line
    before it the prompt and the error message are written once, and the
    lines after it are left unread. *)
Theorem int_input_first_number (int : string -> option Z) (text : string)
    (c : console) (pre : list string) (line : string) (post : list string)
    (n : Z) :
  stdin c = pre ++ line :: post ->
  Forall (fun l => int l = None) pre -> int line = Some n ->
  _int_input int text c =
  (Return n,
   mkConsole post
     (stdout c ++ flat_map (fun _ => [text; not_a_number]) pre ++ [text])).
Proof.
  destruct c as [lines out]. unfold _int_input. cbn [stdin stdout].
  intros -> Hpre Hline. revert out.
  induction Hpre as [|l pre Hl _ IH]; intros out.
  - cbn [app int_input_from flat_map]. rewrite Hline. reflexivity.
  - cbn [app int_input_from flat_map]. rewrite Hl, IH.
    rewrite <- !app_assoc. reflexivity.
Qed.

Lemma int_input_first_number_witness :
  (Forall (fun l => sample_int l = None) ["abc"; ""] /\
   sample_int "42" = Some 42) /\
  _int_input sample_int "width? " (mkConsole ["abc"; ""; "42"; "7"] []) =
  (Return 42,
   mkConsole ["7"]
     ([] ++ flat_map (fun _ => ["width? "; not_a_number]) ["abc"; ""]
         ++ ["width? "])).
Proof.
  split; [split; [repeat constructor | reflexivity]|].
  apply (int_input_first_number sample_int "width? "
           (mkConsole ["abc"; ""; "42"; "7"] []) ["abc"; ""] "42" ["7"] 42);
    [reflexivity | repeat constructor | reflexivity].
Defined.

Lemma range_input_from_returns int text lower upper lines out n c' :
  range_input_from int text lower upper lines out = (Return n, c') ->
  lower <= n <= upper /\
  exists pre line,
    lines = pre ++ line :: stdin c' /\
    Forall (rejected int lower upper) pre /\ int line = Some n.
Proof.
  revert out. induction lines as [|l rest IH]; intros out; [discriminate|].
  cbn [range_input_from].
  destruct (int l) as [tmp|] eqn:Hint.
  - destruct (in_range lower upper tmp) eqn:Hr.
    + intros H. injection H as <- <-. cbn [stdin].
      unfold in_range in Hr. split; [lia|].
      exists [], l. repeat split; [constructor | exact Hint].
    + intros H. apply IH in H as (Hn & pre & line & -> & Hpre & Hline).
      split; [exact Hn|]. exists (l :: pre), line.
      repeat split; [constructor; [|exact Hpre] | exact Hline].
      unfold rejected. rewrite Hint. exact Hr.
  - intros H. apply IH in H as (Hn & pre & line & -> & Hpre & Hline).
    split; [exact Hn|]. exists (l :: pre), line.
    repeat split; [constructor; [|exact Hpre] | exact Hline].
    unfold rejected. rewrite Hint. exact I.
Qed.

(** A number returned by [_range_input] lies between the bounds, and it is
    the first line of the input that is a number between the bounds: every
    line before it was refused, every line after it is left unread. *)
Theorem range_input_returns (int : string -> option Z) (text : string)
    (lower upper : Z) (c : console) (n : Z) (c' : console) :
  _range_input int text lower upper c = (Return n, c') ->
  lower <= n <= upper /\
  exists pre line,
    stdin c = pre ++ line :: stdin c' /\
    Forall (rejected int lower upper) pre /\ int line = Some n.
Proof. apply range_input_from_returns. Qed.

Lemma range_input_returns_witness :
  _range_input sample_int "side? " 0 250
    (mkConsole ["abc"; "300"; "50"; "7"] [])
  = (Return 50,
     mkConsole ["7"]
       ["side? "; not_a_number; "side? "; out_of_range 0 250; "side? "]) /\
  0 <= 50 <= 250 /\
  exists pre line,
    ["abc"; "300"; "50"; "7"] = pre ++ line :: ["7"] /\
    Forall (rejected sample_int 0 250) pre /\ sample_int line = Some 50.
Proof.
  split; [reflexivity|].
  apply (range_input_returns sample_int "side? " 0 250
           (mkConsole ["abc"; "300"; "50"; "7"] []) 50
           (mkConsole ["7"]
              ["side? "; not_a_number; "side? "; out_of_range 0 250;
               "side? "])).
  reflexivity.
Defined.

Lemma range_input_stops_forall (int : string -> option Z) (text : string)
    (lower upper : Z) (c : console) :
  (exists e c', _range_input int text lower upper c = (Stop e, c')) <->
  Forall (rejected int lower upper) (stdin c).
Proof.
  destruct c as [lines out]. unfold _range_input. cbn [stdin stdout].
  revert out. induction lines as [|l rest IH]; intros out.
  - split; [constructor | intros _; cbn; eauto].
  - cbn [range_input_from]. rewrite Forall_cons_iff. unfold rejected at 1.
    destruct (int l) as [tmp|].
    + destruct (in_range lower upper tmp).
      * split; [intros (e & c' & H); discriminate | intros [H _]; discriminate].
      * rewrite IH. tauto.
    + rewrite IH. tauto.
Qed.

Lemma range_input_stop_is_eof int text lower upper c e c' :
  _range_input int text lower upper c = (Stop e, c') ->
  e = EOFError /\ stdin c' = [].
Proof.
  destruct c as [lines out]. unfold _range_input. cbn [stdin stdout].
  revert out. induction lines as [|l rest IH]; intros out.
  - cbn. intros H. injection H as <- <-. split; reflexivity.
  - cbn [range_input_from].
    destruct (int l) as [tmp|]; [destruct (in_range lower upper tmp)|];
      try discriminate; apply IH.
Qed.

(** ** [_colour_input] *)

Lemma colour_input_from_returns text text_2 max_ results lines out rs c' :
  colour_input_from text text_2 max_ results lines out = (Return rs, c') ->
  exists consumed,
    lines = consumed ++ stdin c' /\
    rs = results ++ List.filter is_hex_code consumed /\
    (1 <= max_ -> (2 <= length rs)%nat) /\
    (Z.of_nat (length results) <= max_ + 1 ->
     Z.of_nat (length rs) <= max_ + 1).
Proof.
  revert results out. induction lines as [|tmp rest IH]; intros results out.
  - cbn [colour_input_from].
    destruct (Z.leb_spec (Z.of_nat (length results)) max_) as [Hle|Hgt];
      [discriminate|].
    intros H. injection H as <- <-. exists []. cbn [stdin app List.filter].
    rewrite app_nil_r. repeat split; lia.
  - cbn [colour_input_from].
    destruct (Z.leb_spec (Z.of_nat (length results)) max_) as [Hle|Hgt].
    + destruct (is_hex_code tmp) eqn:Hhex.
      * intros H. apply IH in H as (consumed & -> & -> & Hlow & Hup).
        exists (tmp :: consumed). cbn [app List.filter]. rewrite Hhex.
        rewrite <- app_assoc in *. cbn [app] in *.
        repeat split; [exact Hlow|].
        intros _. apply Hup. rewrite length_app. cbn [length]. lia.
      * destruct (String.eqb tmp "$$$").
        -- destruct (Nat.ltb_spec 1 (length results)) as [Hlen|Hlen].
           ++ intros H. injection H as <- <-. exists [tmp].
              cbn [stdin app List.filter]. rewrite Hhex, app_nil_r.
              repeat split; [lia | tauto].
           ++ intros H. apply IH in H as (consumed & -> & -> & Hlow & Hup).
              exists (tmp :: consumed). cbn [app List.filter]. rewrite Hhex.
              repeat split; assumption.
        -- intros H. apply IH in H as (consumed & -> & -> & Hlow & Hup).
           exists (tmp :: consumed). cbn [app List.filter]. rewrite Hhex.
           repeat split; assumption.
    + intros H. injection H as <- <-. exists []. cbn [stdin app List.filter].
      rewrite app_nil_r. repeat split; lia.
Qed.

Lemma colour_input_returned (text text_2 : string) (max_ : Z)
    (c : console) (rs : list string) (c' : console) :
  _colour_input text text_2 max_ c = (Return rs, c') ->
  exists consumed,
    stdin c = consumed ++ stdin c' /\
    rs = List.filter is_hex_code consumed /\
    Forall (fun colour => is_hex_code colour = true) rs /\
    (1 <= max_ -> (2 <= length rs)%nat) /\
    (-1 <= max_ -> Z.of_nat (length rs) <= max_ + 1).
Proof.
  intros H. apply colour_input_from_returns in H
    as (consumed & Hin & Hrs & Hlow & Hup).
  cbn [app length Z.of_nat] in *.
  exists consumed. split; [exact Hin|]. split; [exact Hrs|].
  split; [|split; [exact Hlow | intros Hmax; apply Hup; lia]].
  rewrite Hrs. apply Forall_forall. intros x Hx.
  apply list_elem_of_In, filter_In in Hx as [_ Hx]. exact Hx.
Qed.

(** Whatever [_colour_input] returns is the list of the hex colours among
    the lines it read, in the order they were entered; with [max_ >= 1] it
    has at least 2 entries, and it never has more than [max_ + 1]. *)
Theorem colour_input_returns (text text_2 : string) (max_ : Z)
    (c : console) (rs : list string) (c' : console) :
  _colour_input text text_2 max_ c = (Return rs, c') ->
  exists consumed,
    stdin c = consumed ++ stdin c' /\
    rs = List.filter is_hex_code consumed /\
    Forall (fun colour => is_hex_code colour = true) rs /\
    (1 <= max_ -> (2 <= length rs)%nat) /\
    (-1 <= max_ -> Z.of_nat (length rs) <= max_ + 1).
Proof. exact (colour_input_returned text text_2 max_ c rs c'). Qed.

Lemma colour_input_returns_witness :
  exists consumed,
    _colour_input "colour? " "colour or $$$? " 10
      (mkConsole ["#abc"; "$$$"; "red"; "#00ff00"; "$$$"; "#123"] [])
    = (Return ["#abc"; "#00ff00"],
       mkConsole ["#123"]
         ["colour? "; "colour? "; too_few_colours; invalid_hex; "colour? ";
          invalid_hex; "colour? "; "colour or $$$? "]) /\
    ["#abc"; "$$$"; "red"; "#00ff00"; "$$$"; "#123"] = consumed ++ ["#123"] /\
    ["#abc"; "#00ff00"] = List.filter is_hex_code consumed /\
    Forall (fun colour => is_hex_code colour = true) ["#abc"; "#00ff00"] /\
    (1 <= 10 -> (2 <= length ["#abc"; "#00ff00"])%nat) /\
    (-1 <= 10 -> Z.of_nat (length ["#abc"; "#00ff00"]) <= 10 + 1).
Proof.
  destruct (colour_input_returns "colour? " "colour or $$$? " 10
              (mkConsole ["#abc"; "$$$"; "red"; "#00ff00"; "$$$"; "#123"] [])
              ["#abc"; "#00ff00"]
              (mkConsole ["#123"]
                 ["colour? "; "colour? "; too_few_colours; invalid_hex;
                  "colour? "; invalid_hex; "colour? "; "colour or $$$? "])
              eq_refl) as (consumed & H).
  exists consumed. split; [reflexivity | exact H].
Defined.

Lemma colour_input_from_full text text_2 max_ codes :
  Forall (fun colour => is_hex_code colour = true) codes ->
  forall results post out,
    Z.of_nat (length results) + Z.of_nat (length codes) = max_ + 1 ->
    exists out',
      colour_input_from text text_2 max_ results (codes ++ post) out
      = (Return (results ++ codes), mkConsole post out').
Proof.
  induction 1 as [|code codes Hcode _ IH]; intros results post out Hlen.
  - exists out. rewrite app_nil_r. cbn [app length Z.of_nat] in *.
    destruct post; cbn [colour_input_from];
      destruct (Z.leb_spec (Z.of_nat (length results)) max_); try lia;
      reflexivity.
  - cbn [app colour_input_from].
    destruct (Z.leb_spec (Z.of_nat (length results)) max_) as [_|Hgt];
      [|cbn [length] in Hlen; lia].
    rewrite Hcode.
    destruct (IH (results ++ [code]) post
                (out ++ [if (length results <? 2)%nat then text else text_2]))
      as (out' & Hrun).
    { rewrite length_app. cbn [length] in *. lia. }
    exists out'. rewrite Hrun, <- app_assoc. reflexivity.
Qed.

(** [_colour_input] takes one colour more than [max_]: when the input
    starts with [max_ + 1] hex colours, all of them are returned, without
    any [$$$], and the lines after them are left unread.  (The program
    calls it with [max_ = 10] under a prompt that says "max. 10".) *)
Theorem colour_input_one_more_than_max (text text_2 : string) (max_ : Z)
    (c : console) (codes post : list string) :
  stdin c = codes ++ post ->
  Forall (fun colour => is_hex_code colour = true) codes ->
  Z.of_nat (length codes) = max_ + 1 ->
  exists out',
    _colour_input text text_2 max_ c = (Return codes, mkConsole post out').
Proof.
  intros Hin Hcodes Hlen. unfold _colour_input. rewrite Hin.
  apply (colour_input_from_full text text_2 max_ codes Hcodes [] post).
  cbn [length Z.of_nat]. lia.
Qed.

Lemma colour_input_one_more_than_max_witness :
  exists out',
    _colour_input "colour? " "colour or $$$? " 2
      (mkConsole ["#abc"; "#def"; "#123"; "$$$"] [])
    = (Return ["#abc"; "#def"; "#123"], mkConsole ["$$$"] out').
Proof.
  apply (colour_input_one_more_than_max "colour? " "colour or $$$? " 2
           (mkConsole ["#abc"; "#def"; "#123"; "$$$"] [])
           ["#abc"; "#def"; "#123"] ["$$$"]);
    [reflexivity | repeat constructor | reflexivity].
Defined.

(** [_range_input] stops only at the end of the input, with [EOFError]
    and every line read, and it does so exactly when no line of the input
    is a number between the bounds (always so when the upper bound is below
    the lower one). *)
Theorem range_input_stops_iff (int : string -> option Z) (text : string)
    (lower upper : Z) (c : console) :
  (forall e c', _range_input int text lower upper c = (Stop e, c') ->
                e = EOFError /\ stdin c' = []) /\
  ((exists c', _range_input int text lower upper c = (Stop EOFError, c')) <->
   Forall (rejected int lower upper) (stdin c)).
Proof.
  split; [intros e c'; apply range_input_stop_is_eof|].
  rewrite <- range_input_stops_forall. split.
  - intros (c' & H). eauto.
  - intros (e & c' & H).
    destruct (range_input_stop_is_eof _ _ _ _ _ _ _ H) as [-> _]. eauto.
Qed.

(** ** [__create_config_file] *)

Lemma ask_returns {A B} (q : console -> outcome A * console)
    (k : A -> world -> outcome B * world) (w : world) (b : B) (w' : world) :
  ask q k w = (Return b, w') ->
  exists a c, q (term w) = (Return a, c) /\ k a (with_term c w) = (Return b, w').
Proof.
  unfold ask. destruct (q (term w)) as [[a|e] c]; [eauto | discriminate].
Qed.

(** A run is its outcome paired with the state it leaves. *)
Lemma run_pair {A B} (p : A * B) (a : A) : fst p = a -> p = (a, snd p).
Proof. destruct p. cbn [fst snd]. intros ->. reflexivity. Qed.

Lemma new_contents_has_keys speed width height side colours :
  has_keys (new_contents speed width height side colours) _NECESSARY_KEYS
  = true.
Proof. reflexivity. Qed.

Lemma random_string_length n g r g' :
  random_string n g = Ok (r, g') -> String.length r = n.
Proof.
  revert g r g'. induction n as [|n IH]; intros g r g'; cbn [random_string].
  - intros H. injection H as <- _. reflexivity.
  - intros H. apply bind_Ok in H as ([c g1] & _ & H).
    apply bind_Ok in H as ([rest g2] & Hr & H).
    injection H as <- _. cbn [String.length]. f_equal. eapply IH, Hr.
Qed.

Lemma create_config_file_effect (sys : system) (w w' : world) :
  __create_config_file sys w = (Return tt, w') ->
  exists width height speed side colours rand_str,
    0 <= width <= 1000 /\ 0 <= height <= 1000 /\ 0 <= speed <= 10 /\
    0 <= side <= 250 /\
    (2 <= length colours <= 11)%nat /\
    Forall (fun colour => is_hex_code colour = true) colours /\
    String.length rand_str = 5%nat /\
    has_keys (new_contents speed width height side colours) _NECESSARY_KEYS
    = true /\
    files w' =
      write_file (files w)
        (new_file_name width height speed side colours rand_str)
        (dumps sys (new_contents speed width height side colours)) /\
    screen w' = screen w.
Proof.
  unfold __create_config_file. intros H.
  apply ask_returns in H as (width & c1 & Hw & H).
  apply ask_returns in H as (height & c2 & Hh & H).
  apply ask_returns in H as (speed & c3 & Hsp & H).
  apply ask_returns in H as (side & c4 & Hsl & H).
  apply ask_returns in H as (colours & c5 & Hcol & H).
  apply range_input_from_returns in Hw as [Hw _].
  apply range_input_from_returns in Hh as [Hh _].
  apply range_input_from_returns in Hsp as [Hsp _].
  apply range_input_from_returns in Hsl as [Hsl _].
  apply colour_input_returned in Hcol as (_ & _ & _ & Hhex & Hlow & Hup).
  cbn [with_term term files random screen] in H.
  destruct (random_string 5 (random w)) as [[rand_str g]|e] eqn:Hr;
    [|discriminate].
  cbn [term files random screen] in H.
  destruct (writable sys (files w) _); [|discriminate].
  injection H as <-. cbn [files screen].
  exists width, height, speed, side, colours, rand_str.
  assert (Hlen : (2 <= length colours <= 11)%nat).
  { specialize (Hlow ltac:(lia)). specialize (Hup ltac:(lia)). lia. }
  split; [exact Hw|]. split; [exact Hh|]. split; [exact Hsp|].
  split; [exact Hsl|]. split; [exact Hlen|]. split; [exact Hhex|].
  split; [eapply random_string_length, Hr|].
  split; [apply new_contents_has_keys|]. split; reflexivity.
Qed.

(** What [__create_config_file] writes when it returns: one file under
    [_ALT_CONFIGS_FOLDER], named after the values entered and five random
    characters, holding [dumps] of a dictionary with the five required
    keys, a width and a height in 0..1000, a speed in 0..10, a side length
    in 0..250 (0 included) and between 2 and 11 hex colours.  The canvas
    is not touched. *)
Theorem create_config_file_writes (sys : system) (w w' : world) :
  __create_config_file sys w = (Return tt, w') ->
  exists width height speed side colours rand_str,
    0 <= width <= 1000 /\ 0 <= height <= 1000 /\ 0 <= speed <= 10 /\
    0 <= side <= 250 /\
    (2 <= length colours <= 11)%nat /\
    Forall (fun colour => is_hex_code colour = true) colours /\
    String.length rand_str = 5%nat /\
    has_keys (new_contents speed width height side colours) _NECESSARY_KEYS
    = true /\
    files w' =
      write_file (files w)
        (new_file_name width height speed side colours rand_str)
        (dumps sys (new_contents speed width height side colours)) /\
    screen w' = screen w.
Proof. exact (create_config_file_effect sys w w'). Qed.

Lemma create_config_file_writes_witness :
  exists w' width height speed side colours rand_str,
    __create_config_file sample_system
      (sample_world ["200"; "100"; "5"; "50"; "#ff0000"; "#00ff00"; "$$$"])
    = (Return tt, w') /\
    0 <= width <= 1000 /\ 0 <= height <= 1000 /\ 0 <= speed <= 10 /\
    0 <= side <= 250 /\
    (2 <= length colours <= 11)%nat /\
    Forall (fun colour => is_hex_code colour = true) colours /\
    String.length rand_str = 5%nat /\
    has_keys (new_contents speed width height side colours) _NECESSARY_KEYS
    = true /\
    files w' =
      write_file sample_env
        (new_file_name width height speed side colours rand_str)
        (dumps sample_system (new_contents speed width height side colours)) /\
    screen w' = blank.
Proof.
  pose proof (run_pair
                (__create_config_file sample_system
                   (sample_world ["200"; "100"; "5"; "50"; "#ff0000";
                                  "#00ff00"; "$$$"])) (Return tt)) as H.
  specialize (H ltac:(vm_compute; reflexivity)).
  destruct (create_config_file_writes _ _ _ H)
    as (width & height & speed & side & colours & rand_str & Hall).
  eexists _, width, height, speed, side, colours, rand_str.
  split; [exact H | exact Hall].
Defined.

(** A file made by [__create_config_file] can be used at once: it is on
    disk under its name, no other file has changed, and, the parser being
    the inverse of [dumps] on it and the name ending in [.json],
    validation accepts it and [__config] applies the values as they were
    entered, without fallback. *)
Theorem created_file_is_valid (sys : system) (w w' : world) :
  __create_config_file sys w = (Return tt, w') ->
  exists fn d,
    disk (files w') fn = Some (dumps sys d) /\
    (forall f, f <> fn -> disk (files w') f = disk (files w) f) /\
    (loads (files w) (dumps sys d) = Ok d ->
     suffix (files w) fn = ".json" ->
     _check_valid_file (files w') fn = Ok true /\
     forall self g,
       Main.__config (files w') self fn g
       = Main.apply_contents (files w') self d g).
Proof.
  intros H. apply create_config_file_effect in H
    as (width & height & speed & side & colours & rand_str
        & _ & _ & _ & _ & _ & _ & _ & Hkeys & Hfiles & _).
  exists (new_file_name width height speed side colours rand_str),
         (new_contents speed width height side colours).
  rewrite Hfiles. cbn [write_file disk loads suffix].
  split; [rewrite String.eqb_refl; reflexivity|]. split.
  - intros f Hf. destruct (String.eqb_spec f
      (new_file_name width height speed side colours rand_str));
      [contradiction | reflexivity].
  - intros Hl Hs.
    assert (Hdisk : disk (write_file (files w)
                            (new_file_name width height speed side colours
                               rand_str)
                            (dumps sys (new_contents speed width height side
                                          colours)))
                      (new_file_name width height speed side colours rand_str)
                    = Some (dumps sys (new_contents speed width height side
                                         colours)))
      by (cbn [write_file disk]; rewrite String.eqb_refl; reflexivity).
    split.
    + rewrite (check_valid_file_loaded _ _ _ _ Hdisk Hs Hl), Hkeys.
      reflexivity.
    + intros self g. apply (config_valid _ _ _ _ _ _ Hdisk Hs Hl Hkeys).
Qed.

Lemma created_file_is_valid_witness :
  exists w' fn d,
    __create_config_file sample_system
      (sample_world ["200"; "100"; "5"; "0"; "#ff0000"; "#00ff00"; "$$$"])
    = (Return tt, w') /\
    disk (files w') fn = Some (dumps sample_system d) /\
    (forall f, f <> fn -> disk (files w') f = disk sample_env f) /\
    (loads sample_env (dumps sample_system d) = Ok d ->
     suffix sample_env fn = ".json" ->
     _check_valid_file (files w') fn = Ok true /\
     forall self g,
       Main.__config (files w') self fn g
       = Main.apply_contents (files w') self d g).
Proof.
  pose proof (run_pair
                (__create_config_file sample_system
                   (sample_world ["200"; "100"; "5"; "0"; "#ff0000";
                                  "#00ff00"; "$$$"])) (Return tt)) as H.
  specialize (H ltac:(vm_compute; reflexivity)).
  destruct (created_file_is_valid _ _ _ H) as (fn & d & Hall).
  eexists _, fn, d. split; [exact H | exact Hall].
Defined.

(** The file of the example above: side length 0 was accepted by the
    prompt, the file passes validation, and applying it divides by
    zero. *)
Example created_file_with_zero_side :
  exists w' fn,
    __create_config_file sample_system
      (sample_world ["200"; "100"; "5"; "0"; "#ff0000"; "#00ff00"; "$$$"])
    = (Return tt, w') /\
    fn = "./alt-configs/-w200-h100-s5-sl0-cff000000ff00-01234-.json" /\
    disk (files w') fn = Some "zero side" /\
    _check_valid_file (files w') fn = Ok true /\
    Main.__config (files w') Main.new fn (random w')
    = Raise ZeroDivisionError.
Proof.
  eexists (snd _), _.
  split; [apply run_pair; vm_compute; reflexivity|].
  split; [reflexivity|]. repeat split; vm_compute; reflexivity.
Qed.

(** ** [__change_config_file] *)

Lemma prints_keep_stdin items c :
  stdin (fold_left (fun c item => print item c) items c) = stdin c.
Proof.
  revert c. induction items as [|item items IH]; intros c; [reflexivity|].
  cbn [fold_left]. rewrite IH. reflexivity.
Qed.

Lemma pick_file_returns E lines out fn c2 :
  pick_file_from E lines out = (Return fn, c2) ->
  exists pre,
    lines = pre ++ fn :: stdin c2 /\
    Forall (fun n => _check_valid_file E (_ALT_CONFIGS_FOLDER +:+ n) = Ok false)
           pre /\
    _check_valid_file E (_ALT_CONFIGS_FOLDER +:+ fn) = Ok true.
Proof.
  revert out. induction lines as [|l rest IH]; intros out; [discriminate|].
  cbn [pick_file_from].
  destruct (_check_valid_file E (_ALT_CONFIGS_FOLDER +:+ l))
    as [[|]|e] eqn:Hv; [| |discriminate].
  - intros H. injection H as <- <-. exists []. cbn [stdin app].
    repeat split; [constructor | exact Hv].
  - intros H. apply IH in H as (pre & -> & Hpre & Hfn).
    exists (l :: pre). repeat split; [constructor; assumption | exact Hfn].
Qed.

Lemma pick_file_first E pre fn post :
  Forall (fun n => _check_valid_file E (_ALT_CONFIGS_FOLDER +:+ n) = Ok false)
         pre ->
  _check_valid_file E (_ALT_CONFIGS_FOLDER +:+ fn) = Ok true ->
  forall out, exists out',
    pick_file_from E (pre ++ fn :: post) out = (Return fn, mkConsole post out').
Proof.
  intros Hpre Hfn. induction Hpre as [|l pre Hl _ IH]; intros out.
  - cbn [app pick_file_from]. rewrite Hfn. eauto.
  - cbn [app pick_file_from]. rewrite Hl. apply IH.
Qed.

(** When [__change_config_file] returns, the configuration in force is
    the contents of a file of the alt-configs folder whose name was typed
    in and which passed validation; it is never the default one.  The
    files and the canvas are as before. *)
Theorem change_config_file_returns (sys : system) (self self' : Main.t)
    (w w' : world) :
  __change_config_file sys self w = (Return self', w') ->
  exists name text d,
    In name (stdin (term w)) /\
    disk (files w) (_ALT_CONFIGS_FOLDER +:+ name) = Some text /\
    suffix (files w) (_ALT_CONFIGS_FOLDER +:+ name) = ".json" /\
    loads (files w) text = Ok d /\
    has_keys d _NECESSARY_KEYS = true /\
    Main.config_contents self' = d /\
    files w' = files w /\ screen w' = screen w.
Proof.
  unfold __change_config_file.
  destruct (listdir sys (files w) _ALT_CONFIGS_FOLDER) as [items|e];
    [|discriminate].
  rewrite prints_keep_stdin.
  destruct (pick_file_from _ _ _) as [[fn|e] c2] eqn:Hpick; [|discriminate].
  destruct (Main.__config (files w) self (_ALT_CONFIGS_FOLDER +:+ fn)
              (random w)) as [[m g]|e] eqn:Hc; [|discriminate].
  intros H. injection H as <- <-.
  apply pick_file_returns in Hpick as (pre & Hin & _ & Hv).
  cbn [print stdin] in Hin.
  apply check_valid_file_true in Hv as (text & d & Hf & Hs & Hl & Hk).
  rewrite (config_valid _ _ _ _ _ _ Hf Hs Hl Hk) in Hc.
  apply apply_contents_inv in Hc as (_ & Hd & _).
  exists fn, text, d. cbn [files screen].
  split; [rewrite Hin; apply in_or_app; right; left; reflexivity|].
  repeat split; assumption.
Qed.

Lemma change_config_file_returns_witness :
  exists self' w' name text d,
    __change_config_file sample_system Main.new
      (sample_world ["notes.txt"; "missing.json"; "thin.json"; "4"])
    = (Return self', w') /\
    In name ["notes.txt"; "missing.json"; "thin.json"; "4"] /\
    disk sample_env (_ALT_CONFIGS_FOLDER +:+ name) = Some text /\
    suffix sample_env (_ALT_CONFIGS_FOLDER +:+ name) = ".json" /\
    loads sample_env text = Ok d /\
    has_keys d _NECESSARY_KEYS = true /\
    Main.config_contents self' = d /\
    files w' = sample_env /\ screen w' = blank.
Proof.
  assert (H : exists self',
             __change_config_file sample_system Main.new
               (sample_world ["notes.txt"; "missing.json"; "thin.json"; "4"])
             = (Return self',
                snd (__change_config_file sample_system Main.new
                       (sample_world ["notes.txt"; "missing.json";
                                      "thin.json"; "4"])))).
  { eexists. apply run_pair. vm_compute. reflexivity. }
  destruct H as [self' H].
  destruct (change_config_file_returns _ _ _ _ _ H)
    as (name & text & d & Hall).
  eexists self', _, name, text, d. split; [exact H | exact Hall].
Defined.

(** [__change_config_file] takes the first name on the input that passes
    validation: the names before it are refused one by one, the lines
    after it are left unread, and what happens next is what [__config]
    does with that file. *)
Theorem change_config_file_first_valid (sys : system) (self : Main.t)
    (w : world) (items pre : list string) (name : string)
    (post : list string) :
  listdir sys (files w) _ALT_CONFIGS_FOLDER = Ok items ->
  stdin (term w) = pre ++ name :: post ->
  Forall (fun n => _check_valid_file (files w) (_ALT_CONFIGS_FOLDER +:+ n)
                   = Ok false) pre ->
  _check_valid_file (files w) (_ALT_CONFIGS_FOLDER +:+ name) = Ok true ->
  exists out',
    __change_config_file sys self w =
    match Main.__config (files w) self (_ALT_CONFIGS_FOLDER +:+ name)
            (random w) with
    | Ok (self', g) =>
        (Return self', mkWorld (mkConsole post out') (files w) g (screen w))
    | Raise e =>
        (Stop (Exception e), with_term (mkConsole post out') w)
    end.
Proof.
  intros Hls Hin Hpre Hname. unfold __change_config_file.
  rewrite Hls, prints_keep_stdin. cbn [print stdin]. rewrite Hin.
  match goal with
  | |- context [pick_file_from _ _ ?out] =>
      destruct (pick_file_first (files w) pre name post Hpre Hname out)
        as (out' & ->)
  end.
  exists out'. reflexivity.
Qed.

Lemma change_config_file_first_valid_witness :
  exists out',
    __change_config_file sample_system Main.new
      (sample_world ["notes.txt"; "missing.json"; "thin.json"; "4"]) =
    match Main.__config sample_env Main.new
            (_ALT_CONFIGS_FOLDER +:+ "thin.json") counting_rng with
    | Ok (self', g) =>
        (Return self', mkWorld (mkConsole ["4"] out') sample_env g blank)
    | Raise e =>
        (Stop (Exception e),
         with_term (mkConsole ["4"] out')
           (sample_world ["notes.txt"; "missing.json"; "thin.json"; "4"]))
    end.
Proof.
  apply (change_config_file_first_valid sample_system Main.new
           (sample_world ["notes.txt"; "missing.json"; "thin.json"; "4"])
           ["zero.json"; "thin.json"; "notes.txt"]
           ["notes.txt"; "missing.json"] "thin.json" ["4"]);
    [reflexivity | reflexivity | repeat constructor | reflexivity].
Defined.

Example menu_shown :
  stdout (show_menu (mkConsole [] [])) =
  [menu_heading; tab +:+ "[1] Draw Pattern"; tab +:+ "[2] Change Config File";
   tab +:+ "[3] New Config File"; tab +:+ "[4] Quit"].
Proof. reflexivity. Qed.

(** ** [__menu] and [run] *)

(** [__draw_pattern] never returns: it ends in [sys.exit()] or in an
    earlier exception. *)
Lemma draw_never_returns (self : Main.t) (s : canvas) a s' :
  Main.__draw_pattern self s <> (Ok a, s').
Proof.
  unfold Main.__draw_pattern, dbind.
  destruct (Main.position self s) as [[[]|e] s1]; [|discriminate].
  destruct (for_each (Main.pattern self) (Main.draw_row self) s1)
    as [[[]|e] s2]; [|discriminate].
  rewrite finish_run. discriminate.
Qed.

Lemma range_input_shortens int text lower upper c n c' :
  _range_input int text lower upper c = (Return n, c') ->
  (length (stdin c') < length (stdin c))%nat.
Proof.
  intros H. apply range_input_from_returns in H as (_ & pre & line & -> & _).
  rewrite length_app. cbn [length]. lia.
Qed.

Lemma colour_input_shortens text text_2 max_ c rs c' :
  _colour_input text text_2 max_ c = (Return rs, c') ->
  (length (stdin c') <= length (stdin c))%nat.
Proof.
  intros H. apply colour_input_from_returns in H as (consumed & -> & _).
  rewrite length_app. lia.
Qed.

Lemma create_config_file_shortens sys w w' :
  __create_config_file sys w = (Return tt, w') ->
  (length (stdin (term w')) < length (stdin (term w)))%nat.
Proof.
  unfold __create_config_file. intros H.
  apply ask_returns in H as (width & c1 & Hw & H).
  apply ask_returns in H as (height & c2 & Hh & H).
  apply ask_returns in H as (speed & c3 & Hsp & H).
  apply ask_returns in H as (side & c4 & Hsl & H).
  apply ask_returns in H as (colours & c5 & Hcol & H).
  apply range_input_shortens in Hw, Hh, Hsp, Hsl.
  apply colour_input_shortens in Hcol.
  cbn [with_term term files random screen] in *.
  destruct (random_string 5 (random w)) as [[rand_str g]|e]; [|discriminate].
  cbn [term files random screen] in H.
  destruct (writable sys (files w) _); [|discriminate].
  injection H as <-. cbn [term print stdin]. lia.
Qed.

Lemma change_config_file_shortens sys self w self' w' :
  __change_config_file sys self w = (Return self', w') ->
  (length (stdin (term w')) < length (stdin (term w)))%nat.
Proof.
  unfold __change_config_file.
  destruct (listdir sys (files w) _ALT_CONFIGS_FOLDER) as [items|e];
    [|discriminate].
  rewrite prints_keep_stdin.
  destruct (pick_file_from _ _ _) as [[fn|e] c2] eqn:Hpick; [|discriminate].
  destruct (Main.__config _ _ _ _) as [[m g]|e]; [|discriminate].
  intros H. injection H as _ <-.
  apply pick_file_returns in Hpick as (pre & Hin & _).
  cbn [print stdin term] in *. rewrite Hin, length_app. cbn [length]. lia.
Qed.

Lemma show_menu_stdin c : stdin (show_menu c) = stdin c.
Proof. reflexivity. Qed.

(** More turns than lines change nothing. *)
Lemma menu_loop_turns sys n :
  forall turns1 turns2 self w,
    (length (stdin (term w)) <= n)%nat ->
    (n <= turns1)%nat -> (n <= turns2)%nat ->
    menu_loop turns1 sys self w = menu_loop turns2 sys self w.
Proof.
  induction n as [|n IH]; intros turns1 turns2 self w Hlen H1 H2.
  - destruct w as [[lines out] E g s]. cbn [term stdin] in Hlen.
    destruct lines; [|cbn in Hlen; lia].
    destruct turns1, turns2; reflexivity.
  - destruct turns1 as [|t1]; [lia|]. destruct turns2 as [|t2]; [lia|].
    cbn [menu_loop]. unfold input. rewrite show_menu_stdin.
    destruct (stdin (term w)) as [|choice rest] eqn:Hin; [reflexivity|].
    cbn [length] in Hlen. cbv zeta.
    destruct (String.eqb choice "1").
    { destruct (Main.__draw_pattern self _) as [[a|e] s]; [|reflexivity].
      apply IH; cbn [with_term term stdin]; lia. }
    destruct (String.eqb choice "2").
    { destruct (__change_config_file sys self _) as [[self'|e] w2] eqn:Hc;
        [|reflexivity].
      apply change_config_file_shortens in Hc.
      cbn [with_term term stdin] in Hc. apply IH; lia. }
    destruct (String.eqb choice "3").
    { destruct (__create_config_file sys _) as [[[]|e] w2] eqn:Hc;
        [|reflexivity].
      apply create_config_file_shortens in Hc.
      cbn [with_term term stdin] in Hc. apply IH; lia. }
    destruct (String.eqb choice "4"); [reflexivity|].
    apply IH; cbn [with_term term print stdin]; lia.
Qed.

(** The loop of [__menu] as the source writes it. *)
Lemma menu_turn (sys : system) (self : Main.t) (w : world) :
  __menu sys self w =
  match input EmptyString (show_menu (term w)) with
  | (Stop e, c) => (Stop e, with_term c w)
  | (Return choice, c) =>
      let w1 := with_term c w in
      if String.eqb choice "1" then
        match Main.__draw_pattern self (screen w1) with
        | (Ok _, s) =>
            __menu sys self (mkWorld (term w1) (files w1) (random w1) s)
        | (Raise e, s) =>
            (Stop (Exception e), mkWorld (term w1) (files w1) (random w1) s)
        end
      else if String.eqb choice "2" then
        match __change_config_file sys self w1 with
        | (Return self', w2) => __menu sys self' w2
        | (Stop e, w2) => (Stop e, w2)
        end
      else if String.eqb choice "3" then
        match __create_config_file sys w1 with
        | (Return _, w2) => __menu sys self w2
        | (Stop e, w2) => (Stop e, w2)
        end
      else if String.eqb choice "4" then (Return self, w1)
      else __menu sys self (with_term (print invalid_choice c) w1)
  end.
Proof.
  unfold __menu at 1.
  destruct (stdin (term w)) as [|choice rest] eqn:Hin;
    cbn [length menu_loop]; unfold input; rewrite show_menu_stdin, Hin;
    [reflexivity|].
  cbv zeta. unfold __menu.
  destruct (String.eqb choice "1").
  { destruct (Main.__draw_pattern self _) as [[a|e] s]; [|reflexivity].
    apply (menu_loop_turns sys (length rest));
      cbn [with_term term stdin]; lia. }
  destruct (String.eqb choice "2").
  { destruct (__change_config_file sys self _) as [[self'|e] w2] eqn:Hc;
      [|reflexivity].
    apply change_config_file_shortens in Hc.
    cbn [with_term term stdin] in Hc.
    apply (menu_loop_turns sys (length (stdin (term w2)))); lia. }
  destruct (String.eqb choice "3").
  { destruct (__create_config_file sys _) as [[[]|e] w2] eqn:Hc;
      [|reflexivity].
    apply create_config_file_shortens in Hc.
    cbn [with_term term stdin] in Hc.
    apply (menu_loop_turns sys (length (stdin (term w2)))); lia. }
  destruct (String.eqb choice "4"); [reflexivity|].
  apply (menu_loop_turns sys (length rest));
    cbn [with_term term print stdin]; lia.
Qed.

Lemma show_menu_stdout c : stdout (show_menu c) = stdout c ++ menu_text.
Proof.
  unfold menu_text, show_menu, _MENU_ITEMS. cbn [print_items print stdout].
  rewrite <- !app_assoc. reflexivity.
Qed.

Lemma create_config_file_reads sys w w' :
  __create_config_file sys w = (Return tt, w') ->
  exists consumed, stdin (term w) = consumed ++ stdin (term w').
Proof.
  unfold __create_config_file. intros H.
  apply ask_returns in H as (width & c1 & Hw & H).
  apply ask_returns in H as (height & c2 & Hh & H).
  apply ask_returns in H as (speed & c3 & Hsp & H).
  apply ask_returns in H as (side & c4 & Hsl & H).
  apply ask_returns in H as (colours & c5 & Hcol & H).
  apply range_input_from_returns in Hw as (_ & p1 & l1 & E1 & _).
  apply range_input_from_returns in Hh as (_ & p2 & l2 & E2 & _).
  apply range_input_from_returns in Hsp as (_ & p3 & l3 & E3 & _).
  apply range_input_from_returns in Hsl as (_ & p4 & l4 & E4 & _).
  apply colour_input_from_returns in Hcol as (p5 & E5 & _).
  cbn [with_term term files random screen] in *.
  destruct (random_string 5 (random w)) as [[rand_str g]|e]; [|discriminate].
  cbn [term files random screen] in H.
  destruct (writable sys (files w) _); [|discriminate].
  injection H as <-. cbn [term print stdin].
  exists (p1 ++ l1 :: p2 ++ l2 :: p3 ++ l3 :: p4 ++ l4 :: p5).
  rewrite E1, E2, E3, E4, E5.
  repeat (rewrite <- app_assoc; cbn [app]). reflexivity.
Qed.

Lemma change_config_file_reads sys self w self' w' :
  __change_config_file sys self w = (Return self', w') ->
  (exists consumed, stdin (term w) = consumed ++ stdin (term w')) /\
  screen w' = screen w.
Proof.
  unfold __change_config_file.
  destruct (listdir sys (files w) _ALT_CONFIGS_FOLDER) as [items|e];
    [|discriminate].
  rewrite prints_keep_stdin.
  destruct (pick_file_from _ _ _) as [[fn|e] c2] eqn:Hpick; [|discriminate].
  destruct (Main.__config _ _ _ _) as [[m g]|e]; [|discriminate].
  intros H. injection H as _ <-.
  apply pick_file_returns in Hpick as (pre & Hin & _).
  cbn [print stdin term screen] in *. split; [|reflexivity].
  exists (pre ++ [fn]). rewrite Hin, <- app_assoc. reflexivity.
Qed.

Lemma menu_loop_returns sys turns :
  forall self w self' w',
    menu_loop turns sys self w = (Return self', w') ->
    (exists pre, stdin (term w) = pre ++ "4" :: stdin (term w')) /\
    screen w' = screen w.
Proof.
  induction turns as [|turns IH]; intros self w self' w';
    cbn [menu_loop]; unfold input; rewrite show_menu_stdin;
    destruct (stdin (term w)) as [|choice rest] eqn:Hin; try discriminate.
  cbv zeta. cbn [with_term term files random screen].
  destruct (String.eqb_spec choice "1") as [_|_].
  { destruct (Main.__draw_pattern self (screen w)) as [[a|e] s] eqn:Hd;
      [|discriminate].
    exfalso. exact (draw_never_returns _ _ _ _ Hd). }
  destruct (String.eqb_spec choice "2") as [_|_].
  { destruct (__change_config_file sys self _) as [[m|e] w2] eqn:Hc;
      [|discriminate].
    intros H. apply IH in H as [[pre Hpre] Hs].
    apply change_config_file_reads in Hc as [[consumed Hc] Hs2].
    cbn [with_term term stdin screen] in Hc, Hs2. split; [|congruence].
    exists (choice :: consumed ++ pre).
    rewrite Hc, Hpre. cbn [app]. rewrite <- app_assoc. reflexivity. }
  destruct (String.eqb_spec choice "3") as [_|_].
  { destruct (__create_config_file sys _) as [[[]|e] w2] eqn:Hc;
      [|discriminate].
    intros H. apply IH in H as [[pre Hpre] Hs].
    pose proof (create_config_file_effect _ _ _ Hc)
      as (? & ? & ? & ? & ? & ? & Heff).
    apply create_config_file_reads in Hc as [consumed Hc].
    cbn [with_term term stdin screen] in Hc, Heff. split; [|intuition congruence].
    exists (choice :: consumed ++ pre).
    rewrite Hc, Hpre. cbn [app]. rewrite <- app_assoc. reflexivity. }
  destruct (String.eqb_spec choice "4") as [->|_].
  { intros H. injection H as _ <-. cbn [with_term term stdin screen].
    split; [exists []|]; reflexivity. }
  intros H. apply IH in H as [[pre Hpre] Hs].
  cbn [with_term term print stdin screen] in Hpre, Hs. split; [|exact Hs].
  exists (choice :: pre). rewrite Hpre. reflexivity.
Qed.

(** [__menu] returns only by the choice [4]: the text [4] was read at the
    menu prompt, the lines after it are left unread, and nothing was drawn
    on the way, since a drawing ends the program. *)
Theorem menu_returns_only_on_quit (sys : system) (self self' : Main.t)
    (w w' : world) :
  __menu sys self w = (Return self', w') ->
  (exists pre, stdin (term w) = pre ++ "4" :: stdin (term w')) /\
  screen w' = screen w.
Proof. apply menu_loop_returns. Qed.

Lemma menu_returns_only_on_quit_witness :
  exists self' w',
    __menu sample_system Main.new
      (sample_world ["2"; "notes.txt"; "thin.json"; "x"; "4"; "1"])
    = (Return self', w') /\
    (exists pre,
       ["2"; "notes.txt"; "thin.json"; "x"; "4"; "1"]
       = pre ++ "4" :: stdin (term w')) /\
    screen w' = blank.
Proof.
  assert (H : exists self',
             __menu sample_system Main.new
               (sample_world ["2"; "notes.txt"; "thin.json"; "x"; "4"; "1"])
             = (Return self',
                snd (__menu sample_system Main.new
                       (sample_world ["2"; "notes.txt"; "thin.json"; "x";
                                      "4"; "1"])))).
  { eexists. apply run_pair. vm_compute. reflexivity. }
  destruct H as [self' H].
  eexists self', _. split; [exact H|].
  exact (menu_returns_only_on_quit _ _ _ _ _ H).
Defined.

Lemma menu_draw_raises (sys : system) (self : Main.t) (w : world)
    (rest : list string) e s' :
  stdin (term w) = "1" :: rest ->
  Main.__draw_pattern self (screen w) = (Raise e, s') ->
  __menu sys self w =
  (Stop (Exception e),
   mkWorld (mkConsole rest (stdout (term w) ++ menu_text ++ [EmptyString]))
           (files w) (random w) s').
Proof.
  intros Hin Hd. rewrite menu_turn. unfold input.
  rewrite show_menu_stdin, show_menu_stdout, Hin.
  cbv zeta.
  cbn [String.eqb Ascii.eqb Bool.eqb with_term term files random screen].
  rewrite Hd, <- app_assoc. reflexivity.
Qed.

(** The choice [1] ends the program: [__draw_pattern] never returns to the
    menu, it leaves by [SystemExit] or by the exception that stopped the
    drawing; the lines after the [1] are never read, and the files and
    the random source are as before. *)
Theorem menu_draw_ends_program (sys : system) (self : Main.t) (w : world)
    (rest : list string) :
  stdin (term w) = "1" :: rest ->
  exists e s',
    Main.__draw_pattern self (screen w) = (Raise e, s') /\
    __menu sys self w =
    (Stop (Exception e),
     mkWorld (mkConsole rest (stdout (term w) ++ menu_text ++ [EmptyString]))
             (files w) (random w) s').
Proof.
  intros Hin.
  destruct (Main.__draw_pattern self (screen w)) as [[a|e] s] eqn:Hd.
  - exfalso. exact (draw_never_returns _ _ _ _ Hd).
  - exists e, s. split; [reflexivity|].
    exact (menu_draw_raises sys self w rest e s Hin Hd).
Qed.

Lemma menu_draw_ends_program_witness :
  exists e s',
    Main.__draw_pattern Main.new blank = (Raise e, s') /\
    __menu sample_system Main.new (sample_world ["1"; "4"]) =
    (Stop (Exception e),
     mkWorld (mkConsole ["4"] ([] ++ menu_text ++ [EmptyString]))
             sample_env counting_rng s').
Proof.
  apply (menu_draw_ends_program sample_system Main.new
           (sample_world ["1"; "4"]) ["4"]).
  reflexivity.
Defined.

(** A line that is none of [1], [2], [3], [4] changes nothing: the error
    message is printed and the menu is shown again.  After any number of
    such lines the choice [4] leaves the menu with the attributes, the
    files, the random source and the canvas as they were. *)
Theorem menu_skips_unknown_choices (sys : system) (self : Main.t)
    (junk post : list string) (w : world) :
  stdin (term w) = junk ++ "4" :: post ->
  Forall unknown_choice junk ->
  __menu sys self w =
  (Return self,
   mkWorld
     (mkConsole post
        (stdout (term w)
           ++ flat_map (fun _ => menu_text ++ [EmptyString; invalid_choice])
                       junk
           ++ menu_text ++ [EmptyString]))
     (files w) (random w) (screen w)).
Proof.
  revert w. induction junk as [|line junk IH]; intros w Hin Hjunk.
  - rewrite menu_turn. unfold input.
    rewrite show_menu_stdin, show_menu_stdout, Hin.
    cbn [app flat_map]. cbv zeta.
    cbn [String.eqb Ascii.eqb Bool.eqb with_term term files random screen].
    rewrite <- app_assoc. reflexivity.
  - apply Forall_cons_iff in Hjunk as [(H1 & H2 & H3 & H4) Hjunk].
    rewrite menu_turn. unfold input.
    rewrite show_menu_stdin, show_menu_stdout, Hin.
    cbn [app]. cbv zeta.
    apply String.eqb_neq in H1, H2, H3, H4. rewrite H1, H2, H3, H4.
    rewrite IH by (try exact Hjunk; reflexivity).
    cbn [with_term term files random screen print stdin stdout flat_map].
    rewrite <- !app_assoc. reflexivity.
Qed.

Lemma menu_skips_unknown_choices_witness :
  Forall unknown_choice ["draw"; "5"; EmptyString] /\
  __menu sample_system Main.new (sample_world ["draw"; "5"; EmptyString; "4"; "1"]) =
  (Return Main.new,
   mkWorld
     (mkConsole ["1"]
        ([] ++ flat_map (fun _ => menu_text ++ [EmptyString; invalid_choice])
                        ["draw"; "5"; EmptyString]
            ++ menu_text ++ [EmptyString]))
     sample_env counting_rng blank).
Proof.
  assert (H : Forall unknown_choice ["draw"; "5"; EmptyString])
    by (repeat constructor; discriminate).
  split; [exact H|].
  apply (menu_skips_unknown_choices sample_system Main.new
           ["draw"; "5"; EmptyString] ["1"]
           (sample_world ["draw"; "5"; EmptyString; "4"; "1"]));
    [reflexivity | exact H].
Defined.


(** ** [Main.run] from the configuration to the drawing *)



(** ** Python's quotient and the model's *)

(** What [round(a / b)] gives through the binary64 quotient, as the
    program computes it, is the rounding of the exact quotient used in
    this development, for every dividend below [2^52] in magnitude and
    every divisor other than 0: no [OverflowError], and the same
    integer. *)
Theorem int_truediv_round (a b : Z) :
  b <> 0 -> Z.abs a < 2 ^ 52 ->
  exists f, int_truediv a b = Some f /\
            round f = round (Qred (inject_Z a / inject_Z b)).
Proof. exact (int_truediv_agrees a b). Qed.

Lemma int_truediv_round_witness :
  int_truediv 1 3 = Some (6004799503160661 # 18014398509481984)%Q /\
  exists f, int_truediv 1 3 = Some f /\
            round f = round (Qred (inject_Z 1 / inject_Z 3)).
Proof.
  split; [vm_compute; reflexivity|].
  apply (int_truediv_round 1 3); [discriminate | reflexivity].
Defined.

(** Beyond the bound the two part: a quotient just above one half whose
    binary64 value is one half, a dividend that is no binary64 number, a
    quotient too large for a float, and (harmless) one that underflows to
    zero. *)
Example int_truediv_beyond :
  int_truediv (2 ^ 60 + 1) (2 ^ 61) = Some (1 # 2)%Q /\
  round (1 # 2)%Q = 0 /\
  round (Qred (inject_Z (2 ^ 60 + 1) / inject_Z (2 ^ 61))) = 1 /\
  int_truediv (2 ^ 53 + 1) 1 = Some (inject_Z (2 ^ 53)) /\
  int_truediv (10 ^ 400) 1 = None /\
  int_truediv 7 (10 ^ 400) = Some 0%Q.
Proof. repeat split; vm_compute; reflexivity. Qed.
